(** * ArtistHub API: a shallow embedding of the Lambda handlers

    The repository is a set of stateless HTTP handlers (user profiles,
    casting jobs, sign-up/login, a legacy task table) over a document
    store, plus a request authorizer.  Each handler is embedded as a
    function of the request event and of the world it runs in; the world
    holds the tables and answers every read of the environment (clock,
    uuid generator, datastore faults, identity provider). *)

From Stdlib Require Import ZArith Lia Ascii String DecimalString.
From Stdlib Require DecimalN.
From stdpp Require Import base option list strings gmap.

Open Scope Z_scope.
Open Scope string_scope.

(** ** JavaScript values

    Everything the handlers touch is JSON data: request bodies come out
    of [JSON.parse], stored items come out of the document client.
    [undefined] is not a JSON value; a property read yields an
    [option value] where [None] stands for [undefined].  Numbers are
    restricted to integers: the handlers only test them for truthiness
    and pass them on. *)

Unset Elimination Schemes.
Inductive value : Type :=
| VNull
| VBool (b : bool)
| VNum (n : Z)
| VStr (s : string)
| VArr (xs : list value)
| VObj (fields : list (string * value)).
Set Elimination Schemes.

(** An object is the list of its own properties in property order. *)
Abbreviation obj := (list (string * value)).

Module Authorizer.

(** src/unnamed/part_000, second file: the API-gateway authorizer. *)

Inductive effect := Allow | Deny.

Record event := {
  headers : gmap string string;
  routeArn : option string
}.

Record statement := {
  Action : string;
  Effect : effect;
  Resource : option string
}.

Record authResponse := {
  principalId : string;
  policy_Version : string;
  policy_Statement : list statement;
  context : list (string * string)
}.

Definition generatePolicy (principal : string) (eff : effect)
    (resource : option string) (ctx : list (string * string)) : authResponse :=
  {| principalId := principal;
     policy_Version := "2012-10-17";
     policy_Statement :=
       [ {| Action := "execute-api:Invoke"; Effect := eff; Resource := resource |} ];
     context := ctx |}.

(** [a || b] on two header reads: a header value is a string, and the
    empty string is falsy like [undefined]. *)
Definition or_else (a b : option string) : option string :=
  match a with
  | Some s => if decide (s = "") then b else Some s
  | None => b
  end.

Definition token (ev : event) : option string :=
  or_else (headers ev !! "Authorization") (headers ev !! "authorization").

Definition handler (ev : event) : authResponse :=
  if decide (token ev = Some "Bearer mysecrettoken") then
    generatePolicy "user" Allow (routeArn ev) [("poweredBy", "Artisthub")]
  else
    generatePolicy "user" Deny (routeArn ev)
      [("poweredBy", "Artisthub"); ("reason", "Invalid token")].

Definition granted (r : authResponse) : Prop :=
  Forall (fun s => Effect s = Allow) (policy_Statement r).

Definition denied (r : authResponse) : Prop :=
  Forall (fun s => Effect s = Deny) (policy_Statement r).

End Authorizer.


(** ** Core JavaScript operations on values *)

Module Js.

(** [!!v]: what [if (v)], [!v], [a || b] and [a && b] test. *)
Definition truthy (v : value) : bool :=
  match v with
  | VNull => false
  | VBool b => b
  | VNum n => negb (n =? 0)%Z
  | VStr s => negb (bool_decide (s = ""))
  | VArr _ | VObj _ => true
  end.

Definition truthy_opt (o : option value) : bool :=
  match o with Some v => truthy v | None => false end.

(** [a || b] when [b] is a value. *)
Definition or_default (a : option value) (b : value) : value :=
  match a with
  | Some v => if truthy v then v else b
  | None => b
  end.

(** Own-property read of an object. *)
Fixpoint obj_get (k : string) (o : obj) : option value :=
  match o with
  | [] => None
  | (k', v) :: o' => if decide (k = k') then Some v else obj_get k o'
  end.

(** Property assignment: in place when the property exists, appended
    otherwise. *)
Fixpoint obj_set (k : string) (v : value) (o : obj) : obj :=
  match o with
  | [] => [(k, v)]
  | (k', v') :: o' =>
      if decide (k = k') then (k', v) :: o' else (k', v') :: obj_set k v o'
  end.

Fixpoint obj_remove (k : string) (o : obj) : obj :=
  match o with
  | [] => []
  | (k', v') :: o' =>
      if decide (k = k') then obj_remove k o' else (k', v') :: obj_remove k o'
  end.

Definition keys (o : obj) : list string := map fst o.

(** Assigning a list of properties one after the other. *)
Definition assign (o : obj) (kvs : obj) : obj :=
  fold_left (fun acc kv => obj_set (fst kv) (snd kv) acc) kvs o.

(** [v[k]] for a value that is not [null]: primitives and arrays have
    none of the property names the handlers read. *)
Definition prop (v : value) (k : string) : option value :=
  match v with
  | VObj o => obj_get k o
  | _ => None
  end.

(** [v?.k] on a value that may be [undefined] or [null]. *)
Definition opt_prop (v : option value) (k : string) : option value :=
  match v with
  | Some VNull | None => None
  | Some w => prop w k
  end.

(** Structural equality of JSON data (what the datastore compares). *)
Fixpoint value_eqb (a b : value) {struct a} : bool :=
  match a, b with
  | VNull, VNull => true
  | VBool x, VBool y => Bool.eqb x y
  | VNum x, VNum y => (x =? y)%Z
  | VStr x, VStr y => bool_decide (x = y)
  | VArr xs, VArr ys =>
      (fix go (xs ys : list value) {struct xs} : bool :=
         match xs, ys with
         | [], [] => true
         | x :: xs', y :: ys' => value_eqb x y && go xs' ys'
         | _, _ => false
         end) xs ys
  | VObj xo, VObj yo =>
      (fix go (xo yo : obj) {struct xo} : bool :=
         match xo, yo with
         | [], [] => true
         | (kx, x) :: xo', (ky, y) :: yo' =>
             bool_decide (kx = ky) && value_eqb x y && go xo' yo'
         | _, _ => false
         end) xo yo
  | _, _ => false
  end.

(** [a === b] between two values obtained independently (a parsed
    request against a stored item, a literal against either): two
    primitives are compared by value; an array or an object is only
    identical to itself, never to a separately built one. *)
Definition strict_eq (a b : option value) : bool :=
  match a, b with
  | None, None => true
  | Some VNull, Some VNull => true
  | Some (VBool x), Some (VBool y) => Bool.eqb x y
  | Some (VNum x), Some (VNum y) => (x =? y)%Z
  | Some (VStr x), Some (VStr y) => bool_decide (x = y)
  | _, _ => false
  end.

(** The values that [===] compares by value. *)
Definition primitive (v : value) : bool :=
  match v with
  | VArr _ | VObj _ => false
  | _ => true
  end.

(** [arr.join(sep)] on an array of strings. *)
Fixpoint join (sep : string) (l : list string) : string :=
  match l with
  | [] => ""
  | [x] => x
  | x :: rest => x ++ sep ++ join sep rest
  end.

End Js.

(** ** Text: characters, UTF-8, base64, JSON

    A JavaScript string is represented by the bytes of its UTF-8
    encoding; strings holding unpaired surrogates have no
    representation. *)

Module Text.

Definition code (c : ascii) : N := N_of_ascii c.

Definition dquote : ascii := "034"%char.
Definition backslash : ascii := "\"%char.

Definition in_range (lo hi : N) (c : ascii) : bool :=
  ((lo <=? code c) && (code c <=? hi))%N.

Definition is_digit (c : ascii) : bool := in_range 48 57 c.

(** *** [Buffer.from(s)] and [buf.toString()] with the default utf8
    encoding.  Encoding a string yields its bytes.  Decoding keeps
    every well-formed sequence and substitutes U+FFFD for each maximal
    ill-formed prefix, as the WHATWG decoder does. *)

Definition replacement : string := String "239" (String "191" (String "189" "")).

Definition cont (c : ascii) : bool := in_range 128 191 c.

Fixpoint utf8_decode (s : string) : string :=
  match s with
  | "" => ""
  | String b0 r0 =>
      if (code b0 <? 128)%N then String b0 (utf8_decode r0)
      else if in_range 194 223 b0 then
        match r0 with
        | String b1 r1 =>
            if cont b1 then String b0 (String b1 (utf8_decode r1))
            else replacement ++ utf8_decode r0
        | "" => replacement
        end
      else if in_range 224 239 b0 then
        match r0 with
        | String b1 r1 =>
            if in_range (if (code b0 =? 224)%N then 160 else 128)
                        (if (code b0 =? 237)%N then 159 else 191) b1 then
              match r1 with
              | String b2 r2 =>
                  if cont b2 then
                    String b0 (String b1 (String b2 (utf8_decode r2)))
                  else replacement ++ utf8_decode r1
              | "" => replacement
              end
            else replacement ++ utf8_decode r0
        | "" => replacement
        end
      else if in_range 240 244 b0 then
        match r0 with
        | String b1 r1 =>
            if in_range (if (code b0 =? 240)%N then 144 else 128)
                        (if (code b0 =? 244)%N then 143 else 191) b1 then
              match r1 with
              | String b2 r2 =>
                  if cont b2 then
                    match r2 with
                    | String b3 r3 =>
                        if cont b3 then
                          String b0 (String b1 (String b2 (String b3 (utf8_decode r3))))
                        else replacement ++ utf8_decode r2
                    | "" => replacement
                    end
                  else replacement ++ utf8_decode r1
              | "" => replacement
              end
            else replacement ++ utf8_decode r0
        | "" => replacement
        end
      else replacement ++ utf8_decode r0
  end.

(** The strings that represent a JavaScript string. *)
Definition well_formed (s : string) : Prop := utf8_decode s = s.

Definition Buffer_from_utf8 (s : string) : list ascii := list_ascii_of_string s.
Definition Buffer_toString (b : list ascii) : string :=
  utf8_decode (string_of_list_ascii b).

(** *** Well-formed texts, by their bytes *)

(** Strings of ASCII characters, and strings of bytes above them. *)
Fixpoint low (s : string) : bool :=
  match s with
  | "" => true
  | String c r => (code c <? 128)%N && low r
  end.

Fixpoint high (s : string) : bool :=
  match s with
  | "" => true
  | String c r => (128 <=? code c)%N && high r
  end.

(** A sequence of bytes that the decoder always copies. *)
Definition copied (chunk : string) : Prop :=
  chunk <> "" /\ high chunk = true /\
  forall t, utf8_decode (chunk ++ t) = chunk ++ utf8_decode t.

End Text.

(** *** base64: [buf.toString('base64')] and [Buffer.from(s, 'base64')] *)

Module Base64.
Import Text.

Definition alphabet : string :=
  "ABCDEFGHIJKLMNOPQRSTUVWXYZabcdefghijklmnopqrstuvwxyz0123456789+/".

Definition pad : ascii := "="%char.

(** A sextet is kept in the low six bits of a byte. *)
Definition digit (s : ascii) : ascii :=
  match String.get (nat_of_ascii s) alphabet with
  | Some c => c
  | None => pad
  end.

Definition sextet1 (x : ascii) : ascii :=
  let 'Ascii x0 x1 x2 x3 x4 x5 x6 x7 := x in
  Ascii x2 x3 x4 x5 x6 x7 false false.
Definition sextet2 (x y : ascii) : ascii :=
  let 'Ascii x0 x1 x2 x3 x4 x5 x6 x7 := x in
  let 'Ascii y0 y1 y2 y3 y4 y5 y6 y7 := y in
  Ascii y4 y5 y6 y7 x0 x1 false false.
Definition sextet3 (y z : ascii) : ascii :=
  let 'Ascii y0 y1 y2 y3 y4 y5 y6 y7 := y in
  let 'Ascii z0 z1 z2 z3 z4 z5 z6 z7 := z in
  Ascii z6 z7 y0 y1 y2 y3 false false.
Definition sextet4 (z : ascii) : ascii :=
  let 'Ascii z0 z1 z2 z3 z4 z5 z6 z7 := z in
  Ascii z0 z1 z2 z3 z4 z5 false false.

Fixpoint encode (bs : list ascii) : string :=
  match bs with
  | [] => ""
  | [x] =>
      String (digit (sextet1 x)) (String (digit (sextet2 x zero))
        (String pad (String pad "")))
  | [x; y] =>
      String (digit (sextet1 x)) (String (digit (sextet2 x y))
        (String (digit (sextet3 y zero)) (String pad "")))
  | x :: y :: z :: rest =>
      String (digit (sextet1 x)) (String (digit (sextet2 x y))
        (String (digit (sextet3 y z)) (String (digit (sextet4 z)) (encode rest))))
  end.

Fixpoint index_of (c : ascii) (s : string) (i : N) : option N :=
  match s with
  | "" => None
  | String d s' => if Ascii.eqb c d then Some i else index_of c s' (N.succ i)
  end.

(** The decoder also accepts the URL-safe digits. *)
Definition unbase64 (c : ascii) : option ascii :=
  if Ascii.eqb c "-" then Some (ascii_of_N 62)
  else if Ascii.eqb c "_" then Some (ascii_of_N 63)
  else ascii_of_N <$> index_of c alphabet 0.

(** Characters that are no digit are skipped; the first padding
    character ends the input. *)
Fixpoint sextets (s : string) : list ascii :=
  match s with
  | "" => []
  | String c s' =>
      match unbase64 c with
      | Some x => x :: sextets s'
      | None => if Ascii.eqb c pad then [] else sextets s'
      end
  end.

Definition byte1 (a b : ascii) : ascii :=
  let 'Ascii a0 a1 a2 a3 a4 a5 _ _ := a in
  let 'Ascii b0 b1 b2 b3 b4 b5 _ _ := b in
  Ascii b4 b5 a0 a1 a2 a3 a4 a5.
Definition byte2 (b c : ascii) : ascii :=
  let 'Ascii b0 b1 b2 b3 b4 b5 _ _ := b in
  let 'Ascii c0 c1 c2 c3 c4 c5 _ _ := c in
  Ascii c2 c3 c4 c5 b0 b1 b2 b3.
Definition byte3 (c d : ascii) : ascii :=
  let 'Ascii c0 c1 c2 c3 c4 c5 _ _ := c in
  let 'Ascii d0 d1 d2 d3 d4 d5 _ _ := d in
  Ascii d0 d1 d2 d3 d4 d5 c0 c1.

Fixpoint regroup (l : list ascii) : list ascii :=
  match l with
  | a :: b :: c :: d :: rest => byte1 a b :: byte2 b c :: byte3 c d :: regroup rest
  | [a; b; c] => [byte1 a b; byte2 b c]
  | [a; b] => [byte1 a b]
  | _ => []
  end.

Definition decode (s : string) : list ascii := regroup (sextets s).

End Base64.

(** *** [JSON.stringify] and [JSON.parse] *)

Module JSON.
Import Text.

Definition hex_digit (n : N) : ascii :=
  match String.get (N.to_nat n) "0123456789abcdef" with
  | Some c => c
  | None => "0"%char
  end.

(** QuoteJSONString, one character at a time. *)
Definition escape (c : ascii) : string :=
  if Ascii.eqb c dquote then String backslash (String dquote "")
  else if Ascii.eqb c backslash then "\\"
  else if Ascii.eqb c "008" then "\b"
  else if Ascii.eqb c "012" then "\f"
  else if Ascii.eqb c "010" then "\n"
  else if Ascii.eqb c "013" then "\r"
  else if Ascii.eqb c "009" then "\t"
  else if (code c <? 32)%N then
    "\u00" ++ String (hex_digit (code c / 16)) (String (hex_digit (code c mod 16)) "")
  else String c "".

Fixpoint escape_all (s : string) : string :=
  match s with
  | "" => ""
  | String c s' => escape c ++ escape_all s'
  end.

Definition quote (s : string) : string :=
  String dquote (escape_all s ++ String dquote "").

Definition digits (n : N) : string := NilZero.string_of_uint (N.to_uint n).

Definition number (n : Z) : string :=
  if (n <? 0)%Z then String "-" (digits (Z.abs_N n)) else digits (Z.abs_N n).

Fixpoint stringify (v : value) : string :=
  match v with
  | VNull => "null"
  | VBool true => "true"
  | VBool false => "false"
  | VNum n => number n
  | VStr s => quote s
  | VArr xs => "[" ++ Js.join "," (map stringify xs) ++ "]"
  | VObj o =>
      "{" ++ Js.join "," (map (fun kv => quote (fst kv) ++ ":" ++ stringify (snd kv)) o)
          ++ "}"
  end.

(** **** Parsing *)

Definition is_ws (c : ascii) : bool :=
  Ascii.eqb c " " || Ascii.eqb c "009" || Ascii.eqb c "010" || Ascii.eqb c "013".

Fixpoint skip_ws (s : string) : string :=
  match s with
  | String c s' => if is_ws c then skip_ws s' else s
  | "" => ""
  end.

Definition hex_value (c : ascii) : option N :=
  if is_digit c then Some (code c - 48)%N
  else if in_range 97 102 c then Some (code c - 87)%N
  else if in_range 65 70 c then Some (code c - 55)%N
  else None.

(** The UTF-8 bytes of one escaped code unit. *)
Definition utf8_of_unit (u : N) : string :=
  if (u <? 128)%N then String (ascii_of_N u) ""
  else if (u <? 2048)%N then
    String (ascii_of_N (192 + u / 64)) (String (ascii_of_N (128 + u mod 64)) "")
  else
    String (ascii_of_N (224 + u / 4096))
      (String (ascii_of_N (128 + (u / 64) mod 64))
         (String (ascii_of_N (128 + u mod 64)) "")).

Definition prepend (p : string) (r : option (string * string)) : option (string * string) :=
  match r with
  | Some (s, rest) => Some (p ++ s, rest)
  | None => None
  end.

(** The characters of a string literal after its opening quote, up to
    and including the closing quote. *)
Fixpoint parse_chars (s : string) : option (string * string) :=
  match s with
  | "" => None
  | String c rest =>
      if Ascii.eqb c dquote then Some ("", rest)
      else if Ascii.eqb c backslash then
        match rest with
        | String e rest' =>
            if Ascii.eqb e dquote then prepend (String dquote "") (parse_chars rest')
            else if Ascii.eqb e backslash then prepend "\" (parse_chars rest')
            else if Ascii.eqb e "/" then prepend "/" (parse_chars rest')
            else if Ascii.eqb e "b" then prepend (String "008" "") (parse_chars rest')
            else if Ascii.eqb e "f" then prepend (String "012" "") (parse_chars rest')
            else if Ascii.eqb e "n" then prepend (String "010" "") (parse_chars rest')
            else if Ascii.eqb e "r" then prepend (String "013" "") (parse_chars rest')
            else if Ascii.eqb e "t" then prepend (String "009" "") (parse_chars rest')
            else if Ascii.eqb e "u" then
              match rest' with
              | String h1 (String h2 (String h3 (String h4 rest''))) =>
                  match hex_value h1, hex_value h2, hex_value h3, hex_value h4 with
                  | Some a, Some b, Some c', Some d =>
                      prepend (utf8_of_unit (((a * 16 + b) * 16 + c') * 16 + d)%N)
                              (parse_chars rest'')
                  | _, _, _, _ => None
                  end
              | _ => None
              end
            else None
        | "" => None
        end
      else if (code c <? 32)%N then None
      else prepend (String c "") (parse_chars rest)
  end.

Fixpoint span_digits (s : string) : string * string :=
  match s with
  | String c s' =>
      if is_digit c then let '(d, r) := span_digits s' in (String c d, r)
      else ("", s)
  | "" => ("", "")
  end.

Definition starts_fraction (s : string) : bool :=
  match s with
  | String c _ => Ascii.eqb c "." || Ascii.eqb c "e" || Ascii.eqb c "E"
  | "" => false
  end.

(** An unsigned integer literal: no leading zero, and neither a
    fraction nor an exponent (numbers are integers here). *)
Definition parse_natural (s : string) : option (N * string) :=
  let '(d, r) := span_digits s in
  match d with
  | "" => None
  | String c d' =>
      if Ascii.eqb c "0" && negb (bool_decide (d' = "")) then None
      else if starts_fraction r then None
      else match NilEmpty.uint_of_string d with
           | Some u => Some (N.of_uint u, r)
           | None => None
           end
  end.

Definition parse_number (s : string) : option (value * string) :=
  match s with
  | String c s' =>
      if Ascii.eqb c "-" then
        match parse_natural s' with
        | Some (n, r) => Some (VNum (- Z.of_N n), r)
        | None => None
        end
      else
        match parse_natural s with
        | Some (n, r) => Some (VNum (Z.of_N n), r)
        | None => None
        end
  | "" => None
  end.

Fixpoint strip (lit : string) (s : string) : option string :=
  match lit, s with
  | "", _ => Some s
  | String a lit', String b s' => if Ascii.eqb a b then strip lit' s' else None
  | _, "" => None
  end.

Definition keyword (lit : string) (v : value) (s : string) : option (value * string) :=
  match strip lit s with
  | Some r => Some (v, r)
  | None => None
  end.

(** A later member with the same name overrides the value of an
    earlier one, which keeps its place. *)
Definition add_member (k : string) (v : value) (o : obj) : obj :=
  match Js.obj_get k o with
  | Some v' => (k, v') :: Js.obj_remove k o
  | None => (k, v) :: o
  end.

Fixpoint parse_value (fuel : nat) (s : string) {struct fuel} : option (value * string) :=
  match fuel with
  | O => None
  | S fuel' =>
      match skip_ws s with
      | "" => None
      | String c rest =>
          if Ascii.eqb c "n" then keyword "ull" VNull rest
          else if Ascii.eqb c "t" then keyword "rue" (VBool true) rest
          else if Ascii.eqb c "f" then keyword "alse" (VBool false) rest
          else if Ascii.eqb c dquote then
            match parse_chars rest with
            | Some (str, r) => Some (VStr str, r)
            | None => None
            end
          else if Ascii.eqb c "[" then
            match skip_ws rest with
            | String "]" r => Some (VArr [], r)
            | _ =>
                match parse_elements fuel' rest with
                | Some (xs, r) => Some (VArr xs, r)
                | None => None
                end
            end
          else if Ascii.eqb c "{" then
            match skip_ws rest with
            | String "}" r => Some (VObj [], r)
            | _ =>
                match parse_members fuel' rest with
                | Some (o, r) => Some (VObj o, r)
                | None => None
                end
            end
          else parse_number (String c rest)
      end
  end
with parse_elements (fuel : nat) (s : string) {struct fuel} : option (list value * string) :=
  match fuel with
  | O => None
  | S fuel' =>
      match parse_value fuel' s with
      | Some (v, r) =>
          match skip_ws r with
          | String "," r' =>
              match parse_elements fuel' r' with
              | Some (vs, r'') => Some (v :: vs, r'')
              | None => None
              end
          | String "]" r' => Some ([v], r')
          | _ => None
          end
      | None => None
      end
  end
with parse_members (fuel : nat) (s : string) {struct fuel} : option (obj * string) :=
  match fuel with
  | O => None
  | S fuel' =>
      match skip_ws s with
      | String c r0 =>
          if Ascii.eqb c dquote then
            match parse_chars r0 with
            | Some (k, r1) =>
                match skip_ws r1 with
                | String ":" r2 =>
                    match parse_value fuel' r2 with
                    | Some (v, r3) =>
                        match skip_ws r3 with
                        | String "," r4 =>
                            match parse_members fuel' r4 with
                            | Some (o, r5) => Some (add_member k v o, r5)
                            | None => None
                            end
                        | String "}" r4 => Some ([(k, v)], r4)
                        | _ => None
                        end
                    | None => None
                    end
                | _ => None
                end
            | None => None
            end
          else None
      | "" => None
      end
  end.

(** [JSON.parse(s)]; [None] is a thrown SyntaxError. *)
Definition parse (s : string) : option value :=
  match parse_value (S (String.length s)) s with
  | Some (v, r) => if bool_decide (skip_ws r = "") then Some v else None
  | None => None
  end.

(** **** Documents that are read back *)


(** What may follow a value inside a document: nothing, or the
    punctuation that ends an element or a member. *)
Definition delimited (rest : string) : bool :=
  match rest with
  | "" => true
  | String c _ => Ascii.eqb c "," || Ascii.eqb c "]" || Ascii.eqb c "}"
  end.

(** The values that represent JavaScript data: every string is a
    well-formed text, and an object has each property once. *)
Unset Elimination Schemes.
Inductive wf_value : value -> Prop :=
| wf_null : wf_value VNull
| wf_bool (b : bool) : wf_value (VBool b)
| wf_num (n : Z) : wf_value (VNum n)
| wf_str (s : string) : well_formed s -> wf_value (VStr s)
| wf_arr (xs : list value) : Forall wf_value xs -> wf_value (VArr xs)
| wf_obj (o : obj) :
    NoDup (map fst o) ->
    Forall (fun kv => well_formed (fst kv) /\ wf_value (snd kv)) o ->
    wf_value (VObj o).
Set Elimination Schemes.

Fixpoint all_digits (s : string) : bool :=
  match s with
  | "" => true
  | String c r => is_digit c && all_digits r
  end.

(** The first character of a number. *)
Definition number_start (c : ascii) : bool := Ascii.eqb c "-" || is_digit c.

(** The first character of a value's text. *)
Definition opening (c : ascii) : bool := negb (is_ws c) && negb (Ascii.eqb c "]").

Definition round_trips (v : value) : Prop :=
  forall fuel rest,
    (String.length (stringify v) <= fuel)%nat -> delimited rest = true ->
    parse_value fuel (stringify v ++ rest) = Some (v, rest).

Definition member_text (kv : string * value) : string :=
  quote (fst kv) ++ ":" ++ stringify (snd kv).

End JSON.

(** ** The world a handler runs in *)

Module Runtime.

(** A thrown exception, as the handlers inspect it: [error.code],
    [error.message], and its enumerable properties, which is what
    [JSON.stringify(err)] prints. *)
Record error := {
  code : option string;
  message : string;
  enumerable : obj
}.

Inductive outcome (A : Type) : Type :=
| Ok (a : A)
| Throw (e : error).
Arguments Ok {A} a.
Arguments Throw {A} e.

(** Keys of stored items. *)
Inductive scalar := KS (s : string) | KN (n : Z).

#[export] Instance scalar_eq_dec : EqDecision scalar.
Proof. solve_decision. Defined.

#[export] Instance scalar_countable : Countable scalar.
Proof.
  refine (inj_countable'
            (fun k => match k with KS s => inl s | KN n => inr n end)
            (fun x => match x with inl s => KS s | inr n => KN n end) _).
  intros []; reflexivity.
Defined.

Inductive table := USERS_TABLE | CASTING_TABLE | TASKS_TABLE.

(** The tables, and the answers the environment will give: the n-th
    read of the environment (a uuid, the clock, a datastore request,
    an identity-provider request) is answered by the n-th entry.
    [cognito_at n op params] is what the identity provider answers to
    the request [op] with [params] when it is the n-th read. *)
Record World := {
  users : gmap scalar obj;
  casting : gmap scalar obj;
  tasks : gmap scalar obj;
  ticks : nat;
  uuid_at : nat -> string;
  time_at : nat -> string;
  fault_at : nat -> option error;
  cognito_at : nat -> string -> obj -> outcome value;
  process_env : gmap string string
}.

Definition rows (t : table) (w : World) : gmap scalar obj :=
  match t with
  | USERS_TABLE => users w
  | CASTING_TABLE => casting w
  | TASKS_TABLE => tasks w
  end.

Definition set_rows (t : table) (m : gmap scalar obj) (w : World) : World :=
  {| users := match t with USERS_TABLE => m | _ => users w end;
     casting := match t with CASTING_TABLE => m | _ => casting w end;
     tasks := match t with TASKS_TABLE => m | _ => tasks w end;
     ticks := ticks w;
     uuid_at := uuid_at w; time_at := time_at w;
     fault_at := fault_at w; cognito_at := cognito_at w;
     process_env := process_env w |}.

Definition advance (w : World) : World :=
  {| users := users w; casting := casting w; tasks := tasks w;
     ticks := S (ticks w);
     uuid_at := uuid_at w; time_at := time_at w;
     fault_at := fault_at w; cognito_at := cognito_at w;
     process_env := process_env w |}.

(** Handlers are computations over the world that may throw. *)
Definition M (A : Type) : Type := World -> outcome A * World.

Definition ret {A} (a : A) : M A := fun w => (Ok a, w).

Definition bind {A B} (m : M A) (f : A -> M B) : M B :=
  fun w =>
    match m w with
    | (Ok a, w') => f a w'
    | (Throw e, w') => (Throw e, w')
    end.

Definition throw {A} (e : error) : M A := fun w => (Throw e, w).

(** [try { m } catch (error) { h error }] *)
Definition try_catch {A} (m : M A) (h : error -> M A) : M A :=
  fun w =>
    match m w with
    | (Ok a, w') => (Ok a, w')
    | (Throw e, w') => h e w'
    end.

Definition lift {A} (o : outcome A) : M A := fun w => (o, w).

(** Errors raised by the language itself; the message texts are the
    engine's and only reach a response as its [details]. *)
Definition TypeError (msg : string) : error :=
  {| code := None; message := msg; enumerable := [] |}.

Definition SyntaxError (msg : string) : error :=
  {| code := None; message := msg; enumerable := [] |}.

Definition tick : M nat := fun w => (Ok (ticks w), advance w).

(** [uuidv4()] *)
Definition uuidv4 : M string :=
  fun w => (Ok (uuid_at w (ticks w)), advance w).

(** [new Date().toISOString()] *)
Definition now_iso : M string :=
  fun w => (Ok (time_at w (ticks w)), advance w).

(** [process.env.NAME] *)
Definition getenv (name : string) : M (option string) :=
  fun w => (Ok (process_env w !! name), w).

(** [safe Q m]: whenever [m] returns, what it returns satisfies [Q]. *)
Definition safe {A} (Q : A -> Prop) (m : M A) : Prop :=
  forall w, match m w with (Ok a, _) => Q a | (Throw _, _) => True end.

(** No datastore request fails for reasons outside the request. *)
Definition reliable (w : World) : Prop := forall n, fault_at w n = None.

End Runtime.

Declare Scope js_scope.
Delimit Scope js_scope with js.
Notation "x <- m ;; k" := (Runtime.bind m (fun x => k))
  (at level 100, m at next level, right associativity) : js_scope.
Notation "m ;;; k" := (Runtime.bind m (fun _ => k))
  (at level 100, right associativity) : js_scope.

(** ** The document store

    Modelled from the spec: the table declarations live in the
    deployment template, which is not among the sources.  Records are
    "keyed by a generated identifier": the users table by the string
    [userId], with a secondary index on [username]; the casting table
    by the string [jobId]; the task table by the number [id] that
    updateTask parses.  The store is ideal: beyond injected faults, a
    request fails only for a malformed key, a failed condition, or an
    ill-typed update. *)

Module Dynamo.
Import Runtime.

Inductive key_type := TS | TN.

Definition hash_key (t : table) : string :=
  match t with
  | USERS_TABLE => "userId"
  | CASTING_TABLE => "jobId"
  | TASKS_TABLE => "id"
  end.

Definition hash_type (t : table) : key_type :=
  match t with
  | USERS_TABLE | CASTING_TABLE => TS
  | TASKS_TABLE => TN
  end.

(** The attribute that keys the one secondary index the handlers
    query, [usernameIndex]; it must be a non-empty string when
    present. *)
Definition index_keys (t : table) : list string :=
  match t with
  | USERS_TABLE => ["username"]
  | CASTING_TABLE | TASKS_TABLE => []
  end.

Definition string_keyed (t : table) : Prop := hash_type t = TS.

Definition to_key (ty : key_type) (v : option value) : option scalar :=
  match ty, v with
  | TS, Some (VStr s) => if decide (s = "") then None else Some (KS s)
  | TN, Some (VNum n) => Some (KN n)
  | _, _ => None
  end.

Definition key_value (k : scalar) : value :=
  match k with KS s => VStr s | KN n => VNum n end.

Definition ValidationException (msg : string) : error :=
  {| code := Some "ValidationException"; message := msg;
     enumerable := [("message", VStr msg); ("code", VStr "ValidationException")] |}.

Definition ConditionalCheckFailedException : error :=
  {| code := Some "ConditionalCheckFailedException";
     message := "The conditional request failed";
     enumerable := [("message", VStr "The conditional request failed");
                    ("code", VStr "ConditionalCheckFailedException")] |}.

(** Every request first meets the network. *)
Definition request {A} (op : World -> outcome A * World) : M A :=
  fun w =>
    match fault_at w (ticks w) with
    | Some e => (Throw e, advance w)
    | None => op (advance w)
    end.

Definition index_keys_ok (t : table) (item : obj) : bool :=
  forallb (fun k => match Js.obj_get k item with
                    | Some (VStr s) => negb (bool_decide (s = ""))
                    | Some _ => false
                    | None => true
                    end) (index_keys t).

(** [documentClient.get({TableName, Key}).promise()], giving
    [result.Item]. *)
Definition get (t : table) (key : option value) : M (option obj) :=
  request (fun w =>
    match to_key (hash_type t) key with
    | Some k => (Ok (rows t w !! k), w)
    | None => (Throw (ValidationException "The provided key element does not match the schema"), w)
    end).

(** [documentClient.put({TableName, Item, ConditionExpression:
    'attribute_not_exists(<hash key>)'}).promise()] *)
Definition put_new (t : table) (item : obj) : M unit :=
  request (fun w =>
    match to_key (hash_type t) (Js.obj_get (hash_key t) item) with
    | Some k =>
        if negb (index_keys_ok t item) then
          (Throw (ValidationException "Type mismatch for Index Key"), w)
        else
          match rows t w !! k with
          | Some _ => (Throw ConditionalCheckFailedException, w)
          | None => (Ok tt, set_rows t (<[k := item]> (rows t w)) w)
          end
    | None => (Throw (ValidationException "One or more parameter values were invalid"), w)
    end).

(** [documentClient.delete({TableName, Key}).promise()] *)
Definition delete (t : table) (key : option value) : M unit :=
  request (fun w =>
    match to_key (hash_type t) key with
    | Some k => (Ok tt, set_rows t (base.delete k (rows t w)) w)
    | None => (Throw (ValidationException "The provided key element does not match the schema"), w)
    end).

(** Update expressions, with the [#name] and [:value] placeholders
    already replaced by what ExpressionAttributeNames and
    ExpressionAttributeValues bind them to. *)
Inductive operand :=
| Val (v : value)
| Attr (name : string)
| IfNotExists (name : string) (dflt : operand)
| ListAppend (a b : operand)
| Plus (a b : operand).

(** [SET name = operand] *)
Definition action := (string * operand)%type.

Fixpoint eval (item : obj) (e : operand) : option value :=
  match e with
  | Val v => Some v
  | Attr name => Js.obj_get name item
  | IfNotExists name dflt =>
      match Js.obj_get name item with
      | Some v => Some v
      | None => eval item dflt
      end
  | ListAppend a b =>
      match eval item a, eval item b with
      | Some (VArr xs), Some (VArr ys) => Some (VArr (xs ++ ys))
      | _, _ => None
      end
  | Plus a b =>
      match eval item a, eval item b with
      | Some (VNum x), Some (VNum y) => Some (VNum (x + y))
      | _, _ => None
      end
  end.

(** All operands are evaluated against the item as it was before the
    update. *)
Fixpoint apply_actions (old : obj) (acts : list action) (item : obj) : option obj :=
  match acts with
  | [] => Some item
  | (name, e) :: rest =>
      match eval old e with
      | Some v => apply_actions old rest (Js.obj_set name v item)
      | None => None
      end
  end.

(** The assignments of an update that only assigns constants. *)
Definition constants (acts : list action) : option obj :=
  mapM (fun a => match snd a with Val v => Some (fst a, v) | _ => None end) acts.

(** The attributes an update writes. *)
Definition written (acts : list action) (item : obj) : obj :=
  List.filter (fun kv => bool_decide (fst kv ∈ map fst acts)) item.

(** [documentClient.update({TableName, Key, UpdateExpression, ...,
    ReturnValues: 'ALL_NEW'}).promise()], giving [result.Attributes].
    An update of a missing item creates it, unless the condition
    [attribute_exists(<hash key>)] is asked for. *)
Definition update (t : table) (key : option value) (acts : list action)
    (must_exist : bool) : M obj :=
  request (fun w =>
    match to_key (hash_type t) key with
    | None => (Throw (ValidationException "The provided key element does not match the schema"), w)
    | Some k =>
        if negb (bool_decide (NoDup (map fst acts)))
           || bool_decide (hash_key t ∈ map fst acts) then
          (Throw (ValidationException "Invalid UpdateExpression"), w)
        else
          let current := rows t w !! k in
          match current, must_exist with
          | None, true => (Throw ConditionalCheckFailedException, w)
          | _, _ =>
              let old := default [(hash_key t, key_value k)] current in
              match apply_actions old acts old with
              | Some item =>
                  if index_keys_ok t (written acts item) then
                    (Ok item, set_rows t (<[k := item]> (rows t w)) w)
                  else (Throw (ValidationException "Type mismatch for Index Key"), w)
              | None => (Throw (ValidationException "An operand in the update expression has an incorrect data type"), w)
              end
          end
    end).

(** Filter and key conditions. *)
Inductive cond :=
| Equals (path : list string) (v : value)
| Contains (path : list string) (v : value)
| Or (a b : cond).

Fixpoint at_path (path : list string) (v : value) : option value :=
  match path with
  | [] => Some v
  | k :: rest =>
      match Js.prop v k with
      | Some v' => at_path rest v'
      | None => None
      end
  end.

Fixpoint prefix_of (p s : string) : bool :=
  match p, s with
  | "", _ => true
  | String a p', String b s' => Ascii.eqb a b && prefix_of p' s'
  | _, "" => false
  end.

Fixpoint substring_of (p s : string) : bool :=
  prefix_of p s ||
  match s with
  | String _ s' => substring_of p s'
  | "" => false
  end.

Fixpoint holds (c : cond) (item : obj) : bool :=
  match c with
  | Equals path v =>
      match at_path path (VObj item) with
      | Some x => Js.value_eqb x v
      | None => false
      end
  | Contains path v =>
      match at_path path (VObj item), v with
      | Some (VStr s), VStr q => substring_of q s
      | Some (VArr xs), _ => existsb (fun x => Js.value_eqb x v) xs
      | _, _ => false
      end
  | Or a b => holds a item || holds b item
  end.

(** The items in the order a scan visits them. *)
Definition scan_order (t : table) (w : World) : list (scalar * obj) :=
  map_to_list (rows t w).

Fixpoint after_key (k : scalar) (l : list (scalar * obj)) : list (scalar * obj) :=
  match l with
  | [] => []
  | (k', _) :: rest => if decide (k = k') then rest else after_key k rest
  end.

Record page := {
  Items : list obj;
  LastEvaluatedKey : option obj
}.

(** A start key is an object holding exactly the hash key. *)
Definition start_key (t : table) (v : value) : option scalar :=
  match v with
  | VObj [(name, x)] =>
      if decide (name = hash_key t) then to_key (hash_type t) (Some x) else None
  | _ => None
  end.

Definition last_key (t : table) (l : list (scalar * obj)) : option obj :=
  match last l with
  | Some (k, _) => Some [(hash_key t, key_value k)]
  | None => None
  end.

(** [documentClient.scan({TableName, Limit, ExclusiveStartKey,
    FilterExpression, ...}).promise()]: the limit bounds the items
    read, the filter applies afterwards.  A [Limit] that is not a
    number is no limit. *)
Definition scan (t : table) (limit : option Z) (start : option value)
    (filter : option cond) : M page :=
  request (fun w =>
    let all := scan_order t w in
    let from :=
      match start with
      | None => Some all
      | Some v => (fun k => after_key k all) <$> start_key t v
      end in
    match from with
    | None => (Throw (ValidationException "The provided starting key is invalid"), w)
    | Some l =>
        let keep := match filter with
                    | Some c => List.filter (fun kv => holds c (snd kv))
                    | None => fun x => x
                    end in
        match limit with
        | None => (Ok {| Items := map snd (keep l); LastEvaluatedKey := None |}, w)
        | Some n =>
            if (n <? 1)%Z then
              (Throw (ValidationException "Limit must be at least 1"), w)
            else
              let read := take (Z.to_nat n) l in
              (Ok {| Items := map snd (keep read);
                     LastEvaluatedKey :=
                       if decide (length read = Z.to_nat n) then last_key t read
                       else None |}, w)
        end
    end).

(** [documentClient.query({TableName, IndexName: 'usernameIndex',
    KeyConditionExpression: 'username = :username', ...}).promise()],
    giving [result.Items]. *)
Definition query_username (username : option value) : M (list obj) :=
  request (fun w =>
    match username with
    | Some (VStr u) =>
        if decide (u = "") then
          (Throw (ValidationException "One or more parameter values are not valid"), w)
        else
          (Ok (map snd (List.filter
                          (fun kv => Js.strict_eq (Js.obj_get "username" (snd kv)) (Some (VStr u)))
                          (scan_order USERS_TABLE w))), w)
    | _ => (Throw (ValidationException "Condition parameter type does not match schema type"), w)
    end).

End Dynamo.

(** ** Requests, responses and the helpers every handler file repeats *)

Module Http.
Import Runtime.
Open Scope js_scope.

(** The event API Gateway hands to a handler.  It always carries the
    three properties; the one a request lacks is [null], here [None]. *)
Record event := {
  pathParameters : option (gmap string string);
  queryStringParameters : option (gmap string string);
  body : option string
}.

(** A response without a [headers] property has no header. *)
Record response := {
  statusCode : Z;
  headers : list (string * value);
  payload : string
}.

Definition cors_headers : list (string * value) :=
  [("Content-Type", VStr "application/json");
   ("Access-Control-Allow-Origin", VStr "*");
   ("Access-Control-Allow-Credentials", VBool true)].

(** An object literal some of whose properties may be [undefined]:
    [JSON.stringify], the only reader of these literals, leaves such
    properties out. *)
Fixpoint literal (l : list (string * option value)) : obj :=
  match l with
  | [] => []
  | (k, Some v) :: rest => (k, v) :: literal rest
  | (_, None) :: rest => literal rest
  end.

Definition successResponse (status : Z) (b : obj) : response :=
  {| statusCode := status;
     headers := cors_headers;
     payload := JSON.stringify (VObj b) |}.

(** [...(details && { details })] adds the property when [details]
    is truthy. *)
Definition error_body (msg : string) (details : option string) : obj :=
  [("success", VBool false); ("message", VStr msg)] ++
  match details with
  | Some d => if Js.truthy (VStr d) then [("details", VStr d)] else []
  | None => []
  end.

Definition errorResponse (status : Z) (msg : string) (details : option string) : response :=
  {| statusCode := status;
     headers := cors_headers;
     payload := JSON.stringify (VObj (error_body msg details)) |}.

Definition validateRequiredFields (data : value) (requiredFields : list string)
    : option (list string) :=
  let missing :=
    List.filter (fun field => negb (Js.truthy_opt (Js.prop data field))) requiredFields in
  match missing with
  | [] => None
  | _ => Some missing
  end.

Definition missing_message (missing : list string) : string :=
  "Missing required fields: " ++ Js.join ", " missing.

(** [event.body || '{}'] *)
Definition body_text (ev : event) : string :=
  match body ev with
  | Some s => if decide (s = "") then "{}" else s
  | None => "{}"
  end.

(** [JSON.parse(event.body || '{}')] *)
Definition parse_body (ev : event) : M value :=
  match JSON.parse (body_text ev) with
  | Some v => ret v
  | None => throw (SyntaxError "Unexpected token in JSON")
  end.

(** [const { ... } = v]: destructuring [null] throws. *)
Definition destructure (v : value) : M unit :=
  match v with
  | VNull => throw (TypeError "Cannot destructure property of null")
  | _ => ret tt
  end.

(** [v.k] *)
Definition member (v : value) (k : string) : M (option value) :=
  match v with
  | VNull => throw (TypeError "Cannot read properties of null")
  | _ => ret (Js.prop v k)
  end.

(** [const { name } = event.pathParameters] *)
Definition path_parameter (ev : event) (name : string) : M (option string) :=
  match pathParameters ev with
  | Some m => ret (m !! name)
  | None => throw (TypeError "Cannot destructure property of event.pathParameters")
  end.

(** [event.queryStringParameters || {}], one property of it. *)
Definition query_parameter (ev : event) (name : string) : option string :=
  match queryStringParameters ev with
  | Some m => m !! name
  | None => None
  end.

Definition present (s : option string) : bool :=
  match s with
  | Some x => negb (bool_decide (x = ""))
  | None => false
  end.

Definition str (s : option string) : option value := VStr <$> s.

(** *** [parseInt] *)

Definition is_space (c : ascii) : bool :=
  Text.in_range 9 13 c || Ascii.eqb c " ".

Fixpoint trim_start (s : string) : string :=
  match s with
  | String c s' => if is_space c then trim_start s' else s
  | "" => ""
  end.

Definition signed (s : string) : bool * string :=
  match s with
  | String c r =>
      if Ascii.eqb c "-" then (true, r)
      else if Ascii.eqb c "+" then (false, r)
      else (false, s)
  | "" => (false, "")
  end.

Definition with_sign (neg : bool) (n : N) : Z :=
  if neg then (- Z.of_N n)%Z else Z.of_N n.

Definition decimal_prefix (s : string) : option N :=
  match fst (JSON.span_digits s) with
  | "" => None
  | d => N.of_uint <$> NilEmpty.uint_of_string d
  end.

Fixpoint hex_prefix (s : string) (acc : option N) : option N :=
  match s with
  | String c s' =>
      match JSON.hex_value c with
      | Some d => hex_prefix s' (Some (default 0%N acc * 16 + d)%N)
      | None => acc
      end
  | "" => acc
  end.

(** [parseInt(s, 10)]; [None] is [NaN]. *)
Definition parseInt10 (s : string) : option Z :=
  let '(neg, r) := signed (trim_start s) in
  with_sign neg <$> decimal_prefix r.

(** [Number.parseInt(s)]: without a radix a [0x] prefix selects
    base 16. *)
Definition parseInt (s : string) : option Z :=
  let '(neg, r) := signed (trim_start s) in
  match r with
  | String "0" (String x r') =>
      if Ascii.eqb x "x" || Ascii.eqb x "X" then with_sign neg <$> hex_prefix r' None
      else with_sign neg <$> decimal_prefix r
  | _ => with_sign neg <$> decimal_prefix r
  end.

(** The conversion of a value to a string (in a template, as the
    argument of [parseInt] or of a regular expression test, by
    [x.toString()]).  An array joins its entries, [null] entries
    giving the empty string.  An object that has a [toString]
    property of its own, which parsed data cannot make callable, has
    no conversion: [None] is the TypeError thrown. *)
Fixpoint to_string (v : value) : option string :=
  match v with
  | VNull => Some "null"
  | VBool true => Some "true"
  | VBool false => Some "false"
  | VNum n => Some (JSON.number n)
  | VStr s => Some s
  | VArr xs =>
      Js.join "," <$>
      (fix entries (l : list value) : option (list string) :=
         match l with
         | [] => Some []
         | x :: rest =>
             match (match x with VNull => Some "" | _ => to_string x end), entries rest with
             | Some a, Some b => Some (a :: b)
             | _, _ => None
             end
         end) xs
  | VObj o =>
      match Js.obj_get "toString" o with
      | Some _ => None
      | None => Some "[object Object]"
      end
  end.

Definition to_string_opt (v : option value) : M string :=
  match v with
  | Some x =>
      match to_string x with
      | Some s => ret s
      | None => throw (TypeError "Cannot convert object to primitive value")
      end
  | None => ret "undefined"
  end.

(** [const { limit = 10 } = ...; parseInt(limit, 10)] *)
Definition page_limit (ev : event) : option Z :=
  match query_parameter ev "limit" with
  | Some s => parseInt10 s
  | None => Some 10%Z
  end.

End Http.

(** ** User handlers (src/unnamed/part_001, the users file) *)

Module Users.
Import Runtime Http.
Open Scope js_scope.

Definition or_str (a : option value) (s : string) : value := Js.or_default a (VStr s).

(** The pagination token of a continuation key, and back. *)
Definition encode_key (key : obj) : string :=
  Base64.encode (Text.Buffer_from_utf8 (JSON.stringify (VObj key))).

Definition decode_key (lastKey : string) : option value :=
  JSON.parse (Text.Buffer_toString (Base64.decode lastKey)).

(** [if (lastKey) params.ExclusiveStartKey = JSON.parse(...)] *)
Definition exclusive_start_key (lastKey : option string) : M (option value) :=
  if present lastKey then
    match decode_key (default "" lastKey) with
    | Some k => ret (Some k)
    | None => throw (SyntaxError "Unexpected token in JSON")
    end
  else ret None.

(** [result.LastEvaluatedKey ? Buffer.from(...).toString('base64') : null] *)
Definition response_lastKey (last : option obj) : value :=
  match last with
  | Some key => VStr (encode_key key)
  | None => VNull
  end.

Definition createUser (ev : event) : M response :=
  try_catch
    (body <- parse_body ev;;
     destructure body;;;
     let username := Js.prop body "username" in
     let email := Js.prop body "email" in
     let basicDetails := default (VObj []) (Js.prop body "basicDetails") in
     match validateRequiredFields body ["username"; "email"] with
     | Some missing => ret (errorResponse 400 (missing_message missing) None)
     | None =>
         userId <- uuidv4;;
         now <- now_iso;;
         existingUser <- Dynamo.query_username username;;
         if (0 <? length existingUser)%nat then
           ret (errorResponse 409 "Username already exists" None)
         else
           firstName <- member basicDetails "firstName";;
           let bd := Js.prop basicDetails in
           let sub := Js.opt_prop (Js.prop body "subscription") in
           let contact := Js.opt_prop (Js.prop body "contactDetails") in
           let stats := Js.opt_prop (Js.prop body "physicalStats") in
           let skills := Js.opt_prop (Js.prop body "skills") in
           let user : obj :=
             (literal
               [("userId", Some (VStr userId));
                ("username", username);
                ("email", email)] ++
             [("privacy", or_str (Js.prop body "privacy") "public");
              ("currentPlan", or_str (Js.prop body "currentPlan") "free");
              ("view", VNum 0);
              ("aboutMe", or_str (Js.prop body "aboutMe") "");
              ("device_tokens", Js.or_default (Js.prop body "device_tokens") (VArr []));
              ("subscription",
               VObj [("activePlan", or_str (sub "activePlan") "free");
                     ("startDate", VStr now);
                     ("renewalDate", Js.or_default (sub "renewalDate") VNull);
                     ("status", VStr "active")]);
              ("tokens",
               Js.or_default (Js.prop body "tokens")
                 (VObj [("AccessToken", VStr ""); ("RefreshToken", VStr "");
                        ("IdToken", VStr "")]));
              ("basicDetails",
               VObj [("firstName", or_str firstName "");
                     ("lastName", or_str (bd "lastName") "");
                     ("fullName", or_str (bd "fullName") "");
                     ("avatarUrl", or_str (bd "avatarUrl") "");
                     ("gender", or_str (bd "gender") "");
                     ("category", Js.or_default (bd "category") (VArr []));
                     ("birthDate", Js.or_default (bd "birthDate") VNull);
                     ("age", Js.or_default (bd "age") VNull);
                     ("city", or_str (bd "city") "")]);
              ("contactDetails",
               VObj [("email", Js.or_default (contact "email") (default VNull email));
                     ("phone", or_str (contact "phone") "");
                     ("instagram", or_str (contact "instagram") "");
                     ("facebook", or_str (contact "facebook") "");
                     ("twitter", or_str (contact "twitter") "");
                     ("youtube", or_str (contact "youtube") "")]);
              ("physicalStats",
               VObj [("height", or_str (stats "height") "");
                     ("weight", or_str (stats "weight") "");
                     ("bust", or_str (stats "bust") "");
                     ("waist", or_str (stats "waist") "");
                     ("hips", or_str (stats "hips") "");
                     ("chest", or_str (stats "chest") "");
                     ("biceps", or_str (stats "biceps") "");
                     ("hairType", or_str (stats "hairType") "");
                     ("hairLength", or_str (stats "hairLength") "")]);
              ("skills",
               VObj [("languages", Js.or_default (skills "languages") (VArr []));
                     ("expertise", Js.or_default (skills "expertise") (VArr []));
                     ("hobbies", Js.or_default (skills "hobbies") (VArr []))]);
              ("workExperience", Js.or_default (Js.prop body "workExperience") (VArr []));
              ("portfolio", Js.or_default (Js.prop body "portfolio") (VArr []));
              ("appliedJobs", Js.or_default (Js.prop body "appliedJobs") (VArr []));
              ("requestSent", Js.or_default (Js.prop body "requestSent") (VArr []));
              ("requestReceived", Js.or_default (Js.prop body "requestReceived") (VArr []));
              ("connections", Js.or_default (Js.prop body "connections") (VArr []));
              ("createdAt", VStr now);
              ("updatedAt", VStr now)])%list in
           Dynamo.put_new USERS_TABLE user;;;
           ret (successResponse 201
                  [("success", VBool true);
                   ("message", VStr "User created successfully");
                   ("user", VObj user)])
     end)
    (fun error =>
       if bool_decide (code error = Some "ConditionalCheckFailedException") then
         ret (errorResponse 409 "User already exists" None)
       else ret (errorResponse 500 "Failed to create user" (Some (message error)))).

Definition getUserById (ev : event) : M response :=
  try_catch
    (userId <- path_parameter ev "userId";;
     if negb (present userId) then
       ret (errorResponse 400 "Missing required parameter: userId" None)
     else
       item <- Dynamo.get USERS_TABLE (str userId);;
       match item with
       | None => ret (errorResponse 404 "User not found" None)
       | Some user =>
           ret (successResponse 200 [("success", VBool true); ("user", VObj user)])
       end)
    (fun error => ret (errorResponse 500 "Failed to fetch user" (Some (message error)))).

Definition getUserByUsername (ev : event) : M response :=
  try_catch
    (username <- path_parameter ev "username";;
     if negb (present username) then
       ret (errorResponse 400 "Missing required parameter: username" None)
     else
       items <- Dynamo.query_username (str username);;
       match items with
       | [] => ret (errorResponse 404 "User not found" None)
       | user :: _ =>
           ret (successResponse 200 [("success", VBool true); ("user", VObj user)])
       end)
    (fun error => ret (errorResponse 500 "Failed to fetch user" (Some (message error)))).

Definition updateableFields : list string :=
  ["username"; "email"; "privacy"; "currentPlan"; "view"; "aboutMe";
   "device_tokens"; "subscription"; "tokens"; "basicDetails";
   "contactDetails"; "physicalStats"; "skills"; "workExperience";
   "portfolio"; "appliedJobs"; "requestSent"; "requestReceived"; "connections"].

(** The [forEach] over the updateable fields: one assignment per
    field the body defines. *)
Fixpoint assignments (body : value) (fields : list string) : list Dynamo.action :=
  match fields with
  | [] => []
  | field :: rest =>
      match Js.prop body field with
      | Some v => (field, Dynamo.Val v) :: assignments body rest
      | None => assignments body rest
      end
  end.

(** The fields of an allow-list that the body defines, with their
    values, and the item an update of these fields leaves. *)
Definition supplied (body : value) (fields : list string) : obj :=
  omap (fun f => (fun v => (f, v)) <$> Js.prop body f) fields.

Definition updated (item : obj) (body : value) (fields : list string) (now : string) : obj :=
  Js.assign item (supplied body fields ++ [("updatedAt", VStr now)]).

(** The request either leaves the username alone, or repeats the
    stored one, or asks for one nobody holds. *)
Definition name_settled (w : World) (item : obj) (body : value) : Prop :=
  Js.prop body "username" = None \/
  exists u, u <> "" /\ Js.prop body "username" = Some (VStr u) /\
    (Js.obj_get "username" item = Some (VStr u) \/
     forall k it, users w !! k = Some it -> Js.obj_get "username" it <> Some (VStr u)).

Definition updateUser (ev : event) : M response :=
  try_catch
    (userId <- path_parameter ev "userId";;
     body <- parse_body ev;;
     if negb (present userId) then
       ret (errorResponse 400 "Missing required parameter: userId" None)
     else
       existingUser <- Dynamo.get USERS_TABLE (str userId);;
       match existingUser with
       | None => ret (errorResponse 404 "User not found" None)
       | Some item =>
           new_name <- member body "username";;
           taken <-
             (if Js.truthy_opt new_name
                 && negb (Js.strict_eq new_name (Js.obj_get "username" item)) then
                usernameExists <- Dynamo.query_username new_name;;
                ret (0 <? length usernameExists)%nat
              else ret false);;
           if (taken : bool) then ret (errorResponse 409 "Username already exists" None)
           else
             now <- now_iso;;
             let updateExpressions :=
               (assignments body updateableFields
                  ++ [("updatedAt", Dynamo.Val (VStr now))])%list in
             if (length updateExpressions =? 0)%nat then
               ret (errorResponse 400 "No fields to update" None)
             else
               attributes <- Dynamo.update USERS_TABLE (str userId) updateExpressions false;;
               ret (successResponse 200
                      [("success", VBool true);
                       ("message", VStr "User updated successfully");
                       ("user", VObj attributes)])
       end)
    (fun error => ret (errorResponse 500 "Failed to update user" (Some (message error)))).

Definition deleteUser (ev : event) : M response :=
  try_catch
    (userId <- path_parameter ev "userId";;
     if negb (present userId) then
       ret (errorResponse 400 "Missing required parameter: userId" None)
     else
       existingUser <- Dynamo.get USERS_TABLE (str userId);;
       match existingUser with
       | None => ret (errorResponse 404 "User not found" None)
       | Some _ =>
           Dynamo.delete USERS_TABLE (str userId);;;
           ret (successResponse 200
                  (literal [("success", Some (VBool true));
                            ("message", Some (VStr "User deleted successfully"));
                            ("deletedUserId", str userId)]))
       end)
    (fun error => ret (errorResponse 500 "Failed to delete user" (Some (message error)))).

Definition listUsers (ev : event) : M response :=
  try_catch
    (start <- exclusive_start_key (query_parameter ev "lastKey");;
     result <- Dynamo.scan USERS_TABLE (page_limit ev) start None;;
     ret (successResponse 200
            [("success", VBool true);
             ("items", VArr (map VObj (Dynamo.Items result)));
             ("count", VNum (Z.of_nat (length (Dynamo.Items result))));
             ("lastKey", response_lastKey (Dynamo.LastEvaluatedKey result))]))
    (fun error => ret (errorResponse 500 "Failed to fetch users" (Some (message error)))).

Definition incrementUserView (ev : event) : M response :=
  try_catch
    (userId <- path_parameter ev "userId";;
     if negb (present userId) then
       ret (errorResponse 400 "Missing required parameter: userId" None)
     else
       now <- now_iso;;
       attributes <-
         Dynamo.update USERS_TABLE (str userId)
           [("view", Dynamo.Plus (Dynamo.IfNotExists "view" (Dynamo.Val (VNum 0)))
                                 (Dynamo.Val (VNum 1)));
            ("updatedAt", Dynamo.Val (VStr now))] false;;
       ret (successResponse 200
              (literal [("success", Some (VBool true));
                        ("message", Some (VStr "User view incremented"));
                        ("view", Js.obj_get "view" attributes)])))
    (fun error => ret (errorResponse 500 "Failed to update user view" (Some (message error)))).

(** [SET #list = list_append(if_not_exists(#list, :empty), :entry),
    #updatedAt = :now] *)
Definition append_entry (attribute : string) (entry : obj) (now : string)
    : list Dynamo.action :=
  [(attribute,
    Dynamo.ListAppend (Dynamo.IfNotExists attribute (Dynamo.Val (VArr [])))
                      (Dynamo.Val (VArr [VObj entry])));
   ("updatedAt", Dynamo.Val (VStr now))].

(** The list an append starts from (an absent attribute is the empty
    list) and the item it leaves. *)
Definition stored_list (attribute : string) (item : obj) : option (list value) :=
  match Js.obj_get attribute item with
  | None => Some []
  | Some (VArr xs) => Some xs
  | Some _ => None
  end.

Definition appended (attribute : string) (entry : obj) (now : string) (xs : list value)
    (item : obj) : obj :=
  Js.obj_set "updatedAt" (VStr now)
    (Js.obj_set attribute (VArr (xs ++ [VObj entry])) item).

Definition addWorkExperience (ev : event) : M response :=
  try_catch
    (userId <- path_parameter ev "userId";;
     body <- parse_body ev;;
     destructure body;;;
     let verified := default (VBool false) (Js.prop body "verified") in
     if negb (present userId) then
       ret (errorResponse 400 "Missing required parameter: userId" None)
     else
       match validateRequiredFields body ["workType"; "brand"] with
       | Some missing => ret (errorResponse 400 (missing_message missing) None)
       | None =>
           existingUser <- Dynamo.get USERS_TABLE (str userId);;
           match existingUser with
           | None => ret (errorResponse 404 "User not found" None)
           | Some _ =>
               workExperienceId <- uuidv4;;
               createdAt <- now_iso;;
               let newWork : obj :=
                 literal [("id", Some (VStr workExperienceId));
                          ("workType", Js.prop body "workType");
                          ("brand", Js.prop body "brand");
                          ("verified", Some verified);
                          ("workLink", Some (or_str (Js.prop body "workLink") ""));
                          ("createdAt", Some (VStr createdAt))] in
               now <- now_iso;;
               attributes <-
                 Dynamo.update USERS_TABLE (str userId)
                   (append_entry "workExperience" newWork now) false;;
               ret (successResponse 201
                      [("success", VBool true);
                       ("message", VStr "Work experience added");
                       ("workExperience", VObj newWork);
                       ("user", VObj attributes)])
           end
       end)
    (fun error => ret (errorResponse 500 "Failed to add work experience" (Some (message error)))).

Definition addPortfolioItem (ev : event) : M response :=
  try_catch
    (userId <- path_parameter ev "userId";;
     body <- parse_body ev;;
     destructure body;;;
     let selected := default (VBool false) (Js.prop body "selected") in
     if negb (present userId) then
       ret (errorResponse 400 "Missing required parameter: userId" None)
     else
       match validateRequiredFields body ["url"; "type"] with
       | Some missing => ret (errorResponse 400 (missing_message missing) None)
       | None =>
           existingUser <- Dynamo.get USERS_TABLE (str userId);;
           match existingUser with
           | None => ret (errorResponse 404 "User not found" None)
           | Some _ =>
               portfolioId <- uuidv4;;
               uploadedAt <- now_iso;;
               let newPortfolio : obj :=
                 literal [("id", Some (VStr portfolioId));
                          ("url", Js.prop body "url");
                          ("type", Js.prop body "type");
                          ("selected", Some selected);
                          ("uploadedAt", Some (VStr uploadedAt))] in
               now <- now_iso;;
               attributes <-
                 Dynamo.update USERS_TABLE (str userId)
                   (append_entry "portfolio" newPortfolio now) false;;
               ret (successResponse 201
                      [("success", VBool true);
                       ("message", VStr "Portfolio item added");
                       ("portfolioItem", VObj newPortfolio);
                       ("user", VObj attributes)])
           end
       end)
    (fun error => ret (errorResponse 500 "Failed to add portfolio item" (Some (message error)))).

Definition addConnection (ev : event) : M response :=
  try_catch
    (userId <- path_parameter ev "userId";;
     body <- parse_body ev;;
     destructure body;;;
     if negb (present userId) then
       ret (errorResponse 400 "Missing required parameter: userId" None)
     else
       match validateRequiredFields body ["senderId"; "receiverId"] with
       | Some missing => ret (errorResponse 400 (missing_message missing) None)
       | None =>
           existingUser <- Dynamo.get USERS_TABLE (str userId);;
           match existingUser with
           | None => ret (errorResponse 404 "User not found" None)
           | Some _ =>
               connectionId <- uuidv4;;
               chatId <- uuidv4;;
               connectedAt <- now_iso;;
               let newConnection : obj :=
                 literal [("connectionId", Some (VStr connectionId));
                          ("senderId", Js.prop body "senderId");
                          ("receiverId", Js.prop body "receiverId");
                          ("chatId", Some (VStr chatId));
                          ("connectionStatus", Some (VStr "pending"));
                          ("connectedAt", Some (VStr connectedAt))] in
               now <- now_iso;;
               attributes <-
                 Dynamo.update USERS_TABLE (str userId)
                   (append_entry "connections" newConnection now) false;;
               ret (successResponse 201
                      [("success", VBool true);
                       ("message", VStr "Connection added");
                       ("connection", VObj newConnection);
                       ("user", VObj attributes)])
           end
       end)
    (fun error => ret (errorResponse 500 "Failed to add connection" (Some (message error)))).

Definition searchUsers (ev : event) : M response :=
  try_catch
    (let q := query_parameter ev "q" in
     let type := default "category" (query_parameter ev "type") in
     if negb (present q) then
       ret (errorResponse 400 "Missing required parameter: q" None)
     else
       let qv := VStr (default "" q) in
       let filterExpression :=
         if decide (type = "category") then
           Some (Dynamo.Contains ["basicDetails"; "category"] qv)
         else if decide (type = "skills") then
           Some (Dynamo.Or (Dynamo.Contains ["skills"; "expertise"] qv)
                           (Dynamo.Contains ["skills"; "languages"] qv))
         else if decide (type = "username") then
           Some (Dynamo.Contains ["username"] qv)
         else None in
       match filterExpression with
       | None =>
           ret (errorResponse 400 "Invalid search type. Use: category, skills, or username" None)
       | Some f =>
           result <- Dynamo.scan USERS_TABLE (page_limit ev) None (Some f);;
           ret (successResponse 200
                  [("success", VBool true);
                   ("query", qv);
                   ("type", VStr type);
                   ("count", VNum (Z.of_nat (length (Dynamo.Items result))));
                   ("items", VArr (map VObj (Dynamo.Items result)))])
       end)
    (fun error => ret (errorResponse 500 "Failed to search users" (Some (message error)))).

End Users.

(** ** Casting handlers (src/src/handlers/casting.js, the casting file) *)

Module Casting.
Import Runtime Http.
Open Scope js_scope.

Definition or_str := Users.or_str.

(** [list.includes(v)] for a list of string literals. *)
Definition includes (list : list string) (v : option value) : bool :=
  match v with
  | Some (VStr s) => bool_decide (s ∈ list)
  | _ => false
  end.

Definition validCategories : list string :=
  ["Acting"; "Singing"; "Dancing"; "Modeling"; "Writing"; "Editing";
   "Photography"; "Makeup"; "Voice Acting"; "Comedy"; "Production"; "Design"].

Definition validJobTypes : list string := ["Online"; "Offline"].

Definition createJob (ev : event) : M response :=
  try_catch
    (body <- parse_body ev;;
     destructure body;;;
     let field := Js.prop body in
     let jobLocation := default (VArr []) (field "jobLocation") in
     let tags := default (VArr []) (field "tags") in
     let recruiter := default (VArr []) (field "recruiter") in
     let requirements := default (VArr []) (field "requirements") in
     let documents := default (VArr []) (field "documents") in
     match validateRequiredFields body
             ["userId"; "jobTitle"; "jobDescription"; "jobCategory"; "jobType"] with
     | Some missing => ret (errorResponse 400 (missing_message missing) None)
     | None =>
         if negb (includes validCategories (field "jobCategory")) then
           ret (errorResponse 400
                  ("Invalid jobCategory. Must be one of: " ++ Js.join ", " validCategories)
                  None)
         else if negb (includes validJobTypes (field "jobType")) then
           ret (errorResponse 400 "Invalid jobType. Must be Online or Offline" None)
         else
           jobId <- uuidv4;;
           now <- now_iso;;
           let job : obj :=
             literal
               [("jobId", Some (VStr jobId));
                ("userId", field "userId");
                ("jobTitle", field "jobTitle");
                ("jobDescription", field "jobDescription");
                ("jobCategory", field "jobCategory");
                ("jobType", field "jobType");
                ("jobLocation", Some jobLocation);
                ("tags", Some tags);
                ("view", Some (VNum 0));
                ("verified", Some (VBool false));
                ("isExpired", Some (VBool false));
                ("isCollab", Some (Js.or_default (field "isCollab") (VBool false)));
                ("isWishlisted", Some (VBool false));
                ("imageUrl", Some (or_str (field "imageUrl") ""));
                ("expiryDate", Some (Js.or_default (field "expiryDate") VNull));
                ("applicationStatus", Some (VNum 0));
                ("appliedBy", Some (VArr []));
                ("recruiter", Some recruiter);
                ("requirements", Some requirements);
                ("documents", Some documents);
                ("createdAt", Some (VStr now));
                ("updatedAt", Some (VStr now))] in
           Dynamo.put_new CASTING_TABLE job;;;
           ret (successResponse 201
                  [("success", VBool true);
                   ("message", VStr "Casting job created successfully");
                   ("job", VObj job)])
     end)
    (fun error =>
       if bool_decide (code error = Some "ConditionalCheckFailedException") then
         ret (errorResponse 409 "Job already exists" None)
       else ret (errorResponse 500 "Failed to create job" (Some (message error)))).

Definition getJobById (ev : event) : M response :=
  try_catch
    (jobId <- path_parameter ev "jobId";;
     if negb (present jobId) then
       ret (errorResponse 400 "Missing required parameter: jobId" None)
     else
       item <- Dynamo.get CASTING_TABLE (str jobId);;
       match item with
       | None => ret (errorResponse 404 "Job not found" None)
       | Some job =>
           ret (successResponse 200 [("success", VBool true); ("job", VObj job)])
       end)
    (fun error => ret (errorResponse 500 "Failed to fetch job" (Some (message error)))).

Definition listJobs (ev : event) : M response :=
  try_catch
    (let category := query_parameter ev "category" in
     let filter :=
       if present category then
         Some (Dynamo.Equals ["jobCategory"] (VStr (default "" category)))
       else None in
     start <- Users.exclusive_start_key (query_parameter ev "lastKey");;
     result <- Dynamo.scan CASTING_TABLE (page_limit ev) start filter;;
     ret (successResponse 200
            [("success", VBool true);
             ("items", VArr (map VObj (Dynamo.Items result)));
             ("count", VNum (Z.of_nat (length (Dynamo.Items result))));
             ("lastKey", Users.response_lastKey (Dynamo.LastEvaluatedKey result))]))
    (fun error => ret (errorResponse 500 "Failed to fetch jobs" (Some (message error)))).

Definition updateableFields : list string :=
  ["jobTitle"; "jobDescription"; "jobCategory"; "jobType"; "jobLocation";
   "tags"; "view"; "verified"; "isExpired"; "isCollab"; "isWishlisted";
   "imageUrl"; "expiryDate"; "applicationStatus"; "appliedBy"; "recruiter";
   "requirements"; "documents"].

Definition updateJob (ev : event) : M response :=
  try_catch
    (jobId <- path_parameter ev "jobId";;
     body <- parse_body ev;;
     if negb (present jobId) then
       ret (errorResponse 400 "Missing required parameter: jobId" None)
     else
       existingJob <- Dynamo.get CASTING_TABLE (str jobId);;
       match existingJob with
       | None => ret (errorResponse 404 "Job not found" None)
       | Some _ =>
           now <- now_iso;;
           member body "jobTitle";;;
           let updateExpressions :=
             (Users.assignments body updateableFields
                ++ [("updatedAt", Dynamo.Val (VStr now))])%list in
           if (length updateExpressions =? 0)%nat then
             ret (errorResponse 400 "No fields to update" None)
           else
             attributes <- Dynamo.update CASTING_TABLE (str jobId) updateExpressions false;;
             ret (successResponse 200
                    [("success", VBool true);
                     ("message", VStr "Job updated successfully");
                     ("job", VObj attributes)])
       end)
    (fun error => ret (errorResponse 500 "Failed to update job" (Some (message error)))).

Definition deleteJob (ev : event) : M response :=
  try_catch
    (jobId <- path_parameter ev "jobId";;
     if negb (present jobId) then
       ret (errorResponse 400 "Missing required parameter: jobId" None)
     else
       existingJob <- Dynamo.get CASTING_TABLE (str jobId);;
       match existingJob with
       | None => ret (errorResponse 404 "Job not found" None)
       | Some _ =>
           Dynamo.delete CASTING_TABLE (str jobId);;;
           ret (successResponse 200
                  (literal [("success", Some (VBool true));
                            ("message", Some (VStr "Job deleted successfully"));
                            ("deletedJobId", str jobId)]))
       end)
    (fun error => ret (errorResponse 500 "Failed to delete job" (Some (message error)))).

(** [apps.some(app => app.userId === userId)]: the scan stops at the
    first match; reading a property of a [null] entry throws. *)
Fixpoint some_applied (userId : option value) (apps : list value) : M bool :=
  match apps with
  | [] => ret false
  | VNull :: _ => throw (TypeError "Cannot read properties of null (reading 'userId')")
  | app :: rest =>
      if Js.strict_eq (Js.prop app "userId") userId then ret true
      else some_applied userId rest
  end.

(** [existingJob.Item.appliedBy?.some(...)], as a condition. *)
Definition alreadyApplied (appliedBy : option value) (userId : option value) : M bool :=
  match appliedBy with
  | None | Some VNull => ret false
  | Some (VArr apps) => some_applied userId apps
  | Some _ => throw (TypeError "existingJob.Item.appliedBy?.some is not a function")
  end.

Definition applyForJob (ev : event) : M response :=
  try_catch
    (jobId <- path_parameter ev "jobId";;
     body <- parse_body ev;;
     destructure body;;;
     let userId := Js.prop body "userId" in
     if negb (present jobId) then
       ret (errorResponse 400 "Missing required parameter: jobId" None)
     else
       match validateRequiredFields body ["userId"] with
       | Some missing => ret (errorResponse 400 (missing_message missing) None)
       | None =>
           existingJob <- Dynamo.get CASTING_TABLE (str jobId);;
           match existingJob with
           | None => ret (errorResponse 404 "Job not found" None)
           | Some item =>
               applied <- alreadyApplied (Js.obj_get "appliedBy" item) userId;;
               if (applied : bool) then
                 ret (errorResponse 409 "You have already applied for this job" None)
               else
                 appId <- uuidv4;;
                 let newApplication : obj :=
                   literal [("userId", userId);
                            ("appId", Some (VStr appId));
                            ("avatarUrl", Some (or_str (Js.prop body "avatarUrl") ""))] in
                 now <- now_iso;;
                 attributes <-
                   Dynamo.update CASTING_TABLE (str jobId)
                     (Users.append_entry "appliedBy" newApplication now) false;;
                 ret (successResponse 201
                        [("success", VBool true);
                         ("message", VStr "Application submitted successfully");
                         ("application", VObj newApplication);
                         ("job", VObj attributes)])
           end
       end)
    (fun error => ret (errorResponse 500 "Failed to apply for job" (Some (message error)))).

(** The number of UTF-16 code units of a string: one per character,
    two for a character outside the basic plane. *)
Fixpoint utf16_length (s : string) : Z :=
  match s with
  | "" => 0
  | String c s' =>
      (if Text.cont c then 0 else if Text.in_range 240 247 c then 2 else 1) + utf16_length s'
  end.

(** [v.length] for a value that is neither [undefined] nor [null]. *)
Definition length_of (v : value) : option value :=
  match v with
  | VArr xs => Some (VNum (Z.of_nat (length xs)))
  | VStr s => Some (VNum (utf16_length s))
  | VObj o => Js.obj_get "length" o
  | _ => None
  end.

Definition getJobApplications (ev : event) : M response :=
  try_catch
    (jobId <- path_parameter ev "jobId";;
     if negb (present jobId) then
       ret (errorResponse 400 "Missing required parameter: jobId" None)
     else
       item <- Dynamo.get CASTING_TABLE (str jobId);;
       match item with
       | None => ret (errorResponse 404 "Job not found" None)
       | Some job =>
           let applications := Js.or_default (Js.obj_get "appliedBy" job) (VArr []) in
           ret (successResponse 200
                  (literal [("success", Some (VBool true));
                            ("jobId", str jobId);
                            ("applications", Some applications);
                            ("count", length_of applications)]))
       end)
    (fun error => ret (errorResponse 500 "Failed to fetch applications" (Some (message error)))).

(** [apps.findIndex(app => app.userId === userId)]; [None] is -1. *)
Fixpoint findIndex (userId : option value) (apps : list value) : M (option nat) :=
  match apps with
  | [] => ret None
  | VNull :: _ => throw (TypeError "Cannot read properties of null (reading 'userId')")
  | app :: rest =>
      if Js.strict_eq (Js.prop app "userId") userId then ret (Some O)
      else i <- findIndex userId rest;; ret (S <$> i)
  end.

(** [x.status = status] on an entry of the list. *)
Definition set_status (status : option value) (app : value) : value :=
  match app, status with
  | VObj o, Some s => VObj (Js.obj_set "status" s o)
  | _, _ => app
  end.

Definition updateApplicationStatus (ev : event) : M response :=
  try_catch
    (jobId <- path_parameter ev "jobId";;
     userId <- path_parameter ev "userId";;
     body <- parse_body ev;;
     destructure body;;;
     let status := Js.prop body "status" in
     if negb (present jobId) || negb (present userId) then
       ret (errorResponse 400 "Missing required parameters: jobId, userId" None)
     else
     statusText <- to_string_opt status;;
     if negb (bool_decide (parseInt10 statusText ∈ [Some 1%Z; Some 2%Z])) then
       ret (errorResponse 400 "Invalid status. Must be 1 (Applied) or 2 (Shortlisted)" None)
     else
       job <- Dynamo.get CASTING_TABLE (str jobId);;
       match job with
       | None => ret (errorResponse 404 "Job not found" None)
       | Some item =>
           match Js.or_default (Js.obj_get "appliedBy" item) (VArr []) with
           | VArr appliedBy =>
               appIndex <- findIndex (str userId) appliedBy;;
               match appIndex with
               | None => ret (errorResponse 404 "Application not found" None)
               | Some i =>
                   let appliedBy' := alter (set_status status) i appliedBy in
                   now <- now_iso;;
                   attributes <-
                     Dynamo.update CASTING_TABLE (str jobId)
                       [("appliedBy", Dynamo.Val (VArr appliedBy'));
                        ("updatedAt", Dynamo.Val (VStr now))] false;;
                   ret (successResponse 200
                          [("success", VBool true);
                           ("message", VStr "Application status updated");
                           ("job", VObj attributes)])
               end
           | _ => throw (TypeError "appliedBy.findIndex is not a function")
           end
       end)
    (fun error =>
       ret (errorResponse 500 "Failed to update application status" (Some (message error)))).

Definition incrementJobView (ev : event) : M response :=
  try_catch
    (jobId <- path_parameter ev "jobId";;
     if negb (present jobId) then
       ret (errorResponse 400 "Missing required parameter: jobId" None)
     else
       now <- now_iso;;
       attributes <-
         Dynamo.update CASTING_TABLE (str jobId)
           [("view", Dynamo.Plus (Dynamo.IfNotExists "view" (Dynamo.Val (VNum 0)))
                                 (Dynamo.Val (VNum 1)));
            ("updatedAt", Dynamo.Val (VStr now))] false;;
       ret (successResponse 200
              (literal [("success", Some (VBool true));
                        ("message", Some (VStr "Job view incremented"));
                        ("view", Js.obj_get "view" attributes)])))
    (fun error => ret (errorResponse 500 "Failed to update job view" (Some (message error)))).

Definition validTypes : list string := ["pdf"; "image"; "video"; "script"].

Definition addDocument (ev : event) : M response :=
  try_catch
    (jobId <- path_parameter ev "jobId";;
     body <- parse_body ev;;
     destructure body;;;
     if negb (present jobId) then
       ret (errorResponse 400 "Missing required parameter: jobId" None)
     else
       match validateRequiredFields body ["url"; "type"] with
       | Some missing => ret (errorResponse 400 (missing_message missing) None)
       | None =>
           if negb (includes validTypes (Js.prop body "type")) then
             ret (errorResponse 400
                    ("Invalid document type. Must be one of: " ++ Js.join ", " validTypes)
                    None)
           else
             existingJob <- Dynamo.get CASTING_TABLE (str jobId);;
             match existingJob with
             | None => ret (errorResponse 404 "Job not found" None)
             | Some _ =>
                 docId <- uuidv4;;
                 let newDocument : obj :=
                   literal [("id", Some (VStr docId));
                            ("url", Js.prop body "url");
                            ("type", Js.prop body "type")] in
                 now <- now_iso;;
                 attributes <-
                   Dynamo.update CASTING_TABLE (str jobId)
                     (Users.append_entry "documents" newDocument now) false;;
                 ret (successResponse 201
                        [("success", VBool true);
                         ("message", VStr "Document added");
                         ("document", VObj newDocument);
                         ("job", VObj attributes)])
             end
       end)
    (fun error => ret (errorResponse 500 "Failed to add document" (Some (message error)))).

(** [docs.filter(doc => doc.id !== docId)] *)
Fixpoint without_id (docId : option value) (docs : list value) : M (list value) :=
  match docs with
  | [] => ret []
  | VNull :: _ => throw (TypeError "Cannot read properties of null (reading 'id')")
  | doc :: rest =>
      kept <- without_id docId rest;;
      ret (if Js.strict_eq (Js.prop doc "id") docId then kept else doc :: kept)
  end.

(** [job.Item.documents?.length] *)
Definition stored_length (documents : option value) : option value :=
  match documents with
  | None | Some VNull => None
  | Some v => length_of v
  end.

Definition removeDocument (ev : event) : M response :=
  try_catch
    (jobId <- path_parameter ev "jobId";;
     docId <- path_parameter ev "docId";;
     if negb (present jobId) || negb (present docId) then
       ret (errorResponse 400 "Missing required parameters: jobId, docId" None)
     else
       job <- Dynamo.get CASTING_TABLE (str jobId);;
       match job with
       | None => ret (errorResponse 404 "Job not found" None)
       | Some item =>
           match Js.or_default (Js.obj_get "documents" item) (VArr []) with
           | VArr docs =>
               documents <- without_id (str docId) docs;;
               if Js.strict_eq (Some (VNum (Z.of_nat (length documents))))
                               (stored_length (Js.obj_get "documents" item)) then
                 ret (errorResponse 404 "Document not found" None)
               else
                 now <- now_iso;;
                 attributes <-
                   Dynamo.update CASTING_TABLE (str jobId)
                     [("documents", Dynamo.Val (VArr documents));
                      ("updatedAt", Dynamo.Val (VStr now))] false;;
                 ret (successResponse 200
                        [("success", VBool true);
                         ("message", VStr "Document removed");
                         ("job", VObj attributes)])
           | _ => throw (TypeError "(job.Item.documents || []).filter is not a function")
           end
       end)
    (fun error => ret (errorResponse 500 "Failed to remove document" (Some (message error)))).

(** [(job.appliedBy || []).filter(app => app.userId === userId)] *)
Fixpoint applications_of (userId : option value) (apps : list value) : M (list value) :=
  match apps with
  | [] => ret []
  | VNull :: _ => throw (TypeError "Cannot read properties of null (reading 'userId')")
  | app :: rest =>
      kept <- applications_of userId rest;;
      ret (if Js.strict_eq (Js.prop app "userId") userId then app :: kept else kept)
  end.

(** [{...app, jobId: job.jobId, jobTitle: job.jobTitle, jobCategory:
    job.jobCategory}]: a property given an [undefined] value is left
    out when the result is printed. *)
Definition override (k : string) (v : option value) (o : obj) : obj :=
  match v with
  | Some x => Js.obj_set k x o
  | None => Js.obj_remove k o
  end.

Definition tagged (job : obj) (app : value) : value :=
  match app with
  | VObj o =>
      VObj (override "jobCategory" (Js.obj_get "jobCategory" job)
              (override "jobTitle" (Js.obj_get "jobTitle" job)
                 (override "jobId" (Js.obj_get "jobId" job) o)))
  | _ => app
  end.

Fixpoint collect (userId : option value) (jobs : list obj) : M (list value) :=
  match jobs with
  | [] => ret []
  | job :: rest =>
      match Js.or_default (Js.obj_get "appliedBy" job) (VArr []) with
      | VArr apps =>
          userApps <- applications_of userId apps;;
          others <- collect userId rest;;
          ret (map (tagged job) userApps ++ others)%list
      | _ => throw (TypeError "(job.appliedBy || []).filter is not a function")
      end
  end.

Definition getUserApplications (ev : event) : M response :=
  try_catch
    (userId <- path_parameter ev "userId";;
     if negb (present userId) then
       ret (errorResponse 400 "Missing required parameter: userId" None)
     else
       result <- Dynamo.scan CASTING_TABLE None None
                   (Some (Dynamo.Contains ["appliedBy"] (VStr (default "" userId))));;
       userApplications <- collect (str userId) (Dynamo.Items result);;
       ret (successResponse 200
              (literal [("success", Some (VBool true));
                        ("userId", str userId);
                        ("applications", Some (VArr userApplications));
                        ("count", Some (VNum (Z.of_nat (length userApplications))))])))
    (fun error =>
       ret (errorResponse 500 "Failed to fetch user applications" (Some (message error)))).

Definition searchJobs (ev : event) : M response :=
  try_catch
    (let q := query_parameter ev "q" in
     let type := default "category" (query_parameter ev "type") in
     if negb (present q) then
       ret (errorResponse 400 "Missing required parameter: q" None)
     else
       let qv := VStr (default "" q) in
       let filterExpression :=
         if decide (type = "category") then Some (Dynamo.Equals ["jobCategory"] qv)
         else if decide (type = "title") then Some (Dynamo.Contains ["jobTitle"] qv)
         else if decide (type = "location") then Some (Dynamo.Contains ["jobLocation"] qv)
         else if decide (type = "tags") then Some (Dynamo.Contains ["tags"] qv)
         else None in
       match filterExpression with
       | None =>
           ret (errorResponse 400
                  "Invalid search type. Use: category, title, location, or tags" None)
       | Some f =>
           result <- Dynamo.scan CASTING_TABLE (page_limit ev) None (Some f);;
           ret (successResponse 200
                  [("success", VBool true);
                   ("query", qv);
                   ("type", VStr type);
                   ("count", VNum (Z.of_nat (length (Dynamo.Items result))));
                   ("items", VArr (map VObj (Dynamo.Items result)))])
       end)
    (fun error => ret (errorResponse 500 "Failed to search jobs" (Some (message error)))).

End Casting.

(** ** Sign-up and login handlers (src/src/handlers/casting.js, the auth
    file), delegating to the identity provider *)

Module Auth.
Import Runtime Http.
Open Scope js_scope.

(** [cognito.<op>(params).promise()].  The oracle gives the outcome
    of the promise.  The SDK checks the parameters before it sends
    anything: a request that lacks a required parameter (the client id
    when USER_POOL_CLIENT_ID is not set) or gives a value that is no
    string is rejected at once, and in a world that models the
    provider the oracle answers such a request with that rejection.
    What is proved of an answer of the provider is stated for requests
    that pass this check. *)
Definition cognito (op : string) (params : obj) : M value :=
  fun w => (cognito_at w (ticks w) op params, advance w).

(** The characters of a string, each a code point decoded from
    UTF-8 (the string is well formed). *)
Fixpoint code_points (s : string) : list N :=
  match s with
  | "" => []
  | String b0 r0 =>
      let c0 := Text.code b0 in
      if (c0 <? 128)%N then c0 :: code_points r0
      else
        match r0 with
        | String b1 r1 =>
            let c1 := (Text.code b1 mod 64)%N in
            if (c0 <? 224)%N then ((c0 mod 32) * 64 + c1)%N :: code_points r1
            else
              match r1 with
              | String b2 r2 =>
                  let c2 := (Text.code b2 mod 64)%N in
                  if (c0 <? 240)%N then
                    (((c0 mod 16) * 64 + c1) * 64 + c2)%N :: code_points r2
                  else
                    match r2 with
                    | String b3 r3 =>
                        ((((c0 mod 8) * 64 + c1) * 64 + c2) * 64
                         + Text.code b3 mod 64)%N :: code_points r3
                    | "" => []
                    end
              | "" => []
              end
        | "" => []
        end
  end.

(** The class [\s]. *)
Definition white (c : N) : bool :=
  bool_decide (c ∈ [9; 10; 11; 12; 13; 32; 160; 5760; 8232; 8233; 8239; 8287;
                    12288; 65279]%N)
  || ((8192 <=? c) && (c <=? 8202))%N.

Definition at_sign : N := 64.
Definition dot : N := 46.

(** [[^\s@]] *)
Definition plain (c : N) : bool := negb (white c) && negb (c =? at_sign)%N.

(** [[^\s@]+\.[^\s@]+$] *)
Definition dotted (d : list N) : bool :=
  forallb plain d &&
  match d with
  | _ :: rest => existsb (fun c => (c =? dot)%N) (removelast rest)
  | [] => false
  end.

Fixpoint split_at_sign (l : list N) : option (list N * list N) :=
  match l with
  | [] => None
  | c :: rest =>
      if (c =? at_sign)%N then Some ([], rest)
      else match split_at_sign rest with
           | Some (a, b) => Some (c :: a, b)
           | None => None
           end
  end.

(** [/^[^\s@]+@[^\s@]+\.[^\s@]+$/.test(s)] *)
Definition emailRegex (s : string) : bool :=
  match split_at_sign (code_points s) with
  | Some (local, domain) =>
      negb (bool_decide (local = [])) && forallb plain local && dotted domain
  | None => false
  end.

Definition digit (c : N) : bool := ((48 <=? c) && (c <=? 57))%N.

(** [/^\+?[1-9]\d{1,14}$/.test(s.replace(/\s|-/g, ''))] *)
Definition phoneRegex (s : string) : bool :=
  let kept := List.filter (fun c => negb (white c || (c =? 45)%N)) (code_points s) in
  let body := match kept with
              | c :: rest => if (c =? 43)%N then rest else kept
              | [] => []
              end in
  match body with
  | c :: rest =>
      ((49 <=? c) && (c <=? 57))%N && forallb digit rest
      && (1 <=? length rest)%nat && (length rest <=? 14)%nat
  | [] => false
  end.

Definition has_upper (s : string) : bool := existsb (Text.in_range 65 90) (list_ascii_of_string s).
Definition has_lower (s : string) : bool := existsb (Text.in_range 97 122) (list_ascii_of_string s).
Definition has_digit (s : string) : bool := existsb Text.is_digit (list_ascii_of_string s).

Section PasswordRules.

(** [x < 8] for a string [x] goes through the floating-point
    reading of the string and is left open. *)
Variable string_below : string -> Z -> bool.

(** [x < 8]: an array or an object is first converted to a
    string; the string of an object is no number. *)
Definition below (x : option value) (bound : Z) : M bool :=
  match x with
  | Some (VNum n) => ret (n <? bound)%Z
  | Some VNull => ret (0 <? bound)%Z
  | Some (VBool b) => ret ((if b then 1 else 0) <? bound)%Z
  | Some (VStr s) => ret (string_below s bound)
  | Some (VArr xs) => s <- to_string_opt (Some (VArr xs));; ret (string_below s bound)
  | Some (VObj o) => to_string_opt (Some (VObj o));;; ret false
  | None => ret false
  end.

(** The four password checks, in order; [None] when all pass. *)
Definition password_problem (password : value) : M (option string) :=
  short <- below (Casting.length_of password) 8;;
  if (short : bool) then ret (Some "Password must be at least 8 characters")
  else
    text <- to_string_opt (Some password);;
    if negb (has_upper text) then
      ret (Some "Password must contain at least one uppercase letter")
    else if negb (has_lower text) then
      ret (Some "Password must contain at least one lowercase letter")
    else if negb (has_digit text) then
      ret (Some "Password must contain at least one number")
    else ret None.

Definition truthy_field (body : value) (k : string) : bool :=
  Js.truthy_opt (Js.prop body k).

(** [email || phone_number] *)
Definition login_name (body : value) : option value :=
  if truthy_field body "email" then Js.prop body "email" else Js.prop body "phone_number".

(** [x.toString()] for a truthy value. *)
Definition toString_method (v : value) : M string := to_string_opt (Some v).

Definition signUp (ev : event) : M response :=
  try_catch
    (body <- parse_body ev;;
     destructure body;;;
     let email := Js.prop body "email" in
     let phone_number := Js.prop body "phone_number" in
     let password := Js.prop body "password" in
     let name := Js.prop body "name" in
     if (negb (Js.truthy_opt email) && negb (Js.truthy_opt phone_number))
        || negb (Js.truthy_opt password) || negb (Js.truthy_opt name) then
       ret (errorResponse 400
              "Missing required fields: (email or phone_number), password, name" None)
     else if Js.truthy_opt email && Js.truthy_opt phone_number then
       ret (errorResponse 400 "Provide either email or phone_number, not both" None)
     else
     email_ok <-
       (if Js.truthy_opt email then text <- to_string_opt email;; ret (emailRegex text)
        else ret true);;
     if negb email_ok then ret (errorResponse 400 "Invalid email format" None)
     else
       phone_ok <-
         (if Js.truthy_opt phone_number then
            match phone_number with
            | Some (VStr p) => ret (phoneRegex p)
            | _ => throw (TypeError "phone_number.replace is not a function")
            end
          else ret true);;
       if negb phone_ok then
         ret (errorResponse 400
                "Invalid phone number format. Use E.164 format: +country code + number" None)
       else
         problem <- password_problem (default VNull password);;
         match problem with
         | Some reason => ret (errorResponse 400 reason None)
         | None =>
             let attribute (n : string) (v : option value) : list value :=
               if Js.truthy_opt v then [VObj (literal [("Name", Some (VStr n)); ("Value", v)])]
               else [] in
             let userAttributes :=
               ([VObj (literal [("Name", Some (VStr "name")); ("Value", name)])]
                ++ attribute "email" email
                ++ attribute "phone_number" phone_number)%list in
             clientId <- getenv "USER_POOL_CLIENT_ID";;
             result <- cognito "signUp"
                         (literal [("ClientId", str clientId);
                                   ("Username", login_name body);
                                   ("Password", password);
                                   ("UserAttributes", Some (VArr userAttributes))]);;
             userSub <- member result "UserSub";;
             ret (successResponse 201
                    (literal
                       [("success", Some (VBool true));
                        ("message",
                         Some (VStr "User registered successfully. Check your email/SMS for confirmation code."));
                        ("userId", userSub);
                        ("userConfirmed", Some (VBool false))]))
         end)
    (fun error =>
       if bool_decide (code error = Some "UsernameExistsException") then
         ret (errorResponse 409 "Email or phone number already registered" None)
       else if bool_decide (code error = Some "InvalidPasswordException") then
         ret (errorResponse 400 "Password does not meet requirements" None)
       else if bool_decide (code error = Some "InvalidParameterException") then
         ret (errorResponse 400 "Invalid parameters" (Some (message error)))
       else ret (errorResponse 500 "Signup failed" (Some (message error)))).

Definition signIn (ev : event) : M response :=
  try_catch
    (body <- parse_body ev;;
     destructure body;;;
     if (negb (truthy_field body "email") && negb (truthy_field body "phone_number"))
        || negb (truthy_field body "password") then
       ret (errorResponse 400
              "Missing required fields: (email or phone_number), password" None)
     else if truthy_field body "email" && truthy_field body "phone_number" then
       ret (errorResponse 400 "Provide either email or phone_number, not both" None)
     else
       clientId <- getenv "USER_POOL_CLIENT_ID";;
       result <- cognito "initiateAuth"
                   (literal
                      [("AuthFlow", Some (VStr "USER_PASSWORD_AUTH"));
                       ("ClientId", str clientId);
                       ("AuthParameters",
                        Some (VObj (literal [("USERNAME", login_name body);
                                             ("PASSWORD", Js.prop body "password")])))]);;
       authenticationResult <- member result "AuthenticationResult";;
       match authenticationResult with
       | Some auth =>
           if Js.truthy auth then
             ret (successResponse 200
                    [("success", VBool true);
                     ("message", VStr "Login successful");
                     ("tokens",
                      VObj (literal [("accessToken", Js.prop auth "AccessToken");
                                     ("idToken", Js.prop auth "IdToken");
                                     ("refreshToken", Js.prop auth "RefreshToken");
                                     ("expiresIn", Js.prop auth "ExpiresIn")]))])
           else ret (errorResponse 401 "Authentication failed" None)
       | None => ret (errorResponse 401 "Authentication failed" None)
       end)
    (fun error =>
       if bool_decide (code error = Some "UserNotFoundException") then
         ret (errorResponse 401 "Email or phone number not registered" None)
       else if bool_decide (code error = Some "NotAuthorizedException") then
         ret (errorResponse 401 "Invalid credentials" None)
       else if bool_decide (code error = Some "UserNotConfirmedException") then
         ret (errorResponse 403
                "User email or phone not confirmed. Check your email/SMS for confirmation link."
                None)
       else if bool_decide (code error = Some "InvalidParameterException") then
         ret (errorResponse 400 "Invalid parameters" (Some (message error)))
       else ret (errorResponse 500 "Login failed" (Some (message error)))).

Definition confirmSignUp (ev : event) : M response :=
  try_catch
    (body <- parse_body ev;;
     destructure body;;;
     if (negb (truthy_field body "email") && negb (truthy_field body "phone_number"))
        || negb (truthy_field body "confirmationCode") then
       ret (errorResponse 400
              "Missing required fields: (email or phone_number), confirmationCode" None)
     else if truthy_field body "email" && truthy_field body "phone_number" then
       ret (errorResponse 400 "Provide either email or phone_number, not both" None)
     else
       clientId <- getenv "USER_POOL_CLIENT_ID";;
       codeText <- toString_method (default VNull (Js.prop body "confirmationCode"));;
       cognito "confirmSignUp"
         (literal [("ClientId", str clientId);
                   ("Username", login_name body);
                   ("ConfirmationCode", Some (VStr codeText))]);;;
       ret (successResponse 200
              [("success", VBool true);
               ("message", VStr "Email/Phone confirmed successfully. You can now login.")]))
    (fun error =>
       if bool_decide (code error = Some "UserNotFoundException") then
         ret (errorResponse 404 "Email or phone number not registered" None)
       else if bool_decide (code error = Some "CodeMismatchException") then
         ret (errorResponse 400 "Invalid confirmation code" None)
       else if bool_decide (code error = Some "ExpiredCodeException") then
         ret (errorResponse 400 "Confirmation code has expired. Please request a new one." None)
       else if bool_decide (code error = Some "UserAlreadyConfirmedException") then
         ret (errorResponse 400 "User email/phone already confirmed" None)
       else if bool_decide (code error = Some "InvalidParameterException") then
         ret (errorResponse 400 "Invalid parameters" (Some (message error)))
       else ret (errorResponse 500 "Email/Phone confirmation failed" (Some (message error)))).

Definition resendConfirmationCode (ev : event) : M response :=
  try_catch
    (body <- parse_body ev;;
     destructure body;;;
     if negb (truthy_field body "email") && negb (truthy_field body "phone_number") then
       ret (errorResponse 400 "Missing required field: email or phone_number" None)
     else if truthy_field body "email" && truthy_field body "phone_number" then
       ret (errorResponse 400 "Provide either email or phone_number, not both" None)
     else
       clientId <- getenv "USER_POOL_CLIENT_ID";;
       cognito "resendConfirmationCode"
         (literal [("ClientId", str clientId); ("Username", login_name body)]);;;
       ret (successResponse 200
              [("success", VBool true);
               ("message", VStr "Confirmation code resent to your email or phone")]))
    (fun error =>
       if bool_decide (code error = Some "UserNotFoundException") then
         ret (errorResponse 404 "Email or phone number not registered" None)
       else if bool_decide (code error = Some "UserAlreadyConfirmedException") then
         ret (errorResponse 400 "User email/phone already confirmed" None)
       else if bool_decide (code error = Some "InvalidParameterException") then
         ret (errorResponse 400 "Invalid parameters" (Some (message error)))
       else if bool_decide (code error = Some "LimitExceededException") then
         ret (errorResponse 429 "Too many requests. Please try again later." None)
       else ret (errorResponse 500 "Resend confirmation code failed" (Some (message error)))).

Definition adminConfirmUser (ev : event) : M response :=
  try_catch
    (body <- parse_body ev;;
     destructure body;;;
     if negb (truthy_field body "email") && negb (truthy_field body "phone_number") then
       ret (errorResponse 400 "Missing required field: email or phone_number" None)
     else if truthy_field body "email" && truthy_field body "phone_number" then
       ret (errorResponse 400 "Provide either email or phone_number, not both" None)
     else
       userPoolId <- getenv "USER_POOL_ID";;
       if negb (present userPoolId) then
         ret (errorResponse 500 "Server configuration error" None)
       else
         cognito "adminConfirmSignUp"
           (literal [("UserPoolId", str userPoolId); ("Username", login_name body)]);;;
         username <- to_string_opt (login_name body);;
         ret (successResponse 200
                (literal
                   [("success", Some (VBool true));
                    ("message",
                     Some (VStr ("User " ++ username
                                 ++ " confirmed successfully. They can now login.")));
                    ("confirmedUser", login_name body)])))
    (fun error =>
       if bool_decide (code error = Some "UserNotFoundException") then
         ret (errorResponse 404 "Email or phone number not registered" None)
       else if bool_decide (code error = Some "UserAlreadyConfirmedException") then
         ret (errorResponse 400 "User email/phone already confirmed" None)
       else if bool_decide (code error = Some "InvalidParameterException") then
         ret (errorResponse 400 "Invalid parameters" (Some (message error)))
       else if bool_decide (code error = Some "NotAuthorizedException") then
         ret (errorResponse 403 "Not authorized to perform this action" None)
       else ret (errorResponse 500 "User confirmation failed" (Some (message error)))).

Definition forgotPassword (ev : event) : M response :=
  try_catch
    (body <- parse_body ev;;
     destructure body;;;
     if negb (truthy_field body "email") && negb (truthy_field body "phone_number") then
       ret (errorResponse 400 "Missing required field: email or phone_number" None)
     else if truthy_field body "email" && truthy_field body "phone_number" then
       ret (errorResponse 400 "Provide either email or phone_number, not both" None)
     else
       clientId <- getenv "USER_POOL_CLIENT_ID";;
       result <- cognito "forgotPassword"
                   (literal [("ClientId", str clientId); ("Username", login_name body)]);;
       details <- member result "CodeDeliveryDetails";;
       ret (successResponse 200
              [("success", VBool true);
               ("message",
                VStr "Password reset code has been sent to your email or phone number");
               ("codeDeliveryDetails",
                VObj (literal [("destination", Js.opt_prop details "Destination");
                               ("deliveryMedium", Js.opt_prop details "DeliveryMedium");
                               ("attributeName", Js.opt_prop details "AttributeName")]))]))
    (fun error =>
       if bool_decide (code error = Some "UserNotFoundException") then
         ret (errorResponse 404 "Email or phone number not registered" None)
       else if bool_decide (code error = Some "UserNotConfirmedException") then
         ret (errorResponse 403
                "User email or phone not confirmed. Please confirm your account first." None)
       else if bool_decide (code error = Some "InvalidParameterException") then
         ret (errorResponse 400 "Invalid parameters" (Some (message error)))
       else if bool_decide (code error = Some "LimitExceededException") then
         ret (errorResponse 429 "Too many requests. Please try again later." None)
       else ret (errorResponse 500 "Failed to initiate password reset" (Some (message error)))).

Definition resetPassword (ev : event) : M response :=
  try_catch
    (body <- parse_body ev;;
     destructure body;;;
     if (negb (truthy_field body "email") && negb (truthy_field body "phone_number"))
        || negb (truthy_field body "confirmationCode")
        || negb (truthy_field body "newPassword") then
       ret (errorResponse 400
              "Missing required fields: (email or phone_number), confirmationCode, newPassword"
              None)
     else if truthy_field body "email" && truthy_field body "phone_number" then
       ret (errorResponse 400 "Provide either email or phone_number, not both" None)
     else
       problem <- password_problem (default VNull (Js.prop body "newPassword"));;
       match problem with
       | Some reason => ret (errorResponse 400 reason None)
       | None =>
           clientId <- getenv "USER_POOL_CLIENT_ID";;
           codeText <- toString_method (default VNull (Js.prop body "confirmationCode"));;
           cognito "confirmForgotPassword"
             (literal [("ClientId", str clientId);
                       ("Username", login_name body);
                       ("ConfirmationCode", Some (VStr codeText));
                       ("Password", Js.prop body "newPassword")]);;;
           ret (successResponse 200
                  [("success", VBool true);
                   ("message",
                    VStr "Password reset successfully. You can now login with your new password.")])
       end)
    (fun error =>
       if bool_decide (code error = Some "UserNotFoundException") then
         ret (errorResponse 404 "Email or phone number not registered" None)
       else if bool_decide (code error = Some "CodeMismatchException") then
         ret (errorResponse 400 "Invalid or expired reset code" None)
       else if bool_decide (code error = Some "ExpiredCodeException") then
         ret (errorResponse 400 "Reset code has expired. Please request a new one." None)
       else if bool_decide (code error = Some "InvalidPasswordException") then
         ret (errorResponse 400 "Password does not meet requirements" None)
       else if bool_decide (code error = Some "InvalidParameterException") then
         ret (errorResponse 400 "Invalid parameters" (Some (message error)))
       else if bool_decide (code error = Some "LimitExceededException") then
         ret (errorResponse 429 "Too many attempts. Please try again later." None)
       else ret (errorResponse 500 "Password reset failed" (Some (message error)))).

End PasswordRules.

End Auth.

(** ** The legacy task handlers (createTask.js, getTasks.js and the
    first file of src/unnamed/part_001) *)

Module Tasks.
Import Runtime Http.
Open Scope js_scope.

(** [JSON.parse(event.body)], outside any [try]: an absent body is
    [null], which parses to [null]. *)
Definition parse_raw (ev : event) : M value :=
  match JSON.parse (default "null" (body ev)) with
  | Some v => ret v
  | None => throw (SyntaxError "Unexpected token in JSON")
  end.

Definition plain (status : Z) (text : string) : response :=
  {| statusCode := status; headers := []; payload := text |}.

Definition failed (err : error) : response :=
  plain 500 (JSON.stringify (VObj (enumerable err))).

Definition createTask (ev : event) : M response :=
  data <- parse_raw ev;;
  try_catch
    (id <- member data "id";;
     Dynamo.put_new TASKS_TABLE
       (literal [("id", id);
                 ("title", Js.prop data "title");
                 ("description", Js.prop data "description")]);;;
     ret (plain 200 (JSON.stringify data)))
    (fun err => ret (failed err)).

Definition getTasks (ev : event) : M response :=
  try_catch
    (data <- Dynamo.scan TASKS_TABLE None None None;;
     let n := VNum (Z.of_nat (length (Dynamo.Items data))) in
     ret (plain 200
            (JSON.stringify
               (VObj [("Items", VArr (map VObj (Dynamo.Items data)));
                      ("Count", n); ("ScannedCount", n)]))))
    (fun err => ret (failed err)).

(** [Number.parseInt(event.pathParameters?.id)] *)
Definition task_id (ev : event) : option Z :=
  match pathParameters ev with
  | Some m => parseInt (default "undefined" (m !! "id"))
  | None => parseInt "undefined"
  end.

Definition updateTask (ev : event) : M response :=
  let id := task_id ev in
  data <- parse_raw ev;;
  try_catch
    (title <- member data "title";;
     match title, Js.prop data "description" with
     | Some t, Some d =>
         Dynamo.update TASKS_TABLE (VNum <$> id)
           [("title", Dynamo.Val t); ("description", Dynamo.Val d)] true;;;
         ret (plain 200 (JSON.stringify data))
     | _, _ =>
         throw (Dynamo.ValidationException
                  "An expression attribute value used in expression is not defined")
     end)
    (fun err => ret (failed err)).

End Tasks.

(** ** The HTTP surface: one entry per exported handler *)

Module Api.
Import Runtime Http.

Inductive endpoint :=
| createUser | getUserById | getUserByUsername | updateUser | deleteUser
| listUsers | incrementUserView | addWorkExperience | addPortfolioItem
| addConnection | searchUsers
| createJob | getJobById | listJobs | updateJob | deleteJob | applyForJob
| getJobApplications | updateApplicationStatus | incrementJobView
| addDocument | removeDocument | getUserApplications | searchJobs
| signUp | signIn | confirmSignUp | resendConfirmationCode
| adminConfirmUser | forgotPassword | resetPassword
| createTask | getTasks | updateTask.

Definition handler (string_below : string -> Z -> bool) (e : endpoint)
    : event -> M response :=
  match e with
  | createUser => Users.createUser
  | getUserById => Users.getUserById
  | getUserByUsername => Users.getUserByUsername
  | updateUser => Users.updateUser
  | deleteUser => Users.deleteUser
  | listUsers => Users.listUsers
  | incrementUserView => Users.incrementUserView
  | addWorkExperience => Users.addWorkExperience
  | addPortfolioItem => Users.addPortfolioItem
  | addConnection => Users.addConnection
  | searchUsers => Users.searchUsers
  | createJob => Casting.createJob
  | getJobById => Casting.getJobById
  | listJobs => Casting.listJobs
  | updateJob => Casting.updateJob
  | deleteJob => Casting.deleteJob
  | applyForJob => Casting.applyForJob
  | getJobApplications => Casting.getJobApplications
  | updateApplicationStatus => Casting.updateApplicationStatus
  | incrementJobView => Casting.incrementJobView
  | addDocument => Casting.addDocument
  | removeDocument => Casting.removeDocument
  | getUserApplications => Casting.getUserApplications
  | searchJobs => Casting.searchJobs
  | signUp => Auth.signUp string_below
  | signIn => Auth.signIn
  | confirmSignUp => Auth.confirmSignUp
  | resendConfirmationCode => Auth.resendConfirmationCode
  | adminConfirmUser => Auth.adminConfirmUser
  | forgotPassword => Auth.forgotPassword
  | resetPassword => Auth.resetPassword string_below
  | createTask => Tasks.createTask
  | getTasks => Tasks.getTasks
  | updateTask => Tasks.updateTask
  end.

(** The task handlers predate the response helpers. *)
Definition legacy (e : endpoint) : bool :=
  match e with
  | createTask | getTasks | updateTask => true
  | _ => false
  end.

(** The handlers that only read answer without a message. *)
Definition announces (e : endpoint) : bool :=
  match e with
  | getUserById | getUserByUsername | listUsers | searchUsers
  | getJobById | listJobs | getJobApplications | getUserApplications | searchJobs
  | createTask | getTasks | updateTask => false
  | _ => true
  end.







(** *** The response envelope *)

Definition cors (r : response) : Prop :=
  Js.obj_get "Access-Control-Allow-Origin" (headers r) = Some (VStr "*") /\
  Js.obj_get "Access-Control-Allow-Credentials" (headers r) = Some (VBool true).

(** [{success: true, message?, ...payload}] *)
Definition success_body (with_message : bool) (r : response) : Prop :=
  exists b : obj,
    payload r = JSON.stringify (VObj b) /\
    Js.obj_get "success" b = Some (VBool true) /\
    (with_message = true -> exists m, Js.obj_get "message" b = Some (VStr m)).

(** [{success: false, message, details?}] *)
Definition failure_body (r : response) : Prop :=
  exists (msg : string) (details : option string),
    payload r = JSON.stringify (VObj (error_body msg details)).

Definition enveloped (with_message : bool) (r : response) : Prop :=
  cors r /\
  ((200 <= statusCode r < 300)%Z /\ success_body with_message r
   \/ (400 <= statusCode r)%Z /\ failure_body r).

End Api.

(** ** Sample worlds and requests *)

Module Examples.
Import Runtime Http.

Definition quoted (s : string) : string :=
  String Text.dquote (s ++ String Text.dquote "").

(** A world with empty tables in which nothing fails: the n-th uuid
    is uuid-n, the clock reads the tick. *)
Definition quiet : World :=
  {| users := ∅; casting := ∅; tasks := ∅; ticks := 0;
     uuid_at := fun n => "uuid-" ++ JSON.digits (N.of_nat n);
     time_at := fun n => "2024-01-01T00:00:00." ++ JSON.digits (N.of_nat n) ++ "Z";
     fault_at := fun _ => None;
     cognito_at := fun _ _ _ => Ok (VObj []);
     process_env := ∅ |}.

Definition with_users (m : gmap scalar obj) (w : World) : World := set_rows USERS_TABLE m w.
Definition with_jobs (m : gmap scalar obj) (w : World) : World := set_rows CASTING_TABLE m w.

Definition request (ps : list (string * string)) (text : string) : event :=
  {| pathParameters := Some (list_to_map ps);
     queryStringParameters := None;
     body := Some text |}.

Definition ann : obj :=
  [("userId", VStr "u1"); ("username", VStr "ann");
   ("basicDetails", VObj [("firstName", VStr "Ann"); ("city", VStr "Pune")]);
   ("updatedAt", VStr "2023-12-31T00:00:00.000Z")].

Definition one_user : World := with_users {[ KS "u1" := ann ]} quiet.

Definition job7 : obj :=
  [("jobId", VStr "j7"); ("jobTitle", VStr "Lead");
   ("appliedBy", VArr [VObj [("userId", VStr "u1"); ("appId", VStr "a1"); ("avatarUrl", VStr "")]]);
   ("documents", VArr [VObj [("id", VStr "d1"); ("url", VStr "x"); ("type", VStr "pdf")]]);
   ("updatedAt", VStr "2023-12-31T00:00:00.000Z")].

Definition one_job : World := with_jobs {[ KS "j7" := job7 ]} quiet.



(** A job record that was never given a documents list: what
    incrementJobView leaves when it is called for an id that names no
    job. *)
Definition viewed : World :=
  snd (Casting.incrementJobView (request [("jobId", "j9")] "") quiet).

Definition bare_job : obj :=
  [("jobId", VStr "j9"); ("view", VNum 1); ("updatedAt", VStr "2024-01-01T00:00:00.0Z")].

(** [{"url":"s3://script","type":"script"}] *)
Definition script : string :=
  "{" ++ quoted "url" ++ ":" ++ quoted "s3://script" ++ ","
      ++ quoted "type" ++ ":" ++ quoted "script" ++ "}".

(** [{"id":1,"title":"t"}] *)
Definition task : string :=
  "{" ++ quoted "id" ++ ":1," ++ quoted "title" ++ ":" ++ quoted "t" ++ "}".





Definition never_below : string -> Z -> bool := fun _ _ => false.

End Examples.

(** ** Further samples and the predicates of the later facts *)

Module Samples.
Import Runtime Http Examples.

Definition bob : obj :=
  [("userId", VStr "u2"); ("username", VStr "bob"); ("view", VNum 4)].

Definition two_users : World := with_users {[ KS "u1" := ann; KS "u2" := bob ]} quiet.

(** [{"username":"bob"}] *)
Definition rename_to_bob : string := "{" ++ quoted "username" ++ ":" ++ quoted "bob" ++ "}".
End Samples.

Module FrameDefs.
Import Runtime Http Api.

(** [m] leaves the table [t] as it is, however it ends. *)
Definition keeps {A} (t : table) (m : M A) : Prop :=
  forall w, rows t (snd (m w)) = rows t w.

Definition same_tables (w w' : World) : Prop :=
  users w' = users w /\ casting w' = casting w /\ tasks w' = tasks w.

(** [m] leaves every table as it is unless it returns a value that
    satisfies [Q]. *)
Definition changes_only_with {A} (Q : A -> Prop) (m : M A) : Prop :=
  forall w,
    match m w with
    | (Ok a, w') => Q a \/ same_tables w w'
    | (Throw _, w') => same_tables w w'
    end.

(** A failed datastore request has changed nothing. *)
Definition fails_clean {A} (m : M A) : Prop :=
  forall w, match m w with
            | (Ok _, _) => True
            | (Throw _, w') => same_tables w w'
            end.

Definition answers {A} (Q : A -> Prop) (m : M A) : Prop :=
  forall w, exists a w', m w = (Ok a, w') /\ Q a.

Definition accepted (r : response) : Prop := (200 <= statusCode r < 300)%Z.

(** The table a handler writes to, if any. *)
Definition stores (e : endpoint) : option table :=
  match e with
  | createUser | updateUser | deleteUser | incrementUserView
  | addWorkExperience | addPortfolioItem | addConnection => Some USERS_TABLE
  | createJob | updateJob | deleteJob | applyForJob | updateApplicationStatus
  | incrementJobView | addDocument | removeDocument => Some CASTING_TABLE
  | createTask | updateTask => Some TASKS_TABLE
  | _ => None
  end.
End FrameDefs.

Module ViewDefs.
Import Runtime.
(** [SET #view = if_not_exists(#view, :zero) + :inc, #updatedAt = :now] *)
Definition count_view (now : string) : list Dynamo.action :=
  [("view", Dynamo.Plus (Dynamo.IfNotExists "view" (Dynamo.Val (VNum 0)))
                        (Dynamo.Val (VNum 1)));
   ("updatedAt", Dynamo.Val (VStr now))].

(** The record an update starts from: the stored one, or the bare key
    when nothing is stored. *)
Definition current (t : table) (k : string) (w : World) : obj :=
  default [(Dynamo.hash_key t, VStr k)] (rows t w !! KS k).

(** The counter of a record, an absent one counting as zero. *)
Definition views (item : obj) : option Z :=
  match Js.obj_get "view" item with
  | None => Some 0%Z
  | Some (VNum n) => Some n
  | Some _ => None
  end.
End ViewDefs.

Module DocumentDefs.
(** [docs.filter(doc => doc.id !== docId)] as a list. *)
Definition other_documents (docId : string) (docs : list value) : list value :=
  List.filter (fun doc => negb (Js.strict_eq (Js.prop doc "id") (Some (VStr docId)))) docs.

(** [{"status":2}] *)
Definition shortlist : string := "{" ++ Examples.quoted "status" ++ ":2}".

End DocumentDefs.

Module PageDefs.
Import Runtime Http.

(** The value of [lastKey] in the answer for a page that has read
    [read], [full] telling whether the page is full. *)
Definition next_key (t : table) (full : bool) (read : list (scalar * obj)) : value :=
  Users.response_lastKey (if full then Dynamo.last_key t read else None).

(** The answer of listUsers for the records [read]. *)
Definition users_page (full : bool) (read : list (scalar * obj)) : response :=
  successResponse 200
    [("success", VBool true);
     ("items", VArr (map VObj (map snd read)));
     ("count", VNum (Z.of_nat (length (map snd read))));
     ("lastKey", next_key USERS_TABLE full read)].

(** The keys of the users table are non-empty texts. *)
Definition text_keys (w : World) : Prop :=
  forall k item, users w !! k = Some item ->
    exists s, k = KS s /\ s <> "" /\ Text.well_formed s.

(** A request for a page: [?limit=n] and, for a later page,
    [&lastKey=token]. *)
Definition page_request (limit : string) (lastKey : option string) : event :=
  {| pathParameters := None;
     queryStringParameters :=
       Some (match lastKey with
             | Some tok => {[ "limit" := limit; "lastKey" := tok ]}
             | None => {[ "limit" := limit ]}
             end);
     body := None |}.
End PageDefs.

Module TaskDefs.
Import Runtime Http Examples.

(** [Number.isSafeInteger]: the integers that a number of JavaScript,
    a double, holds exactly.  For these the number read from a text is
    the integer the text spells. *)
Definition safe (n : Z) : Prop := (- 2 ^ 53 < n < 2 ^ 53)%Z.

(** The characters a JSON value can begin with. *)
Definition json_start (c : ascii) : bool :=
  Ascii.eqb c "n" || Ascii.eqb c "t" || Ascii.eqb c "f" || Ascii.eqb c Text.dquote
  || Ascii.eqb c "[" || Ascii.eqb c "{" || Ascii.eqb c "-" || Text.is_digit c.

(** The texts that begin no JSON value: nothing but white space, or a
    first character that no value begins with. *)
Definition unopened (text : string) : bool :=
  match JSON.skip_ws text with
  | "" => true
  | String c _ => negb (json_start c)
  end.

Definition task1 : obj := [("id", VNum 1); ("title", VStr "t")].

Definition one_task : World := set_rows TASKS_TABLE {[ KN 1 := task1 ]} quiet.

(** [{"id":1,"title":"again"}] *)
Definition retask : string :=
  "{" ++ quoted "id" ++ ":1," ++ quoted "title" ++ ":" ++ quoted "again" ++ "}".

(** [{"title":"new","description":"d"}] *)
Definition retitle : string :=
  "{" ++ quoted "title" ++ ":" ++ quoted "new" ++ ","
      ++ quoted "description" ++ ":" ++ quoted "d" ++ "}".
End TaskDefs.

Module JobDefs.
Import Examples.
(** [{"userId":"u1","jobTitle":"Lead","jobDescription":"A lead role",
      "jobCategory":"Acting","jobType":"Online","view":9}] *)
Definition new_job : string :=
  "{" ++ quoted "userId" ++ ":" ++ quoted "u1" ++ ","
      ++ quoted "jobTitle" ++ ":" ++ quoted "Lead" ++ ","
      ++ quoted "jobDescription" ++ ":" ++ quoted "A lead role" ++ ","
      ++ quoted "jobCategory" ++ ":" ++ quoted "Acting" ++ ","
      ++ quoted "jobType" ++ ":" ++ quoted "Online" ++ ","
      ++ quoted "view" ++ ":9}".

Definition new_job_body : value :=
  VObj [("userId", VStr "u1"); ("jobTitle", VStr "Lead");
        ("jobDescription", VStr "A lead role"); ("jobCategory", VStr "Acting");
        ("jobType", VStr "Online"); ("view", VNum 9)].
End JobDefs.

Module AuthDefs.
Import Runtime Http Auth.

(** The password rules of signUp, for a password that is a string. *)
Definition strong (p : string) : bool :=
  (8 <=? Casting.utf16_length p)%Z && has_upper p && has_lower p && has_digit p.

(** What signUp sends to the identity provider for an email sign-up. *)
Definition registration (w : World) (name : value) (e p : string) : obj :=
  literal
    [("ClientId", str (process_env w !! "USER_POOL_CLIENT_ID"));
     ("Username", Some (VStr e));
     ("Password", Some (VStr p));
     ("UserAttributes",
      Some (VArr [VObj [("Name", VStr "name"); ("Value", name)];
                  VObj [("Name", VStr "email"); ("Value", VStr e)]]))].

Definition taken : error :=
  {| code := Some "UsernameExistsException"; message := "User already exists";
     enumerable := [] |}.

(** A world whose identity provider knows every name already. *)
Definition crowded : World :=
  {| users := ∅; casting := ∅; tasks := ∅; ticks := 0;
     uuid_at := uuid_at Examples.quiet;
     time_at := time_at Examples.quiet;
     fault_at := fun _ => None;
     cognito_at := fun _ _ _ => Throw taken;
     process_env := {[ "USER_POOL_CLIENT_ID" := "client-1" ]} |}.

(** [{"email":"a@b.co","password":"Secret12","name":"Ann"}] *)
Definition sign_up_ann : string :=
  "{" ++ Examples.quoted "email" ++ ":" ++ Examples.quoted "a@b.co" ++ ","
      ++ Examples.quoted "password" ++ ":" ++ Examples.quoted "Secret12" ++ ","
      ++ Examples.quoted "name" ++ ":" ++ Examples.quoted "Ann" ++ "}".
End AuthDefs.

(** * Facts *)

Module JsFacts.
Import Js.

Lemma obj_get_set_eq (k : string) (v : value) (o : obj) :
  obj_get k (obj_set k v o) = Some v.
Proof.
  induction o as [|[k' v'] o IH]; cbn.
  - destruct (decide (k = k)); congruence.
  - destruct (decide (k = k')) as [->|n]; cbn.
    + destruct (decide (k' = k')); congruence.
    + destruct (decide (k = k')); [contradiction | exact IH].
Qed.

Lemma obj_get_set_ne (k k' : string) (v : value) (o : obj) :
  k <> k' -> obj_get k (obj_set k' v o) = obj_get k o.
Proof.
  intros Hne. induction o as [|[k0 v0] o IH]; cbn.
  - destruct (decide (k = k')); [contradiction | reflexivity].
  - destruct (decide (k' = k0)) as [->|n]; cbn.
    + destruct (decide (k = k0)); [contradiction | reflexivity].
    + destruct (decide (k = k0)); [reflexivity | exact IH].
Qed.

Lemma obj_get_set (k k' : string) (v : value) (o : obj) :
  obj_get k (obj_set k' v o) = if decide (k = k') then Some v else obj_get k o.
Proof.
  destruct (decide (k = k')) as [->|n];
    [apply obj_get_set_eq | now apply obj_get_set_ne].
Qed.


Lemma obj_get_assign_other (k : string) (kvs o : obj) :
  k ∉ keys kvs -> obj_get k (assign o kvs) = obj_get k o.
Proof.
  revert o. induction kvs as [|[k' v'] kvs IH]; intros o Hk; cbn; [reflexivity|].
  cbn in Hk. apply not_elem_of_cons in Hk as [Hne Hk].
  unfold assign in IH. rewrite IH by exact Hk. now apply obj_get_set_ne.
Qed.

Lemma obj_get_assign (k : string) (v : value) (kvs o : obj) :
  NoDup (keys kvs) -> (k, v) ∈ kvs -> obj_get k (assign o kvs) = Some v.
Proof.
  revert o. induction kvs as [|[k' v'] kvs IH]; intros o Hnd Hin.
  - inversion Hin.
  - cbn in Hnd. apply NoDup_cons in Hnd as [Hk' Hnd].
    apply elem_of_cons in Hin as [Heq|Hin].
    + injection Heq as -> ->.
      change (assign o ((k', v') :: kvs)) with (assign (obj_set k' v' o) kvs).
      rewrite obj_get_assign_other by exact Hk'. apply obj_get_set_eq.
    + change (assign o ((k', v') :: kvs)) with (assign (obj_set k' v' o) kvs).
      now apply IH.
Qed.

End JsFacts.

Module RuntimeFacts.
Import Runtime.

Lemma bind_run {A B} (m : M A) (f : A -> M B) (w w1 : World) (a : A) :
  m w = (Ok a, w1) -> bind m f w = f a w1.
Proof. intros H. unfold bind. now rewrite H. Qed.

Lemma bind_throw {A B} (m : M A) (f : A -> M B) (w w1 : World) (e : error) :
  m w = (Throw e, w1) -> bind m f w = (Throw e, w1).
Proof. intros H. unfold bind. now rewrite H. Qed.

Lemma try_catch_ok {A} (m : M A) (h : error -> M A) (w w1 : World) (a : A) :
  m w = (Ok a, w1) -> try_catch m h w = (Ok a, w1).
Proof. intros H. unfold try_catch. now rewrite H. Qed.

Lemma try_catch_throw {A} (m : M A) (h : error -> M A) (w w1 : World) (e : error) :
  m w = (Throw e, w1) -> try_catch m h w = h e w1.
Proof. intros H. unfold try_catch. now rewrite H. Qed.

Lemma reliable_advance (w : World) : reliable w -> reliable (advance w).
Proof. intros H n. apply H. Qed.

Lemma reliable_set_rows (t : table) (m : gmap scalar obj) (w : World) :
  reliable w -> reliable (set_rows t m w).
Proof. intros H n. apply H. Qed.

Lemma rows_advance (t : table) (w : World) : rows t (advance w) = rows t w.
Proof. now destruct t. Qed.


Lemma rows_set_rows_ne (t t' : table) (m : gmap scalar obj) (w : World) :
  t <> t' -> rows t (set_rows t' m w) = rows t w.
Proof. now destruct t, t'. Qed.

End RuntimeFacts.

Module DynamoFacts.
Import Runtime Dynamo RuntimeFacts JsFacts.

Lemma request_run {A} (op : World -> outcome A * World) (w : World) :
  reliable w -> request op w = op (advance w).
Proof. intros H. unfold request. now rewrite H. Qed.

Lemma get_run (t : table) (k : string) (w : World) :
  reliable w -> string_keyed t -> k <> "" ->
  get t (Some (VStr k)) w = (Ok (rows t w !! KS k), advance w).
Proof.
  intros Hr Ht Hk. unfold get. rewrite request_run by exact Hr.
  rewrite Ht. cbn. destruct (decide (k = "")); [contradiction|].
  now rewrite rows_advance.
Qed.


Lemma apply_constants (old : obj) (acts : list action) (kvs item : obj) :
  constants acts = Some kvs -> apply_actions old acts item = Some (Js.assign item kvs).
Proof.
  revert kvs item. induction acts as [|[k e] acts IH]; intros kvs item H.
  - injection H as <-. reflexivity.
  - unfold constants in H. cbn in H.
    destruct e; try discriminate H. cbn in H.
    destruct (mapM _ acts) as [kvs'|] eqn:E; [|discriminate H].
    injection H as <-. cbn. now apply IH.
Qed.

Lemma constants_keys (acts : list action) (kvs : obj) :
  constants acts = Some kvs -> Js.keys kvs = map fst acts.
Proof.
  revert kvs. induction acts as [|[k e] acts IH]; intros kvs H.
  - injection H as <-. reflexivity.
  - unfold constants in H. cbn in H.
    destruct e; try discriminate H. cbn in H.
    destruct (mapM _ acts) as [kvs'|] eqn:E; [|discriminate H].
    injection H as <-. cbn. f_equal. now apply IH.
Qed.

(** An update that succeeds on a stored item. *)
Lemma update_run (t : table) (k : string) (acts : list action) (w : World)
    (old item : obj) :
  reliable w -> string_keyed t -> k <> "" ->
  NoDup (map fst acts) -> hash_key t ∉ map fst acts ->
  rows t w !! KS k = Some old ->
  apply_actions old acts old = Some item ->
  index_keys_ok t (written acts item) = true ->
  update t (Some (VStr k)) acts false w
  = (Ok item, set_rows t (<[KS k := item]> (rows t w)) (advance w)).
Proof.
  intros Hr Ht Hk Hnd Hh Hold Happ Hidx. unfold update.
  rewrite request_run by exact Hr. rewrite Ht. cbn.
  destruct (decide (k = "")); [contradiction|].
  rewrite bool_decide_eq_true_2 by exact Hnd.
  rewrite bool_decide_eq_false_2 by exact Hh. cbn.
  rewrite rows_advance, Hold. cbn. rewrite Happ, Hidx. reflexivity.
Qed.

End DynamoFacts.

Module HttpFacts.
Import Runtime Http RuntimeFacts.
Local Open Scope list_scope.

Lemma path_parameter_run (ev : event) (ps : gmap string string) (name : string) (w : World) :
  pathParameters ev = Some ps ->
  path_parameter ev name w = (Ok (ps !! name), w).
Proof. intros H. unfold path_parameter. now rewrite H. Qed.

Lemma parse_body_run (ev : event) (b : value) (w : World) :
  JSON.parse (body_text ev) = Some b -> parse_body ev w = (Ok b, w).
Proof. intros H. unfold parse_body. now rewrite H. Qed.

Lemma member_run (b : value) (k : string) (w : World) :
  b <> VNull -> member b k w = (Ok (Js.prop b k), w).
Proof. intros H. destruct b; try reflexivity. contradiction. Qed.

Lemma present_some (k : string) : k <> "" -> present (Some k) = true.
Proof. intros H. cbn. now rewrite bool_decide_eq_false_2. Qed.

Lemma push_nonempty {A} (l : list A) (x : A) : (length (l ++ [x]) =? 0)%nat = false.
Proof. apply Nat.eqb_neq. rewrite length_app. cbn. lia. Qed.

Lemma strict_eq_str (x : option value) (u : string) :
  Js.strict_eq x (Some (VStr u)) = true <-> x = Some (VStr u).
Proof.
  split.
  - destruct x as [v|]; [destruct v|]; cbn; try discriminate.
    intros H. apply bool_decide_eq_true_1 in H. now subst.
  - intros ->. cbn. now apply bool_decide_eq_true_2.
Qed.

Lemma filter_none {A} (f : A -> bool) (l : list A) :
  (forall x, x ∈ l -> f x = false) -> List.filter f l = [].
Proof.
  induction l as [|x l IH]; intros H; [reflexivity|].
  cbn. rewrite H by constructor. apply IH. intros y Hy. apply H. now constructor.
Qed.

End HttpFacts.

Module UpdateFacts.
Local Open Scope list_scope.
Import Runtime Http Users RuntimeFacts DynamoFacts JsFacts HttpFacts.


Lemma assignments_supplied (body : value) (fields : list string) :
  assignments body fields = map (fun kv => (fst kv, Dynamo.Val (snd kv))) (supplied body fields).
Proof.
  induction fields as [|f fields IH]; [reflexivity|].
  cbn. unfold supplied in *. cbn. destruct (Js.prop body f); cbn; [f_equal|]; exact IH.
Qed.

Lemma constants_vals (kvs : obj) :
  Dynamo.constants (map (fun kv => (fst kv, Dynamo.Val (snd kv))) kvs) = Some kvs.
Proof.
  induction kvs as [|[k v] kvs IH]; [reflexivity|].
  unfold Dynamo.constants in *. cbn. rewrite IH. reflexivity.
Qed.

Lemma supplied_keys_sublist (body : value) (fields : list string) :
  sublist (Js.keys (supplied body fields)) fields.
Proof.
  induction fields as [|f fields IH]; [constructor|].
  unfold supplied in *. cbn. destruct (Js.prop body f); cbn.
  - now apply sublist_skip.
  - now apply sublist_cons.
Qed.

Lemma supplied_elem (body : value) (fields : list string) (f : string) (v : value) :
  f ∈ fields -> Js.prop body f = Some v -> (f, v) ∈ supplied body fields.
Proof.
  intros Hin Hp. unfold supplied. apply list_elem_of_omap.
  exists f. split; [exact Hin|]. now rewrite Hp.
Qed.

Lemma supplied_keys_elem (body : value) (fields : list string) (f : string) :
  f ∈ Js.keys (supplied body fields) -> f ∈ fields /\ is_Some (Js.prop body f).
Proof.
  unfold Js.keys. intros H. apply list_elem_of_fmap in H as ([k v] & -> & H).
  apply list_elem_of_omap in H as (x & Hx & Hv).
  destruct (Js.prop body x) eqn:E; [|discriminate Hv].
  injection Hv as <- <-. cbn. rewrite E. eauto.
Qed.

Lemma obj_get_written (k : string) (acts : list Dynamo.action) (item : obj) :
  Js.obj_get k (Dynamo.written acts item)
  = if bool_decide (k ∈ map fst acts) then Js.obj_get k item else None.
Proof.
  unfold Dynamo.written. induction item as [|[k' v'] item IH]; cbn.
  - now destruct (bool_decide _).
  - destruct (bool_decide (k' ∈ map fst acts)) eqn:E; cbn.
    + destruct (decide (k = k')) as [->|n]; [now rewrite E | exact IH].
    + destruct (decide (k = k')) as [->|n]; [now rewrite IH, E | exact IH].
Qed.

Lemma assignment_names (body : value) (fields : list string) (now : string) :
  map fst (assignments body fields ++ [("updatedAt", Dynamo.Val (VStr now))])
  = Js.keys (supplied body fields ++ [("updatedAt", VStr now)]).
Proof.
  rewrite assignments_supplied. unfold Js.keys.
  rewrite !map_app, map_map. reflexivity.
Qed.

Lemma assignment_names_sublist (body : value) (fields : list string) (now : string) :
  sublist (map fst (assignments body fields ++ [("updatedAt", Dynamo.Val (VStr now))]))
          (fields ++ ["updatedAt"]).
Proof.
  rewrite assignment_names. unfold Js.keys. rewrite map_app.
  apply sublist_app; [apply supplied_keys_sublist | reflexivity].
Qed.

Lemma assignments_apply (body : value) (fields : list string) (now : string) (item : obj) :
  Dynamo.apply_actions item
    (assignments body fields ++ [("updatedAt", Dynamo.Val (VStr now))]) item
  = Some (updated item body fields now).
Proof.
  apply apply_constants. rewrite assignments_supplied.
  change [("updatedAt", Dynamo.Val (VStr now))]
    with (map (fun kv : string * value => (fst kv, Dynamo.Val (snd kv))) [("updatedAt", VStr now)]).
  rewrite <- map_app. apply constants_vals.
Qed.

Lemma supplied_keys_NoDup (body : value) (fields : list string) (now : string) :
  NoDup (fields ++ ["updatedAt"]) ->
  NoDup (Js.keys (supplied body fields ++ [("updatedAt", VStr now)])).
Proof.
  intros Hnd. unfold Js.keys. rewrite map_app.
  eapply sublist_NoDup; [exact Hnd | apply sublist_app; [apply supplied_keys_sublist | reflexivity]].
Qed.

(** What an update leaves in each attribute. *)
Lemma updated_supplied (item : obj) (body : value) (fields : list string) (now : string)
    (f : string) (v : value) :
  NoDup (fields ++ ["updatedAt"]) -> f ∈ fields -> Js.prop body f = Some v ->
  Js.obj_get f (updated item body fields now) = Some v.
Proof.
  intros Hnd Hf Hv. unfold updated. apply obj_get_assign.
  - now apply supplied_keys_NoDup.
  - apply elem_of_app. left. now apply supplied_elem.
Qed.

Lemma updated_timestamp (item : obj) (body : value) (fields : list string) (now : string) :
  NoDup (fields ++ ["updatedAt"]) ->
  Js.obj_get "updatedAt" (updated item body fields now) = Some (VStr now).
Proof.
  intros Hnd. unfold updated. apply obj_get_assign.
  - now apply supplied_keys_NoDup.
  - apply elem_of_app. right. constructor.
Qed.

Lemma updated_other (item : obj) (body : value) (fields : list string) (now : string)
    (f : string) :
  f <> "updatedAt" -> (f ∉ fields \/ Js.prop body f = None) ->
  Js.obj_get f (updated item body fields now) = Js.obj_get f item.
Proof.
  intros Hne Hf. unfold updated. apply obj_get_assign_other.
  unfold Js.keys. rewrite map_app. intros Hin. apply elem_of_app in Hin as [Hin|Hin].
  - apply supplied_keys_elem in Hin as [Hin [v Hv]].
    destruct Hf as [Hf|Hf]; [contradiction | congruence].
  - cbn in Hin. apply list_elem_of_singleton in Hin. contradiction.
Qed.

Lemma updateableFields_NoDup : NoDup (updateableFields ++ ["updatedAt"]).
Proof. apply (bool_decide_unpack _). vm_compute. exact I. Qed.

Lemma job_updateableFields_NoDup : NoDup (Casting.updateableFields ++ ["updatedAt"]).
Proof. apply (bool_decide_unpack _). vm_compute. exact I. Qed.

(** The datastore accepts the update the two update handlers build. *)
Lemma update_fields_run (t : table) (fields : list string) (k : string) (b : value)
    (now : string) (w : World) (item : obj) :
  reliable w -> Dynamo.string_keyed t -> k <> "" ->
  NoDup (fields ++ ["updatedAt"]) ->
  Dynamo.hash_key t ∉ fields ++ ["updatedAt"] ->
  rows t w !! KS k = Some item ->
  (forall f v, f ∈ Dynamo.index_keys t -> f ∈ fields -> Js.prop b f = Some v ->
               exists u, v = VStr u /\ u <> "") ->
  "updatedAt" ∉ Dynamo.index_keys t ->
  Dynamo.update t (Some (VStr k))
    (assignments b fields ++ [("updatedAt", Dynamo.Val (VStr now))]) false w
  = (Ok (updated item b fields now),
     set_rows t (<[KS k := updated item b fields now]> (rows t w)) (advance w)).
Proof.
  intros Hr Ht Hk Hnd Hh Hitem Hidx Hts.
  apply (update_run t k _ _ item).
  - exact Hr.
  - exact Ht.
  - exact Hk.
  - eapply sublist_NoDup; [exact Hnd | apply assignment_names_sublist].
  - intros Hin. apply Hh. eapply elem_of_sublist; [exact Hin | apply assignment_names_sublist].
  - exact Hitem.
  - apply assignments_apply.
  - unfold Dynamo.index_keys_ok. apply forallb_forall. intros f Hf.
    apply list_elem_of_In in Hf. rewrite obj_get_written.
    destruct (bool_decide _) eqn:E; [|reflexivity].
    apply bool_decide_eq_true_1 in E. rewrite assignment_names in E.
    unfold Js.keys in E. rewrite map_app in E. apply elem_of_app in E as [E|E].
    + apply supplied_keys_elem in E as [Hin [v Hv]].
      rewrite (updated_supplied _ _ _ _ _ v Hnd Hin Hv).
      destruct (Hidx f v Hf Hin Hv) as (u & -> & Hu).
      now rewrite bool_decide_eq_false_2.
    + cbn in E. apply list_elem_of_singleton in E. subst f. contradiction.
Qed.

Lemma query_username_free (u : string) (w : World) :
  reliable w -> u <> "" ->
  (forall k it, users w !! k = Some it -> Js.obj_get "username" it <> Some (VStr u)) ->
  Dynamo.query_username (Some (VStr u)) w = (Ok [], advance w).
Proof.
  intros Hr Hu Hfree. unfold Dynamo.query_username.
  rewrite request_run by exact Hr. destruct (decide (u = "")); [contradiction|].
  rewrite filter_none; [reflexivity|].
  intros [k it] Hin. apply elem_of_map_to_list in Hin. cbn in Hin.
  apply not_true_is_false. intros H. apply strict_eq_str in H.
  exact (Hfree k it Hin H).
Qed.

Lemma name_check_run (w : World) (item : obj) (b : value) :
  reliable w -> name_settled w item b ->
  exists w1,
    (if Js.truthy_opt (Js.prop b "username")
        && negb (Js.strict_eq (Js.prop b "username") (Js.obj_get "username" item))
     then Runtime.bind (Dynamo.query_username (Js.prop b "username"))
            (fun usernameExists => ret (0 <? length usernameExists)%nat)
     else ret false) w = (Ok false, w1)
    /\ (w1 = w \/ w1 = advance w).
Proof.
  intros Hr [Hn | (u & Hu & Hn & [Hsame | Hfree])]; rewrite Hn.
  - exists w. split; [reflexivity | now left].
  - exists w. rewrite Hsame. cbn.
    rewrite (bool_decide_eq_true_2 (u = u)) by reflexivity.
    rewrite andb_false_r. split; [reflexivity | now left].
  - destruct (Js.truthy_opt (Some (VStr u))
              && negb (Js.strict_eq (Some (VStr u)) (Js.obj_get "username" item))).
    + exists (advance w). split; [|now right].
      erewrite bind_run by (now apply query_username_free). reflexivity.
    + exists w. split; [reflexivity | now left].
Qed.

Lemma updateUser_run (ev : event) (w : World) (ps : gmap string string)
    (k : string) (b : value) (item : obj) :
  reliable w ->
  pathParameters ev = Some ps -> ps !! "userId" = Some k -> k <> "" ->
  JSON.parse (body_text ev) = Some b -> b <> VNull ->
  users w !! KS k = Some item ->
  name_settled w item b ->
  exists (n : nat) (w' : World),
    let item' := updated item b updateableFields (time_at w n) in
    updateUser ev w
    = (Ok (successResponse 200
             [("success", VBool true);
              ("message", VStr "User updated successfully");
              ("user", VObj item')]), w')
    /\ users w' = <[KS k := item']> (users w)
    /\ casting w' = casting w /\ tasks w' = tasks w.
Proof.
  intros Hr Hps Hk Hne Hb Hnn Hitem Hname.
  destruct (name_check_run (advance w) item b) as (w1 & Hcheck & Hw1);
    [now apply reliable_advance | exact Hname |].
  assert (Hw1' : reliable w1 /\ users w1 = users w /\ casting w1 = casting w
                 /\ tasks w1 = tasks w /\ time_at w1 = time_at w).
  { destruct Hw1 as [-> | ->]; repeat split; try reflexivity;
      repeat apply reliable_advance; exact Hr. }
  destruct Hw1' as (Hr1 & Hu1 & Hc1 & Ht1 & Hti1).
  exists (ticks w1).
  eexists. cbv zeta. split.
  - unfold updateUser. apply try_catch_ok.
    erewrite bind_run by (apply path_parameter_run; exact Hps). rewrite Hk.
    erewrite bind_run by (apply parse_body_run; exact Hb).
    rewrite present_some by exact Hne. cbn [negb].
    erewrite bind_run by (apply (get_run USERS_TABLE); [exact Hr | reflexivity | exact Hne]).
    cbn [rows]. rewrite Hitem.
    erewrite bind_run by (apply member_run; exact Hnn).
    erewrite bind_run by exact Hcheck. cbv beta iota.
    erewrite bind_run by reflexivity.
    rewrite push_nonempty.
    erewrite bind_run.
    2:{ apply (update_fields_run USERS_TABLE updateableFields k b _ _ item).
        - now apply reliable_advance.
        - reflexivity.
        - exact Hne.
        - apply updateableFields_NoDup.
        - apply (bool_decide_unpack _). vm_compute. exact I.
        - cbn [rows advance users]. rewrite Hu1. exact Hitem.
        - intros f v Hf _ Hv. cbn in Hf. apply list_elem_of_singleton in Hf. subst f.
          destruct Hname as [Hn | (u & Hu & Hn & _)]; [congruence|].
          rewrite Hn in Hv. injection Hv as <-. eauto.
        - apply (bool_decide_unpack _). vm_compute. exact I. }
    rewrite Hti1. reflexivity.
  - cbn [users casting tasks set_rows advance rows]. rewrite Hu1, Hc1, Ht1. auto.
Qed.

Lemma updateJob_run (ev : event) (w : World) (ps : gmap string string)
    (k : string) (b : value) (item : obj) :
  reliable w ->
  pathParameters ev = Some ps -> ps !! "jobId" = Some k -> k <> "" ->
  JSON.parse (body_text ev) = Some b -> b <> VNull ->
  casting w !! KS k = Some item ->
  exists (n : nat) (w' : World),
    let item' := updated item b Casting.updateableFields (time_at w n) in
    Casting.updateJob ev w
    = (Ok (successResponse 200
             [("success", VBool true);
              ("message", VStr "Job updated successfully");
              ("job", VObj item')]), w')
    /\ casting w' = <[KS k := item']> (casting w)
    /\ users w' = users w /\ tasks w' = tasks w.
Proof.
  intros Hr Hps Hk Hne Hb Hnn Hitem.
  exists (S (ticks w)). eexists. cbv zeta. split.
  - unfold Casting.updateJob. apply try_catch_ok.
    erewrite bind_run by (apply path_parameter_run; exact Hps). rewrite Hk.
    erewrite bind_run by (apply parse_body_run; exact Hb).
    rewrite present_some by exact Hne. cbn [negb].
    erewrite bind_run by (apply (get_run CASTING_TABLE); [exact Hr | reflexivity | exact Hne]).
    cbn [rows]. rewrite Hitem.
    erewrite bind_run by reflexivity.
    erewrite bind_run by (apply member_run; exact Hnn).
    rewrite push_nonempty.
    erewrite bind_run.
    2:{ apply (update_fields_run CASTING_TABLE Casting.updateableFields k b _ _ item).
        - now repeat apply reliable_advance.
        - reflexivity.
        - exact Hne.
        - apply job_updateableFields_NoDup.
        - apply (bool_decide_unpack _). vm_compute. exact I.
        - exact Hitem.
        - intros f v Hf. inversion Hf.
        - apply (bool_decide_unpack _). vm_compute. exact I. }
    reflexivity.
  - cbn [users casting tasks set_rows advance rows]. auto.
Qed.

End UpdateFacts.

Module Safety.
Import Runtime.

Lemma safe_ret {A} (Q : A -> Prop) (a : A) : Q a -> safe Q (ret a).
Proof. intros H w. exact H. Qed.

Lemma safe_throw {A} (Q : A -> Prop) (e : error) : safe Q (throw e).
Proof. intros w. exact I. Qed.

Lemma safe_try_catch {A} (Q : A -> Prop) (m : M A) (h : error -> M A) :
  safe Q m -> (forall e, safe Q (h e)) -> safe Q (try_catch m h).
Proof.
  intros Hm Hh w. unfold try_catch. specialize (Hm w).
  destruct (m w) as [[a|e] w']; [exact Hm | apply Hh].
Qed.

Lemma safe_bind {A B} (Q : B -> Prop) (m : M A) (f : A -> M B) :
  (forall a, safe Q (f a)) -> safe Q (bind m f).
Proof.
  intros H w. unfold bind. destruct (m w) as [[a|e] w']; [apply H | exact I].
Qed.

(** A handler that wraps [m] in a [try] whose [catch] always answers
    always answers. *)
Lemma try_catch_total {A} (Q : A -> Prop) (m : M A) (h : error -> M A) :
  safe Q m ->
  (forall e w, exists a w', h e w = (Ok a, w') /\ Q a) ->
  forall w, exists a w', try_catch m h w = (Ok a, w') /\ Q a.
Proof.
  intros Hm Hh w. unfold try_catch. specialize (Hm w).
  destruct (m w) as [[a|e] w']; [eauto | apply Hh].
Qed.

End Safety.

Module EnvelopeFacts.
Import Runtime Http Api Safety.

Lemma cors_headers_cors (status : Z) (text : string) :
  cors {| statusCode := status; headers := cors_headers; payload := text |}.
Proof. split; reflexivity. Qed.

Lemma enveloped_error (wm : bool) (status : Z) (msg : string) (d : option string) :
  (400 <= status)%Z -> enveloped wm (errorResponse status msg d).
Proof.
  intros H. split; [apply cors_headers_cors|].
  right. split; [exact H|]. exists msg, d. reflexivity.
Qed.

Lemma enveloped_success (wm : bool) (status : Z) (b : obj) :
  (200 <= status < 300)%Z ->
  Js.obj_get "success" b = Some (VBool true) ->
  (wm = true -> exists m, Js.obj_get "message" b = Some (VStr m)) ->
  enveloped wm (successResponse status b).
Proof.
  intros H Hs Hm. split; [apply cors_headers_cors|].
  left. split; [exact H|]. exists b. auto.
Qed.

Ltac answer :=
  lazymatch goal with
  | |- enveloped _ (errorResponse _ _ _) => apply enveloped_error; lia
  | |- enveloped _ (successResponse _ _) =>
      apply enveloped_success;
      [ lia | reflexivity | first [ discriminate | intros _; eexists; reflexivity ] ]
  end.

Ltac safe_step :=
  lazymatch goal with
  | |- safe _ (ret _) => apply safe_ret; answer
  | |- safe _ (throw _) => apply safe_throw
  | |- safe _ (bind _ _) => apply safe_bind; intros
  | |- safe _ (match ?x with _ => _ end) => destruct x
  | |- safe _ (let _ := _ in _) => cbv zeta
  end.

Ltac handled :=
  intros;
  repeat lazymatch goal with
         | |- context [bool_decide ?P] => destruct (bool_decide P)
         end;
  do 2 eexists; (split; [reflexivity | answer]).

Lemma createUser_enveloped ev w :
  exists r w', Users.createUser ev w = (Ok r, w') /\ enveloped true r.
Proof.
  apply try_catch_total; [repeat safe_step | handled].
Qed.

Theorem every_handler_enveloped below e ev w :
  legacy e = false ->
  exists r w', handler below e ev w = (Ok r, w') /\ enveloped (announces e) r.
Proof.
  intros Hl. destruct e; try discriminate Hl; clear Hl;
    (apply try_catch_total; [repeat safe_step | handled]).
Qed.
End EnvelopeFacts.

Module UpdateClaims.
Import Runtime Http Users RuntimeFacts DynamoFacts JsFacts HttpFacts UpdateFacts.
Local Open Scope list_scope.

Lemma supplied_nil (b : value) (fields : list string) (f : string) :
  supplied b fields = [] -> f ∈ fields -> Js.prop b f = None.
Proof.
  intros Hs Hf. destruct (Js.prop b f) as [v|] eqn:E; [|reflexivity].
  pose proof (supplied_elem b fields f v Hf E) as Hin.
  rewrite Hs in Hin. inversion Hin.
Qed.

Lemma updated_nothing (item : obj) (b : value) (fields : list string) (now : string) :
  supplied b fields = [] ->
  updated item b fields now = Js.obj_set "updatedAt" (VStr now) item.
Proof. intros H. unfold updated. now rewrite H. Qed.

(** C1: an update request that names none of the updateable fields is
    not turned away.  For every stored user (resp. casting job) and
    every body that defines no updateable field, updateUser (resp.
    updateJob) answers 200, not 400, and stores the record with only
    its updatedAt replaced by the current time: the check for an empty
    update comes after the timestamp assignment has been added. *)
Theorem empty_update_is_accepted
    (ev : event) (w : World) (ps : gmap string string) (k : string) (b : value) (item : obj) :
  reliable w -> pathParameters ev = Some ps -> k <> "" ->
  JSON.parse (body_text ev) = Some b -> b <> VNull ->
  (ps !! "userId" = Some k -> users w !! KS k = Some item ->
   supplied b Users.updateableFields = [] ->
   exists n w',
     updateUser ev w
     = (Ok (successResponse 200
              [("success", VBool true);
               ("message", VStr "User updated successfully");
               ("user", VObj (Js.obj_set "updatedAt" (VStr (time_at w n)) item))]), w')
     /\ users w' !! KS k = Some (Js.obj_set "updatedAt" (VStr (time_at w n)) item))
  /\
  (ps !! "jobId" = Some k -> casting w !! KS k = Some item ->
   supplied b Casting.updateableFields = [] ->
   exists n w',
     Casting.updateJob ev w
     = (Ok (successResponse 200
              [("success", VBool true);
               ("message", VStr "Job updated successfully");
               ("job", VObj (Js.obj_set "updatedAt" (VStr (time_at w n)) item))]), w')
     /\ casting w' !! KS k = Some (Js.obj_set "updatedAt" (VStr (time_at w n)) item)).
Proof.
  intros Hr Hps Hk Hb Hnn. split; intros Hid Hitem Hnone.
  - destruct (updateUser_run ev w ps k b item Hr Hps Hid Hk Hb Hnn Hitem)
      as (n & w' & Hrun & Hu & _).
    { left. apply (supplied_nil b updateableFields); [exact Hnone|].
      apply (bool_decide_unpack _). vm_compute. exact I. }
    exists n, w'. cbv zeta in Hrun, Hu.
    rewrite (updated_nothing _ _ _ _ Hnone) in Hrun, Hu.
    split; [exact Hrun|]. rewrite Hu. apply lookup_insert_eq.
  - destruct (updateJob_run ev w ps k b item Hr Hps Hid Hk Hb Hnn Hitem)
      as (n & w' & Hrun & Hu & _).
    exists n, w'. cbv zeta in Hrun, Hu.
    rewrite (updated_nothing _ _ _ _ Hnone) in Hrun, Hu.
    split; [exact Hrun|]. rewrite Hu. apply lookup_insert_eq.
Qed.

Lemma quiet_reliable (m : gmap scalar obj) (t : table) : reliable (set_rows t m Examples.quiet).
Proof. intros n. reflexivity. Qed.

(** The empty body [{}] sent for the stored user u1. *)
Lemma empty_update_is_accepted_witness :
  exists n w',
    updateUser (Examples.request [("userId", "u1")] "{}") Examples.one_user
    = (Ok (successResponse 200
             [("success", VBool true);
              ("message", VStr "User updated successfully");
              ("user", VObj (Js.obj_set "updatedAt"
                               (VStr (time_at Examples.one_user n)) Examples.ann))]), w')
    /\ users w' !! KS "u1"
       = Some (Js.obj_set "updatedAt" (VStr (time_at Examples.one_user n)) Examples.ann).
Proof.
  apply (proj1 (empty_update_is_accepted
                  (Examples.request [("userId", "u1")] "{}") Examples.one_user
                  (list_to_map [("userId", "u1")]) "u1" (VObj []) Examples.ann
                  (quiet_reliable _ _) eq_refl ltac:(discriminate) eq_refl
                  ltac:(discriminate))).
  - reflexivity.
  - reflexivity.
  - reflexivity.
Defined.

(** The second half of the same sentence of the specification does
    hold: whatever fields an accepted update supplies, the stored
    updatedAt becomes the current time. *)
Lemma update_bumps_updatedAt
    (ev : event) (w : World) (ps : gmap string string) (k : string) (b : value) (item : obj) :
  reliable w -> pathParameters ev = Some ps -> ps !! "userId" = Some k -> k <> "" ->
  JSON.parse (body_text ev) = Some b -> b <> VNull ->
  users w !! KS k = Some item -> name_settled w item b ->
  exists n r w' item',
    updateUser ev w = (Ok r, w') /\ statusCode r = 200%Z /\
    users w' !! KS k = Some item' /\
    Js.obj_get "updatedAt" item' = Some (VStr (time_at w n)).
Proof.
  intros Hr Hps Hid Hk Hb Hnn Hitem Hname.
  destruct (updateUser_run ev w ps k b item Hr Hps Hid Hk Hb Hnn Hitem Hname)
    as (n & w' & Hrun & Hu & _).
  exists n. do 3 eexists. split; [exact Hrun|]. split; [reflexivity|].
  split; [rewrite Hu; apply lookup_insert_eq|].
  apply updated_timestamp, updateableFields_NoDup.
Qed.



End UpdateClaims.

Module InversionFacts.
Import Runtime Http RuntimeFacts DynamoFacts JsFacts HttpFacts.
Local Open Scope list_scope.







End InversionFacts.

Module AppendClaims.
Import Runtime Http Api RuntimeFacts DynamoFacts JsFacts HttpFacts InversionFacts.
Local Open Scope list_scope.












Lemma present_inv (s : option string) :
  negb (present s) = false -> exists x, s = Some x /\ x <> "".
Proof.
  destruct s as [x|]; [|discriminate]. cbn. intros H.
  apply negb_false_iff, negb_true_iff, bool_decide_eq_false_1 in H. eauto.
Qed.

Lemma obj_get_appended (attribute : string) (entry : obj) (now : string)
    (xs : list value) (item : obj) :
  attribute <> "updatedAt" ->
  Js.obj_get attribute (Users.appended attribute entry now xs item)
  = Some (VArr (xs ++ [VObj entry])).
Proof.
  intros Hne. unfold Users.appended.
  rewrite obj_get_set_ne by exact Hne. apply obj_get_set_eq.
Qed.





End AppendClaims.

Module CastingClaims.
Import Runtime Http Casting RuntimeFacts DynamoFacts JsFacts HttpFacts.
Local Open Scope list_scope.

Lemma strict_eq_primitive (v : value) :
  Js.primitive v = true -> Js.strict_eq (Some v) (Some v) = true.
Proof.
  destruct v; cbn; try discriminate; intros _.
  - reflexivity.
  - now destruct b.
  - apply Z.eqb_refl.
  - now apply bool_decide_eq_true_2.
Qed.

(** The linear scan finds an entry that carries the user id. *)
Lemma some_applied_found (v : value) (pre post : list value) (hit : value) (w : World) :
  Js.primitive v = true -> VNull ∉ pre -> Js.prop hit "userId" = Some v ->
  some_applied (Some v) (pre ++ hit :: post) w = (Ok true, w).
Proof.
  intros Hv Hpre Happ. induction pre as [|x pre IH]; cbn [List.app some_applied].
  - assert (Hnn : hit <> VNull) by (intros ->; discriminate Happ).
    rewrite Happ, (strict_eq_primitive v Hv). now destruct hit.
  - apply not_elem_of_cons in Hpre as [Hx Hpre].
    destruct (Js.strict_eq (Js.prop x "userId") (Some v)).
    + destruct x; try reflexivity. congruence.
    + destruct x; try (now apply IH). congruence.
Qed.

Lemma validate_userId (b : value) (v : value) :
  Js.prop b "userId" = Some v -> Js.truthy v = true ->
  validateRequiredFields b ["userId"] = None.
Proof.
  intros Hp Ht. unfold validateRequiredFields. cbn [List.filter].
  rewrite Hp. cbn [Js.truthy_opt]. now rewrite Ht.
Qed.

Lemma applied_user_run
    (ev : event) (w : World) (ps : gmap string string) (jobId : string)
    (b v : value) (item : obj) (pre post : list value) (hit : value) :
  reliable w ->
  pathParameters ev = Some ps -> ps !! "jobId" = Some jobId -> jobId <> "" ->
  JSON.parse (body_text ev) = Some b ->
  Js.prop b "userId" = Some v -> Js.truthy v = true -> Js.primitive v = true ->
  casting w !! KS jobId = Some item ->
  Js.obj_get "appliedBy" item = Some (VArr (pre ++ hit :: post)) ->
  VNull ∉ pre -> Js.prop hit "userId" = Some v ->
  applyForJob ev w
  = (Ok (errorResponse 409 "You have already applied for this job" None), advance w).
Proof.
  intros Hr Hps Hid Hne Hb Hu Htr Hprim Hitem Hlist Hpre Happ.
  assert (Hnn : b <> VNull) by (intros ->; discriminate Hu).
  unfold applyForJob. apply try_catch_ok.
  erewrite bind_run by (apply path_parameter_run; exact Hps). rewrite Hid.
  erewrite bind_run by (apply parse_body_run; exact Hb).
  erewrite bind_run by (destruct b; [contradiction | reflexivity ..]).
  cbv zeta. rewrite present_some by exact Hne. cbn [negb].
  rewrite (validate_userId b v Hu Htr).
  erewrite bind_run by (apply (get_run CASTING_TABLE); [exact Hr | reflexivity | exact Hne]).
  cbn [rows]. rewrite Hitem, Hlist, Hu. cbn [alreadyApplied].
  erewrite bind_run by (now apply some_applied_found).
  reflexivity.
Qed.




Lemma some_applied_none (v : option value) (xs : list value) (w : World) :
  Forall (fun x => x <> VNull /\ Js.strict_eq (Js.prop x "userId") v = false) xs ->
  some_applied v xs w = (Ok false, w).
Proof.
  induction 1 as [|x xs [Hx Hne] _ IH]; cbn [some_applied]; [reflexivity|].
  rewrite Hne. destruct x; try exact IH. contradiction.
Qed.

Lemma append_apply (attribute : string) (entry : obj) (now : string) (old : obj)
    (xs : list value) :
  Users.stored_list attribute old = Some xs ->
  Dynamo.apply_actions old (Users.append_entry attribute entry now) old
  = Some (Users.appended attribute entry now xs old).
Proof.
  unfold Users.append_entry, Users.stored_list, Users.appended.
  cbn [Dynamo.apply_actions Dynamo.eval].
  destruct (Js.obj_get attribute old) as [v|].
  - destruct v; try discriminate. now intros [= ->].
  - now intros [= <-].
Qed.

Lemma alreadyApplied_none (item : obj) (v : option value) (xs : list value) (w : World) :
  Users.stored_list "appliedBy" item = Some xs ->
  Forall (fun x => x <> VNull /\ Js.strict_eq (Js.prop x "userId") v = false) xs ->
  alreadyApplied (Js.obj_get "appliedBy" item) v w = (Ok false, w).
Proof.
  unfold Users.stored_list, alreadyApplied.
  destruct (Js.obj_get "appliedBy" item) as [x|]; [|reflexivity].
  destruct x; try discriminate. intros [= ->]. apply some_applied_none.
Qed.

(** The first application of a user, on a job whose list holds no
    entry of that user. *)
Lemma first_application_run
    (ev : event) (w : World) (ps : gmap string string) (jobId : string)
    (b v : value) (item : obj) (xs : list value) :
  reliable w ->
  pathParameters ev = Some ps -> ps !! "jobId" = Some jobId -> jobId <> "" ->
  JSON.parse (body_text ev) = Some b ->
  Js.prop b "userId" = Some v -> Js.truthy v = true ->
  casting w !! KS jobId = Some item ->
  Users.stored_list "appliedBy" item = Some xs ->
  Forall (fun x => x <> VNull /\ Js.strict_eq (Js.prop x "userId") (Some v) = false) xs ->
  exists entry r w',
    applyForJob ev w = (Ok r, w') /\ statusCode r = 201%Z /\ reliable w' /\
    Js.obj_get "userId" entry = Some v /\
    casting w' !! KS jobId
    = Some (Users.appended "appliedBy" entry (time_at w (S (S (ticks w)))) xs item).
Proof.
  intros Hr Hps Hid Hne Hb Hu Htr Hitem Hxs Hall.
  assert (Hnn : b <> VNull) by (intros ->; discriminate Hu).
  exists (literal [("userId", Some v);
                   ("appId", Some (VStr (uuid_at w (S (ticks w)))));
                   ("avatarUrl", Some (or_str (Js.prop b "avatarUrl") ""))]).
  do 2 eexists. split.
  - unfold applyForJob. apply try_catch_ok.
    erewrite bind_run by (apply path_parameter_run; exact Hps). rewrite Hid.
    erewrite bind_run by (apply parse_body_run; exact Hb).
    erewrite bind_run by (destruct b; [contradiction | reflexivity ..]).
    cbv zeta. rewrite present_some by exact Hne. cbn [negb].
    rewrite (validate_userId b v Hu Htr).
    erewrite bind_run by (apply (get_run CASTING_TABLE); [exact Hr | reflexivity | exact Hne]).
    cbn [rows]. rewrite Hitem, Hu.
    erewrite bind_run by (eapply alreadyApplied_none; eassumption).
    cbv beta iota.
    erewrite bind_run by reflexivity.
    erewrite bind_run by reflexivity.
    erewrite bind_run.
    2:{ apply (update_run CASTING_TABLE jobId _ _ item).
        - now repeat apply reliable_advance.
        - reflexivity.
        - exact Hne.
        - apply (bool_decide_unpack _). vm_compute. exact I.
        - apply (bool_decide_unpack _). vm_compute. exact I.
        - exact Hitem.
        - apply append_apply. exact Hxs.
        - reflexivity. }
    reflexivity.
  - split; [reflexivity|].
    split; [apply reliable_set_rows; now repeat apply reliable_advance|].
    split; [reflexivity|].
    cbn [casting set_rows advance rows ticks time_at]. apply lookup_insert_eq.
Qed.

(** The sentence of the specification as it stands: the user applies,
    the list grows by one; the same user applies again with any
    request naming the same job, the answer is 409 and the list is as
    the first application left it. *)
Lemma apply_twice_conflict
    (ev ev2 : event) (w : World) (ps ps2 : gmap string string) (jobId : string)
    (b b2 v : value) (item : obj) (xs : list value) :
  reliable w ->
  pathParameters ev = Some ps -> ps !! "jobId" = Some jobId -> jobId <> "" ->
  JSON.parse (body_text ev) = Some b -> Js.prop b "userId" = Some v ->
  pathParameters ev2 = Some ps2 -> ps2 !! "jobId" = Some jobId ->
  JSON.parse (body_text ev2) = Some b2 -> Js.prop b2 "userId" = Some v ->
  Js.truthy v = true -> Js.primitive v = true ->
  casting w !! KS jobId = Some item ->
  Users.stored_list "appliedBy" item = Some xs ->
  Forall (fun x => x <> VNull /\ Js.strict_eq (Js.prop x "userId") (Some v) = false) xs ->
  exists r1 w1 item1 entry w2,
    applyForJob ev w = (Ok r1, w1) /\ statusCode r1 = 201%Z /\
    casting w1 !! KS jobId = Some item1 /\
    Js.obj_get "appliedBy" item1 = Some (VArr (xs ++ [VObj entry])) /\
    applyForJob ev2 w1
    = (Ok (errorResponse 409 "You have already applied for this job" None), w2) /\
    casting w2 = casting w1.
Proof.
  intros Hr Hps Hid Hne Hb Hu Hps2 Hid2 Hb2 Hu2 Htr Hprim Hitem Hxs Hall.
  destruct (first_application_run ev w ps jobId b v item xs)
    as (entry & r1 & w1 & Hrun & Hst & Hr1 & Hentry & Hstored); try assumption.
  assert (Hlist : Js.obj_get "appliedBy"
                    (Users.appended "appliedBy" entry (time_at w (S (S (ticks w)))) xs item)
                  = Some (VArr (xs ++ [VObj entry])))
    by (apply AppendClaims.obj_get_appended; discriminate).
  assert (Hrun2 := applied_user_run ev2 w1 ps2 jobId b2 v _ xs [] (VObj entry)
                     Hr1 Hps2 Hid2 Hne Hb2 Hu2 Htr Hprim Hstored Hlist).
  exists r1, w1. do 2 eexists. exists (advance w1).
  split; [exact Hrun|]. split; [exact Hst|]. split; [exact Hstored|].
  split; [exact Hlist|]. split; [|reflexivity].
  apply Hrun2; [|exact Hentry].
  intros Hin. rewrite Forall_forall in Hall. apply Hall in Hin as [Hin _]. congruence.
Qed.

Lemma without_id_keeps_all (docId : string) (docs : list value) (w : World) :
  Forall (fun d => d <> VNull /\ Js.prop d "id" <> Some (VStr docId)) docs ->
  without_id (Some (VStr docId)) docs w = (Ok docs, w).
Proof.
  induction 1 as [|d docs [Hd Hid] _ IH]; cbn [without_id]; [reflexivity|].
  assert (Hne : Js.strict_eq (Js.prop d "id") (Some (VStr docId)) = false).
  { apply not_true_is_false. intros H. now apply strict_eq_str in H. }
  destruct d; try contradiction;
    (erewrite bind_run by exact IH; rewrite Hne; reflexivity).
Qed.

(** The part of claim C3 that the code keeps: when the job does have a
    documents list and no entry of it carries the id, the answer is
    404 and nothing is written; the filtered list is as long as the
    stored one. *)
Lemma remove_unknown_document_not_found
    (ev : event) (w : World) (ps : gmap string string) (jobId docId : string)
    (item : obj) (docs : list value) :
  reliable w ->
  pathParameters ev = Some ps ->
  ps !! "jobId" = Some jobId -> jobId <> "" -> ps !! "docId" = Some docId -> docId <> "" ->
  casting w !! KS jobId = Some item ->
  Js.obj_get "documents" item = Some (VArr docs) ->
  Forall (fun d => d <> VNull /\ Js.prop d "id" <> Some (VStr docId)) docs ->
  exists w',
    removeDocument ev w = (Ok (errorResponse 404 "Document not found" None), w')
    /\ casting w' = casting w.
Proof.
  intros Hr Hps Hid Hne Hdoc Hdne Hitem Hdocs Hall.
  exists (advance w). split; [|reflexivity].
  unfold removeDocument. apply try_catch_ok.
  erewrite bind_run by (apply path_parameter_run; exact Hps). rewrite Hid.
  erewrite bind_run by (apply path_parameter_run; exact Hps). rewrite Hdoc.
  rewrite !present_some by assumption. cbn [negb orb].
  erewrite bind_run by (apply (get_run CASTING_TABLE); [exact Hr | reflexivity | exact Hne]).
  cbn [rows]. rewrite Hitem, Hdocs. cbn [Js.or_default Js.truthy].
  erewrite bind_run by (now apply without_id_keeps_all).
  cbn [stored_length length_of Js.strict_eq]. rewrite Z.eqb_refl. reflexivity.
Qed.

(** C9: on a stored job that has no documents attribute, removeDocument
    answers 200 for whatever document id the path names, and stores
    the job with an empty documents list and the current time as
    updatedAt.  The filtered list has length 0, the absent attribute
    has no length, and the two are never equal, so the 404 branch is
    passed over. *)
Theorem remove_document_without_list
    (ev : event) (w : World) (ps : gmap string string) (jobId docId : string) (item : obj) :
  reliable w ->
  pathParameters ev = Some ps ->
  ps !! "jobId" = Some jobId -> jobId <> "" -> ps !! "docId" = Some docId -> docId <> "" ->
  casting w !! KS jobId = Some item ->
  Js.obj_get "documents" item = None ->
  exists w',
    let now := time_at w (S (ticks w)) in
    let item' := Js.obj_set "updatedAt" (VStr now) (Js.obj_set "documents" (VArr []) item) in
    removeDocument ev w
    = (Ok (successResponse 200
             [("success", VBool true);
              ("message", VStr "Document removed");
              ("job", VObj item')]), w')
    /\ casting w' !! KS jobId = Some item'
    /\ Js.obj_get "documents" item' = Some (VArr [])
    /\ Js.obj_get "updatedAt" item' = Some (VStr now)
    /\ Js.strict_eq (Some (VNum 0)) (stored_length (Js.obj_get "documents" item)) = false.
Proof.
  intros Hr Hps Hid Hne Hdoc Hdne Hitem Hnone.
  eexists. cbv zeta. split; [|split; [|split; [|split]]].
  - unfold removeDocument. apply try_catch_ok.
    erewrite bind_run by (apply path_parameter_run; exact Hps). rewrite Hid.
    erewrite bind_run by (apply path_parameter_run; exact Hps). rewrite Hdoc.
    rewrite !present_some by assumption. cbn [negb orb].
    erewrite bind_run by (apply (get_run CASTING_TABLE); [exact Hr | reflexivity | exact Hne]).
    cbn [rows]. rewrite Hitem, Hnone. cbn [Js.or_default].
    erewrite bind_run by reflexivity.
    cbn [stored_length Js.strict_eq length].
    erewrite bind_run by reflexivity.
    erewrite bind_run.
    2:{ apply (update_run CASTING_TABLE jobId _ _ item).
        - now repeat apply reliable_advance.
        - reflexivity.
        - exact Hne.
        - apply (bool_decide_unpack _). vm_compute. exact I.
        - apply (bool_decide_unpack _). vm_compute. exact I.
        - exact Hitem.
        - reflexivity.
        - reflexivity. }
    reflexivity.
  - cbn [casting set_rows advance rows]. apply lookup_insert_eq.
  - rewrite obj_get_set_ne by discriminate. apply obj_get_set_eq.
  - apply obj_get_set_eq.
  - rewrite Hnone. reflexivity.
Qed.

End CastingClaims.

Module MoreClaims.
Import Runtime Http Casting RuntimeFacts DynamoFacts JsFacts HttpFacts.
Import Examples.
Local Open Scope list_scope.

Lemma viewed_job : casting viewed !! KS "j9" = Some bare_job.
Proof. vm_compute. reflexivity. Qed.

Lemma remove_document_without_list_witness :
  exists w',
    let now := time_at viewed (S (ticks viewed)) in
    let item' := Js.obj_set "updatedAt" (VStr now)
                   (Js.obj_set "documents" (VArr []) bare_job) in
    removeDocument (request [("jobId", "j9"); ("docId", "d1")] "") viewed
    = (Ok (successResponse 200
             [("success", VBool true);
              ("message", VStr "Document removed");
              ("job", VObj item')]), w')
    /\ casting w' !! KS "j9" = Some item'
    /\ Js.obj_get "documents" item' = Some (VArr [])
    /\ Js.obj_get "updatedAt" item' = Some (VStr now)
    /\ Js.strict_eq (Some (VNum 0)) (stored_length (Js.obj_get "documents" bare_job)) = false.
Proof.
  apply (CastingClaims.remove_document_without_list
           (request [("jobId", "j9"); ("docId", "d1")] "") viewed
           (list_to_map [("jobId", "j9"); ("docId", "d1")]) "j9" "d1" bare_job).
  - intros n. reflexivity.
  - reflexivity.
  - reflexivity.
  - discriminate.
  - reflexivity.
  - discriminate.
  - vm_compute. reflexivity.
  - reflexivity.
Defined.

(** C3, where the code departs from it: a job record without a
    documents list (here the record incrementJobView creates for the
    unused id j9) has no document with id d1, yet removeDocument does
    not answer 404: it answers 200 and rewrites the record with an
    empty documents list. *)
Theorem remove_document_misses_absent_list :
  Js.obj_get "documents" bare_job = None /\
  casting viewed !! KS "j9" = Some bare_job /\
  exists r w' item',
    removeDocument (request [("jobId", "j9"); ("docId", "d1")] "") viewed = (Ok r, w')
    /\ statusCode r = 200%Z
    /\ r <> errorResponse 404 "Document not found" None
    /\ casting w' !! KS "j9" = Some item'
    /\ item' <> bare_job
    /\ Js.obj_get "documents" item' = Some (VArr []).
Proof.
  split; [reflexivity|]. split; [vm_compute; reflexivity|].
  do 3 eexists. split; [vm_compute; reflexivity|].
  split; [reflexivity|]. split; [discriminate|].
  split; [vm_compute; reflexivity|]. split; [discriminate | reflexivity].
Qed.

End MoreClaims.

Module EnvelopeClaims.
Import Runtime Http Api Safety EnvelopeFacts.
Import Examples.
Local Open Scope list_scope.

Lemma plain_bare (status : Z) (text : string) : headers (Tasks.plain status text) = [].
Proof. reflexivity. Qed.

Ltac bare_step :=
  lazymatch goal with
  | |- safe _ (ret _) => apply safe_ret; reflexivity
  | |- safe _ (throw _) => apply safe_throw
  | |- safe _ (Runtime.bind _ _) => apply safe_bind; intros
  | |- safe _ (try_catch _ _) => apply safe_try_catch; [|intros]
  | |- safe _ (match ?x with _ => _ end) => destruct x
  | |- safe _ (let _ := _ in _) => cbv zeta
  end.

Lemma legacy_bare (below : string -> Z -> bool) (e : endpoint) (ev : event) :
  legacy e = true -> safe (fun r => headers r = []) (handler below e ev).
Proof.
  intros Hl. destruct e; try discriminate Hl; clear Hl; cbn [handler];
    [unfold Tasks.createTask | unfold Tasks.getTasks | unfold Tasks.updateTask];
    repeat bare_step.
Qed.

(** C8, as the code has it: every handler of the user, casting and
    sign-up files always answers, with the fixed CORS headers and the
    uniform envelope: with a status 2xx a body with success true and
    the payload, and with a message but for the handlers that only
    read; with a status from 400 on a body with success false, a
    message and, when there are any, details.  The three task
    handlers answer without headers. *)
Theorem handlers_answer_in_envelope
    (below : string -> Z -> bool) (e : endpoint) (ev : event) (w : World) :
  (legacy e = false ->
   exists r w', handler below e ev w = (Ok r, w') /\ enveloped (announces e) r)
  /\
  (legacy e = true ->
   forall r w', handler below e ev w = (Ok r, w') -> headers r = []).
Proof.
  split.
  - apply every_handler_enveloped.
  - intros Hl r w' H. pose proof (legacy_bare below e ev Hl w) as Hs.
    rewrite H in Hs. exact Hs.
Qed.

Lemma handlers_answer_in_envelope_witness :
  (exists r w',
     handler never_below addDocument (request [("jobId", "j7")] script) one_job = (Ok r, w')
     /\ enveloped (announces addDocument) r)
  /\
  (forall r w',
     handler never_below createTask (request [] task) quiet = (Ok r, w') -> headers r = []).
Proof.
  split.
  - apply (proj1 (handlers_answer_in_envelope never_below addDocument
                    (request [("jobId", "j7")] script) one_job)).
    reflexivity.
  - apply (proj2 (handlers_answer_in_envelope never_below createTask
                    (request [] task) quiet)).
    reflexivity.
Defined.

(** The claim as stated fails on the task handlers: createTask stores
    the task and answers 200 with the bare task as body and no header
    at all; and it fails on the reading handlers, whose answers carry
    no message. *)
Lemma createTask_answers_without_envelope :
  (exists r w',
     handler never_below createTask (request [] task) quiet = (Ok r, w')
     /\ statusCode r = 200%Z /\ headers r = [] /\ payload r = task
     /\ ~ cors r /\ ~ enveloped true r)
  /\
  (exists r w',
     handler never_below getJobById (request [("jobId", "j7")] "") one_job = (Ok r, w')
     /\ statusCode r = 200%Z
     /\ payload r = JSON.stringify (VObj [("success", VBool true); ("job", VObj job7)])
     /\ Js.obj_get "message" [("success", VBool true); ("job", VObj job7)] = None).
Proof.
  split.
  - do 2 eexists. split; [vm_compute; reflexivity|].
    split; [reflexivity|]. split; [reflexivity|]. split; [vm_compute; reflexivity|].
    assert (Hc : ~ cors {| statusCode := 200; headers := []; payload := task |})
      by (intros [H _]; discriminate H).
    split; [exact Hc | intros [H _]; exact (Hc H)].
  - do 2 eexists. split; [vm_compute; reflexivity|].
    split; [reflexivity|]. split; [vm_compute; reflexivity | reflexivity].
Qed.

End EnvelopeClaims.

Module AppendRuns.
Import Runtime Http Api RuntimeFacts DynamoFacts JsFacts HttpFacts UpdateFacts
  CastingClaims.
Local Open Scope list_scope.







Lemma validate_document (b url : value) (ty : string) :
  Js.prop b "url" = Some url -> Js.truthy url = true ->
  Js.prop b "type" = Some (VStr ty) -> ty ∈ Casting.validTypes ->
  validateRequiredFields b ["url"; "type"] = None
  /\ Casting.includes Casting.validTypes (Js.prop b "type") = true.
Proof.
  intros Hu Htr Ht Hin. split.
  - unfold validateRequiredFields. cbn [List.filter]. rewrite Hu, Ht.
    cbn [Js.truthy_opt]. rewrite Htr.
    assert (Hty : Js.truthy (VStr ty) = true).
    { cbn. apply negb_true_iff, bool_decide_eq_false_2. intros ->.
      revert Hin. apply (bool_decide_unpack _). vm_compute. exact I. }
    rewrite Hty. reflexivity.
  - rewrite Ht. cbn [Casting.includes]. now apply bool_decide_eq_true_2.
Qed.

Lemma addDocument_run (ev : event) (w : World) (ps : gmap string string) (jobId : string)
    (b url : value) (ty : string) (item : obj) (docs : list value) :
  reliable w ->
  pathParameters ev = Some ps -> ps !! "jobId" = Some jobId -> jobId <> "" ->
  JSON.parse (body_text ev) = Some b ->
  Js.prop b "url" = Some url -> Js.truthy url = true ->
  Js.prop b "type" = Some (VStr ty) -> ty ∈ Casting.validTypes ->
  casting w !! KS jobId = Some item ->
  Users.stored_list "documents" item = Some docs ->
  let entry := [("id", VStr (uuid_at w (S (ticks w)))); ("url", url); ("type", VStr ty)] in
  let item' := Users.appended "documents" entry (time_at w (S (S (ticks w)))) docs item in
  Casting.addDocument ev w
  = (Ok (successResponse 201
           [("success", VBool true);
            ("message", VStr "Document added");
            ("document", VObj entry);
            ("job", VObj item')]),
     set_rows CASTING_TABLE (<[KS jobId := item']> (casting w))
       (advance (advance (advance (advance w))))).
Proof.
  intros Hr Hps Hid Hne Hb Hu Htr Ht Hin Hitem Hdocs entry item'.
  assert (Hnn : b <> VNull) by (intros ->; discriminate Hu).
  destruct (validate_document b url ty Hu Htr Ht Hin) as [Hval Hinc].
  unfold Casting.addDocument. apply try_catch_ok.
  erewrite bind_run by (apply path_parameter_run; exact Hps). rewrite Hid.
  erewrite bind_run by (apply parse_body_run; exact Hb).
  erewrite bind_run by (destruct b; [contradiction | reflexivity ..]).
  rewrite present_some by exact Hne. cbn [negb].
  rewrite Hval, Hinc. cbn [negb].
  erewrite bind_run by (apply (get_run CASTING_TABLE); [exact Hr | reflexivity | exact Hne]).
  cbn [rows]. rewrite Hitem.
  erewrite bind_run by reflexivity.
  cbv zeta. rewrite Hu, Ht. cbn [literal].
  erewrite bind_run by reflexivity.
  erewrite bind_run.
  2:{ apply (update_run CASTING_TABLE jobId _ _ item).
      - now repeat apply reliable_advance.
      - reflexivity.
      - exact Hne.
      - apply (bool_decide_unpack _). vm_compute. exact I.
      - apply (bool_decide_unpack _). vm_compute. exact I.
      - exact Hitem.
      - apply append_apply. exact Hdocs.
      - reflexivity. }
  reflexivity.
Qed.

End AppendRuns.

Module AppendEntries.
Import Runtime Http Api HttpFacts AppendClaims AppendRuns.
Import Examples.
Local Open Scope list_scope.



End AppendEntries.

Module AuthorizerFacts.
Import Authorizer.

Lemma token_upper (ev : event) (s : string) :
  headers ev !! "Authorization" = Some s -> s <> "" -> token ev = Some s.
Proof.
  intros H Hs. unfold token, or_else. rewrite H.
  destruct (decide (s = "")); congruence.
Qed.

Lemma token_lower (ev : event) :
  headers ev !! "Authorization" = None ->
  token ev = headers ev !! "authorization".
Proof. intros H. unfold token, or_else. now rewrite H. Qed.

Lemma token_absent (ev : event) :
  headers ev !! "Authorization" = None ->
  headers ev !! "authorization" = None ->
  token ev = None.
Proof. intros H1 H2. rewrite token_lower by assumption. exact H2. Qed.

Lemma token_upper_empty (ev : event) :
  headers ev !! "Authorization" = Some "" ->
  token ev = headers ev !! "authorization".
Proof. intros H. unfold token, or_else. now rewrite H. Qed.

(** The header the handler compares, read off the two headers. *)
Lemma token_is_constant (ev : event) :
  token ev = Some "Bearer mysecrettoken" <->
  headers ev !! "Authorization" = Some "Bearer mysecrettoken"
  \/ ((headers ev !! "Authorization" = None \/ headers ev !! "Authorization" = Some "")
      /\ headers ev !! "authorization" = Some "Bearer mysecrettoken").
Proof.
  destruct (headers ev !! "Authorization") as [s|] eqn:Hu.
  - destruct (decide (s = "")) as [->|Hs].
    + rewrite (token_upper_empty ev Hu). split.
      * intros H. right. split; [now right | exact H].
      * intros [H|[_ H]]; [discriminate H | exact H].
    + rewrite (token_upper ev s Hu Hs). split.
      * intros H. now left.
      * intros [H|[[H|H] _]]; [exact H | discriminate H | congruence].
  - rewrite (token_lower ev Hu). split.
    + intros H. right. split; [now left | exact H].
    + intros [H|[_ H]]; [discriminate H | exact H].
Qed.

(** C10: the authorizer answers with the Allow policy exactly when
    the Authorization header is the constant "Bearer mysecrettoken",
    or that header is missing or empty and the lowercase authorization
    header is the constant.  In every other case, an absent header
    included, it answers with the Deny policy and the context reason
    'Invalid token'.  Either policy has the one statement for the
    route of the request; nothing but the two headers decides. *)
Theorem authorizer_allow_iff_constant (ev : event) :
  let accepted :=
    headers ev !! "Authorization" = Some "Bearer mysecrettoken"
    \/ ((headers ev !! "Authorization" = None \/ headers ev !! "Authorization" = Some "")
        /\ headers ev !! "authorization" = Some "Bearer mysecrettoken") in
  (accepted ->
     handler ev = generatePolicy "user" Allow (routeArn ev) [("poweredBy", "Artisthub")]) /\
  (~ accepted ->
     handler ev = generatePolicy "user" Deny (routeArn ev)
                    [("poweredBy", "Artisthub"); ("reason", "Invalid token")]) /\
  (granted (handler ev) <-> accepted) /\
  (~ accepted -> denied (handler ev)) /\
  (headers ev !! "Authorization" = None ->
   headers ev !! "authorization" = None ->
     denied (handler ev) /\
     In ("reason", "Invalid token") (context (handler ev))).
Proof.
  cbv zeta. rewrite <- token_is_constant.
  unfold handler, granted, denied.
  destruct (decide (token ev = Some "Bearer mysecrettoken")) as [e|n].
  - split; [reflexivity|]. split; [contradiction|].
    split; [split; [intros _; exact e | intros _; repeat constructor]|].
    split; [contradiction|].
    intros H1 H2. rewrite (token_absent ev H1 H2) in e. discriminate e.
  - split; [contradiction|]. split; [reflexivity|].
    split; [split; [|contradiction]|].
    { intros H. apply Forall_inv in H. discriminate H. }
    split; [intros _; repeat constructor|].
    intros _ _. cbn. split; [repeat constructor | right; left; reflexivity].
Qed.

(** A request with the constant in the Authorization header is let
    in, whatever the lowercase header says. *)
Lemma authorizer_allow_iff_constant_witness :
  handler {| headers := {[ "Authorization" := "Bearer mysecrettoken";
                           "authorization" := "Bearer letmein" ]};
             routeArn := Some "arn:route" |}
  = generatePolicy "user" Allow (Some "arn:route") [("poweredBy", "Artisthub")].
Proof.
  apply (proj1 (authorizer_allow_iff_constant
                  {| headers := {[ "Authorization" := "Bearer mysecrettoken";
                                   "authorization" := "Bearer letmein" ]};
                     routeArn := Some "arn:route" |})).
  left. reflexivity.
Defined.

End AuthorizerFacts.

Module CreateClaims.
Import Runtime Http Users RuntimeFacts DynamoFacts JsFacts HttpFacts UpdateFacts.
Local Open Scope list_scope.

Lemma put_new_run (t : table) (item : obj) (k : string) (w : World) :
  reliable w -> Dynamo.string_keyed t -> k <> "" ->
  Js.obj_get (Dynamo.hash_key t) item = Some (VStr k) ->
  Dynamo.index_keys_ok t item = true ->
  rows t w !! KS k = None ->
  Dynamo.put_new t item w
  = (Ok tt, set_rows t (<[KS k := item]> (rows t w)) (advance w)).
Proof.
  intros Hr Ht Hk Hkey Hidx Hfree. unfold Dynamo.put_new.
  rewrite request_run by exact Hr. rewrite Ht, Hkey. cbn [Dynamo.to_key].
  destruct (decide (k = "")); [contradiction|].
  rewrite Hidx. cbn [negb]. rewrite rows_advance, Hfree. reflexivity.
Qed.

Lemma query_username_found (u : string) (k : scalar) (it : obj) (w : World) :
  reliable w -> u <> "" ->
  users w !! k = Some it -> Js.obj_get "username" it = Some (VStr u) ->
  exists l, Dynamo.query_username (Some (VStr u)) w = (Ok l, advance w)
            /\ (0 <? length l)%nat = true.
Proof.
  intros Hr Hu Hit Hname. unfold Dynamo.query_username.
  rewrite request_run by exact Hr. destruct (decide (u = "")); [contradiction|].
  eexists. split; [reflexivity|].
  apply Nat.ltb_lt. rewrite length_map.
  assert (Hin : (k, it) ∈ List.filter
                  (fun kv => Js.strict_eq (Js.obj_get "username" (snd kv)) (Some (VStr u)))
                  (Dynamo.scan_order USERS_TABLE (advance w))).
  { apply list_elem_of_In, filter_In. split.
    - apply list_elem_of_In, elem_of_map_to_list. exact Hit.
    - cbn. now apply strict_eq_str. }
  destruct (List.filter _ _); [inversion Hin | cbn; lia].
Qed.





End CreateClaims.

Module Base64Facts.
Import Base64.
Local Open Scope list_scope.

(** Every sextet is read back from its digit. *)
Lemma unbase64_digit (b0 b1 b2 b3 b4 b5 : bool) :
  unbase64 (digit (Ascii b0 b1 b2 b3 b4 b5 false false))
  = Some (Ascii b0 b1 b2 b3 b4 b5 false false).
Proof. destruct b0, b1, b2, b3, b4, b5; reflexivity. Qed.

Lemma unbase64_sextet1 (x : ascii) : unbase64 (digit (sextet1 x)) = Some (sextet1 x).
Proof. destruct x. apply unbase64_digit. Qed.

Lemma unbase64_sextet2 (x y : ascii) : unbase64 (digit (sextet2 x y)) = Some (sextet2 x y).
Proof. destruct x, y. apply unbase64_digit. Qed.

Lemma unbase64_sextet3 (y z : ascii) : unbase64 (digit (sextet3 y z)) = Some (sextet3 y z).
Proof. destruct y, z. apply unbase64_digit. Qed.

Lemma unbase64_sextet4 (z : ascii) : unbase64 (digit (sextet4 z)) = Some (sextet4 z).
Proof. destruct z. apply unbase64_digit. Qed.

Lemma byte1_sextets (x y : ascii) : byte1 (sextet1 x) (sextet2 x y) = x.
Proof. now destruct x, y. Qed.

Lemma byte2_sextets (x y z : ascii) : byte2 (sextet2 x y) (sextet3 y z) = y.
Proof. now destruct x, y, z. Qed.

Lemma byte3_sextets (y z : ascii) : byte3 (sextet3 y z) (sextet4 z) = z.
Proof. now destruct y, z. Qed.

Lemma triples_ind (P : list ascii -> Prop) :
  P [] -> (forall x, P [x]) -> (forall x y, P [x; y]) ->
  (forall x y z rest, P rest -> P (x :: y :: z :: rest)) ->
  forall l, P l.
Proof.
  intros H0 H1 H2 H3.
  fix IH 1. intros [|x [|y [|z rest]]]; [exact H0 | apply H1 | apply H2 |].
  apply H3, IH.
Qed.

(** [Buffer.from(buf.toString('base64'), 'base64')] gives the bytes
    of [buf] back. *)
Lemma decode_encode (bs : list ascii) : decode (encode bs) = bs.
Proof.
  unfold decode. induction bs as [|x|x y|x y z rest IH] using triples_ind.
  - reflexivity.
  - cbn [encode sextets]. rewrite unbase64_sextet1, unbase64_sextet2.
    cbn. now rewrite byte1_sextets.
  - cbn [encode sextets].
    rewrite unbase64_sextet1, unbase64_sextet2, unbase64_sextet3.
    cbn. now rewrite byte1_sextets, byte2_sextets.
  - cbn [encode sextets].
    rewrite unbase64_sextet1, unbase64_sextet2, unbase64_sextet3, unbase64_sextet4.
    cbn [regroup]. now rewrite byte1_sextets, byte2_sextets, byte3_sextets, IH.
Qed.

End Base64Facts.

Module Utf8Facts.
Import Text.

Lemma append_cons (c : ascii) (a t : string) : String c a ++ t = String c (a ++ t).
Proof. reflexivity. Qed.

Lemma append_empty (t : string) : "" ++ t = t.
Proof. reflexivity. Qed.

Lemma append_assoc (a b c : string) : (a ++ b) ++ c = a ++ (b ++ c).
Proof. induction a as [|x a IH]; [reflexivity|]. rewrite !append_cons. now f_equal. Qed.

Lemma append_empty_r (a : string) : a ++ "" = a.
Proof. induction a as [|x a IH]; [reflexivity|]. rewrite append_cons. now f_equal. Qed.

Lemma length_append (a b : string) :
  String.length (a ++ b) = (String.length a + String.length b)%nat.
Proof. induction a as [|x a IH]; [reflexivity|]. rewrite append_cons. cbn. now rewrite IH. Qed.

Lemma decode_low_app (a t : string) :
  low a = true -> utf8_decode (a ++ t) = a ++ utf8_decode t.
Proof.
  induction a as [|c a IH]; intros H; [reflexivity|].
  cbn [low] in H. apply andb_true_iff in H as [Hc Ha].
  rewrite !append_cons. cbn [utf8_decode]. rewrite Hc. f_equal. now apply IH.
Qed.

Lemma in_range_high (lo hi : N) (c : ascii) :
  (128 <= lo)%N -> in_range lo hi c = true -> (128 <=? code c)%N = true.
Proof.
  unfold in_range. intros Hlo H. apply andb_true_iff in H as [H _].
  apply N.leb_le in H. apply N.leb_le. lia.
Qed.

Lemma not_low_high (c : ascii) : (code c <? 128)%N = false -> (128 <=? code c)%N = true.
Proof. intros H. apply N.ltb_ge in H. now apply N.leb_le. Qed.

Ltac substituted H :=
  unfold replacement in H; rewrite ?append_cons in H; injection H; intros; subst;
  exfalso;
  solve [ discriminate
        | match goal with E : _ = _ |- _ => vm_compute in E; discriminate E end ].

Ltac high_byte :=
  first
    [ apply not_low_high; assumption
    | eapply in_range_high; cycle 1; [eassumption|];
      repeat match goal with |- context [if ?c then _ else _] => destruct c end; lia ].

Ltac copied_chunk :=
  split; [discriminate|]; split;
  [ cbn [high];
    repeat match goal with
           | |- context [(128 <=? code ?b)%N] =>
               replace (128 <=? code b)%N with true by (symmetry; high_byte)
           end; reflexivity
  | intros t; rewrite ?append_cons; cbn [utf8_decode];
    repeat match goal with E : _ = _ |- _ => rewrite E; clear E end;
    reflexivity ].

(** A well-formed string is empty, or starts with an ASCII character
    or with one multi-byte sequence, and goes on well formed. *)
Lemma well_formed_cases (s : string) :
  well_formed s ->
  s = "" \/
  (exists c r, s = String c r /\ (code c <? 128)%N = true /\ well_formed r) \/
  (exists chunk r, s = chunk ++ r /\ copied chunk /\ well_formed r).
Proof.
  unfold well_formed. destruct s as [|b0 r0]; [now left|]. intros Hs. right.
  revert Hs. cbn [utf8_decode].
  destruct (code b0 <? 128)%N eqn:E0.
  { intros Hs. injection Hs as Hs. left. eauto. }
  intros Hs. right. revert Hs.
  destruct (in_range 194 223 b0) eqn:E1.
  { destruct r0 as [|b1 r1]; [intros Hs; substituted Hs|].
    destruct (cont b1) eqn:C1; intros Hs; [|substituted Hs].
    injection Hs as Hs. exists (String b0 (String b1 "")), r1.
    split; [reflexivity|]. split; [|exact Hs]. copied_chunk. }
  destruct (in_range 224 239 b0) eqn:E2.
  { destruct r0 as [|b1 r1]; [intros Hs; substituted Hs|].
    destruct (in_range _ _ b1) eqn:C1; [|intros Hs; substituted Hs].
    destruct r1 as [|b2 r2]; [intros Hs; substituted Hs|].
    destruct (cont b2) eqn:C2; intros Hs; [|substituted Hs].
    injection Hs as Hs. exists (String b0 (String b1 (String b2 ""))), r2.
    split; [reflexivity|]. split; [|exact Hs]. 
    copied_chunk. }
  destruct (in_range 240 244 b0) eqn:E3.
  { destruct r0 as [|b1 r1]; [intros Hs; substituted Hs|].
    destruct (in_range _ _ b1) eqn:C1; [|intros Hs; substituted Hs].
    destruct r1 as [|b2 r2]; [intros Hs; substituted Hs|].
    destruct (cont b2) eqn:C2; [|intros Hs; substituted Hs].
    destruct r2 as [|b3 r3]; [intros Hs; substituted Hs|].
    destruct (cont b3) eqn:C3; intros Hs; [|substituted Hs].
    injection Hs as Hs. exists (String b0 (String b1 (String b2 (String b3 "")))), r3.
    split; [reflexivity|]. split; [|exact Hs].
    copied_chunk. }
  intros Hs; substituted Hs.
Qed.

Lemma well_formed_induction (P : string -> Prop) :
  P "" ->
  (forall c r, (code c <? 128)%N = true -> well_formed r -> P r -> P (String c r)) ->
  (forall chunk r, copied chunk -> well_formed r -> P r -> P (chunk ++ r)) ->
  forall s, well_formed s -> P s.
Proof.
  intros Hnil Hlow Hchunk s.
  remember (String.length s) as n eqn:Hn.
  revert s Hn. induction n as [n IH] using lt_wf_ind. intros s Hn Hs.
  destruct (well_formed_cases s Hs) as [->|[(c & r & -> & Hc & Hr)|(chunk & r & -> & Hcp & Hr)]].
  - exact Hnil.
  - apply Hlow; [assumption..|]. apply (IH (String.length r)); [|reflexivity|assumption].
    subst n. cbn. lia.
  - apply Hchunk; [assumption..|]. apply (IH (String.length r)); [|reflexivity|assumption].
    subst n. rewrite length_append. destruct Hcp as [Hne _].
    destruct chunk; [congruence|]. cbn. lia.
Qed.

Lemma well_formed_empty : well_formed "".
Proof. reflexivity. Qed.

Lemma well_formed_low (a : string) : low a = true -> well_formed a.
Proof.
  intros H. unfold well_formed. rewrite <- (append_empty_r a) at 1.
  rewrite decode_low_app by assumption. cbn [utf8_decode]. apply append_empty_r.
Qed.

Lemma well_formed_app (a b : string) :
  well_formed a -> well_formed b -> well_formed (a ++ b).
Proof.
  intros Ha Hb. induction Ha as [|c r Hc Hr IH|chunk r Hcp Hr IH] using well_formed_induction.
  - exact Hb.
  - unfold well_formed. rewrite append_cons. cbn [utf8_decode]. rewrite Hc. now f_equal.
  - unfold well_formed. rewrite append_assoc. destruct Hcp as (_ & _ & Hcp).
    rewrite Hcp. now f_equal.
Qed.

Lemma low_app (a b : string) : low a = true -> low b = true -> low (a ++ b) = true.
Proof.
  induction a as [|c a IH]; intros Ha Hb; [exact Hb|].
  rewrite append_cons. cbn [low] in *. apply andb_true_iff in Ha as [-> Ha]. now apply IH.
Qed.

Lemma well_formed_join (sep : string) (l : list string) :
  well_formed sep -> Forall well_formed l -> well_formed (Js.join sep l).
Proof.
  intros Hsep Hl. induction Hl as [|x l Hx Hl IH]; [reflexivity|].
  destruct l as [|y l]; [exact Hx|].
  change (well_formed (x ++ sep ++ Js.join sep (y :: l))).
  auto using well_formed_app.
Qed.
End Utf8Facts.

Module JsonFacts.
Import Text JSON Utf8Facts.

(** Induction on values, through arrays and objects. *)
Lemma value_induction (P : value -> Prop) :
  P VNull -> (forall b, P (VBool b)) -> (forall n, P (VNum n)) -> (forall s, P (VStr s)) ->
  (forall xs, Forall P xs -> P (VArr xs)) ->
  (forall o, Forall (fun kv => P (snd kv)) o -> P (VObj o)) ->
  forall v, P v.
Proof.
  intros Hnull Hbool Hnum Hstr Harr Hobj.
  fix IH 1. intros [ |b|n|s|xs|o].
  - exact Hnull.
  - apply Hbool.
  - apply Hnum.
  - apply Hstr.
  - apply Harr. induction xs as [|x xs IHxs]; constructor; [apply IH|exact IHxs].
  - apply Hobj. induction o as [|[k x] o IHo]; constructor; [apply IH|exact IHo].
Qed.

(** *** Escaping, one character at a time *)

Lemma parse_escape (c : ascii) (t : string) :
  parse_chars (escape c ++ t) = prepend (String c "") (parse_chars t).
Proof. destruct c as [[] [] [] [] [] [] [] []]; reflexivity. Qed.

Lemma escape_low (c : ascii) : (code c <? 128)%N = true -> low (escape c) = true.
Proof. destruct c as [[] [] [] [] [] [] [] []]; intros H; try discriminate H; reflexivity. Qed.

Lemma escape_high (c : ascii) : (128 <=? code c)%N = true -> escape c = String c "".
Proof. destruct c as [[] [] [] [] [] [] [] []]; intros H; try discriminate H; reflexivity. Qed.

Lemma parse_chars_escape_all (s rest : string) :
  parse_chars (escape_all s ++ String dquote rest) = Some (s, rest).
Proof.
  induction s as [|c s IH]; [reflexivity|].
  cbn [escape_all]. rewrite append_assoc, parse_escape, IH. reflexivity.
Qed.

Lemma escape_all_high (chunk r : string) :
  high chunk = true -> escape_all (chunk ++ r) = chunk ++ escape_all r.
Proof.
  induction chunk as [|c chunk IH]; intros H; [reflexivity|].
  cbn [high] in H. apply andb_true_iff in H as [Hc H].
  rewrite !append_cons. cbn [escape_all]. rewrite escape_high, IH by assumption. reflexivity.
Qed.

Lemma well_formed_escape_all (s : string) : well_formed s -> well_formed (escape_all s).
Proof.
  intros Hs. induction Hs as [|c r Hc Hr IH|chunk r Hcp Hr IH] using well_formed_induction.
  - reflexivity.
  - cbn [escape_all]. apply well_formed_app; [|exact IH].
    apply well_formed_low, escape_low, Hc.
  - destruct Hcp as (_ & Hh & Hcp). rewrite escape_all_high by assumption.
    unfold well_formed. rewrite Hcp. now f_equal.
Qed.

Lemma well_formed_quote (s : string) : well_formed s -> well_formed (quote s).
Proof.
  intros Hs. unfold quote.
  apply (well_formed_app (String dquote "")); [reflexivity|].
  apply well_formed_app; [now apply well_formed_escape_all|reflexivity].
Qed.

(** *** Numbers *)

Lemma string_of_uint_digits (d : Decimal.uint) :
  all_digits (NilEmpty.string_of_uint d) = true.
Proof. induction d; cbn [NilEmpty.string_of_uint all_digits]; auto. Qed.

Lemma all_digits_low (s : string) : all_digits s = true -> low s = true.
Proof.
  induction s as [|c s IH]; [reflexivity|]. cbn [all_digits low]. intros H.
  apply andb_true_iff in H as [Hc Hs]. rewrite IH by assumption.
  unfold is_digit, in_range in Hc. apply andb_true_iff in Hc as [_ Hc].
  apply N.leb_le in Hc. replace (code c <? 128)%N with true; [reflexivity|].
  symmetry. apply N.ltb_lt. lia.
Qed.

Lemma span_digits_app (d rest : string) :
  all_digits d = true -> delimited rest = true -> span_digits (d ++ rest) = (d, rest).
Proof.
  intros Hd Hrest. induction d as [|c d IH].
  - rewrite append_empty. destruct rest as [|c r]; [reflexivity|].
    cbn [span_digits]. replace (is_digit c) with false; [reflexivity|].
    cbn [delimited] in Hrest.
    repeat (apply orb_true_iff in Hrest as [Hrest|Hrest]);
      apply Ascii.eqb_eq in Hrest; subst c; reflexivity.
  - cbn [all_digits] in Hd. apply andb_true_iff in Hd as [Hc Hd].
    rewrite append_cons. cbn [span_digits]. rewrite Hc, IH by assumption. reflexivity.
Qed.

Lemma delimited_no_fraction (rest : string) :
  delimited rest = true -> starts_fraction rest = false.
Proof.
  destruct rest as [|c r]; [reflexivity|]. cbn [delimited starts_fraction]. intros H.
  repeat (apply orb_true_iff in H as [H|H]); apply Ascii.eqb_eq in H; subst c; reflexivity.
Qed.

Lemma unorm_head (d : Decimal.uint) :
  match Decimal.unorm d with
  | Decimal.Nil => False
  | Decimal.D0 Decimal.Nil => True
  | Decimal.D0 _ => False
  | _ => True
  end.
Proof.
  induction d; try exact I.
  now rewrite DecimalFacts.unorm_D0.
Qed.

Lemma to_uint_normal (n : N) : Decimal.unorm (N.to_uint n) = N.to_uint n.
Proof.
  rewrite <- DecimalN.Unsigned.to_of, DecimalN.Unsigned.of_to. reflexivity.
Qed.

Lemma digits_shape (n : N) :
  exists c d,
    digits n = String c d /\ is_digit c = true /\ all_digits d = true /\
    (Ascii.eqb c "0" && negb (bool_decide (d = ""))) = false /\
    NilEmpty.uint_of_string (String c d) = Some (N.to_uint n).
Proof.
  unfold digits. pose proof (unorm_head (N.to_uint n)) as H.
  rewrite to_uint_normal in H.
  pose proof (NilEmpty.usu (N.to_uint n)) as U.
  pose proof (string_of_uint_digits (N.to_uint n)) as D.
  destruct (N.to_uint n) as [|u|u|u|u|u|u|u|u|u|u]; try contradiction;
    cbn [NilZero.string_of_uint NilEmpty.string_of_uint] in *;
    eexists _, _; (split; [reflexivity|]); (split; [reflexivity|]);
    (split; [apply andb_true_iff in D as [_ D]; exact D|]); (split; [|exact U]);
    try reflexivity.
  destruct u; try contradiction. reflexivity.
Qed.

Lemma parse_natural_digits (n : N) (rest : string) :
  delimited rest = true -> parse_natural (digits n ++ rest) = Some (n, rest).
Proof.
  intros Hrest. unfold parse_natural.
  destruct (digits_shape n) as (c & d & E & Hc & Hd & Hz & Hu).
  rewrite span_digits_app; [|rewrite E; cbn [all_digits]; now rewrite Hc, Hd|assumption].
  rewrite E, Hz, delimited_no_fraction, Hu by assumption.
  now rewrite DecimalN.Unsigned.of_to.
Qed.

Lemma digit_not_minus (c : ascii) : is_digit c = true -> Ascii.eqb c "-" = false.
Proof. intros H. apply Ascii.eqb_neq. intros ->. discriminate H. Qed.

Lemma parse_number_number (n : Z) (rest : string) :
  delimited rest = true -> parse_number (number n ++ rest) = Some (VNum n, rest).
Proof.
  intros Hrest. unfold number. destruct (n <? 0)%Z eqn:Hn.
  - rewrite append_cons. cbn [parse_number]. change (Ascii.eqb "-" "-") with true.
    cbv iota. rewrite parse_natural_digits by assumption.
    apply Z.ltb_lt in Hn. rewrite N2Z.inj_abs_N. do 3 f_equal. lia.
  - pose proof (parse_natural_digits (Z.abs_N n) rest Hrest) as Hp.
    destruct (digits_shape (Z.abs_N n)) as (c & d & E & Hc & _).
    rewrite E, append_cons in Hp |- *. cbn [parse_number].
    rewrite (digit_not_minus c Hc), Hp. apply Z.ltb_ge in Hn. rewrite N2Z.inj_abs_N. do 3 f_equal. lia.
Qed.

Lemma number_head (n : Z) : exists c s, number n = String c s /\ number_start c = true.
Proof.
  unfold number. destruct (n <? 0)%Z.
  - eexists _, _. split; reflexivity.
  - destruct (digits_shape (Z.abs_N n)) as (c & d & E & Hc & _).
    exists c, d. split; [exact E|]. unfold number_start. rewrite Hc. apply orb_true_r.
Qed.

Lemma parse_value_number_start (fuel : nat) (c : ascii) (t : string) :
  number_start c = true -> parse_value (S fuel) (String c t) = parse_number (String c t).
Proof. destruct c as [[] [] [] [] [] [] [] []]; intros H; try discriminate H; reflexivity. Qed.

Lemma parse_value_number (fuel : nat) (n : Z) (rest : string) :
  delimited rest = true -> parse_value (S fuel) (number n ++ rest) = Some (VNum n, rest).
Proof.
  intros Hrest. pose proof (parse_number_number n rest Hrest) as Hp.
  destruct (number_head n) as (c & s & E & Hc).
  rewrite E, append_cons in Hp |- *. now rewrite parse_value_number_start.
Qed.

(** *** Values *)

Lemma number_start_opening (c : ascii) : number_start c = true -> opening c = true.
Proof. destruct c as [[] [] [] [] [] [] [] []]; intros H; try discriminate H; reflexivity. Qed.

Lemma stringify_head (v : value) :
  exists c s, stringify v = String c s /\ opening c = true.
Proof.
  destruct v as [ |[]|n|s|xs|o]; try (eexists _, _; split; reflexivity).
  destruct (number_head n) as (c & s & E & Hc). exists c, s.
  split; [exact E|]. now apply number_start_opening.
Qed.

Lemma stringify_length (v : value) : (1 <= String.length (stringify v))%nat.
Proof. destruct (stringify_head v) as (c & s & -> & _). cbn. lia. Qed.

Lemma join_cons (sep x y : string) (l : list string) :
  Js.join sep (x :: y :: l) = x ++ sep ++ Js.join sep (y :: l).
Proof. reflexivity. Qed.

Lemma array_text (xs : list value) (rest : string) :
  stringify (VArr xs) ++ rest
  = String "[" (Js.join "," (map stringify xs) ++ String "]" rest).
Proof.
  cbn [stringify]. repeat (rewrite ?append_assoc, ?append_cons, ?append_empty). reflexivity.
Qed.

Lemma object_text (o : obj) (rest : string) :
  stringify (VObj o) ++ rest
  = String "{" (Js.join "," (map member_text o) ++ String "}" rest).
Proof.
  cbn [stringify]. repeat (rewrite ?append_assoc, ?append_cons, ?append_empty). reflexivity.
Qed.

Lemma member_app (k : string) (v : value) (t : string) :
  member_text (k, v) ++ t
  = String dquote (escape_all k ++ String dquote (String ":" (stringify v ++ t))).
Proof.
  unfold member_text, quote. cbn [fst snd].
  repeat (rewrite ?append_assoc, ?append_cons, ?append_empty). reflexivity.
Qed.

Lemma parse_value_array (f : nat) (c : ascii) (s : string) :
  opening c = true ->
  parse_value (S f) (String "[" (String c s))
  = match parse_elements f (String c s) with
    | Some (xs, r) => Some (VArr xs, r)
    | None => None
    end.
Proof. destruct c as [[] [] [] [] [] [] [] []]; intros H; try discriminate H; reflexivity. Qed.

Lemma parse_elements_comma (f : nat) (v : value) (r t : string) :
  parse_value f t = Some (v, String "," r) ->
  parse_elements (S f) t
  = match parse_elements f r with
    | Some (vs, r') => Some (v :: vs, r')
    | None => None
    end.
Proof. intros H. cbn [parse_elements]. rewrite H. reflexivity. Qed.

Lemma parse_elements_close (f : nat) (v : value) (r t : string) :
  parse_value f t = Some (v, String "]" r) -> parse_elements (S f) t = Some ([v], r).
Proof. intros H. cbn [parse_elements]. rewrite H. reflexivity. Qed.

Lemma parse_members_key (f : nat) (k : string) (t : string) :
  parse_members (S f) (String dquote (escape_all k ++ String dquote (String ":" t)))
  = match parse_value f t with
    | Some (v, r3) =>
        match skip_ws r3 with
        | String "," r4 =>
            match parse_members f r4 with
            | Some (o, r5) => Some (add_member k v o, r5)
            | None => None
            end
        | String "}" r4 => Some ([(k, v)], r4)
        | _ => None
        end
    | None => None
    end.
Proof.
  cbn [parse_members].
  change (skip_ws (String dquote ?x)) with (String dquote x).
  cbv iota. rewrite parse_chars_escape_all. reflexivity.
Qed.

Lemma parse_members_comma (f : nat) (k : string) (v : value) (t r : string) :
  parse_value f t = Some (v, String "," r) ->
  parse_members (S f) (String dquote (escape_all k ++ String dquote (String ":" t)))
  = match parse_members f r with
    | Some (o, r') => Some (add_member k v o, r')
    | None => None
    end.
Proof. intros H. rewrite parse_members_key, H. reflexivity. Qed.

Lemma parse_members_close (f : nat) (k : string) (v : value) (t r : string) :
  parse_value f t = Some (v, String "}" r) ->
  parse_members (S f) (String dquote (escape_all k ++ String dquote (String ":" t)))
  = Some ([(k, v)], r).
Proof. intros H. rewrite parse_members_key, H. reflexivity. Qed.

Lemma parse_value_object (f : nat) (x : string) :
  parse_value (S f) (String "{" (String dquote x))
  = match parse_members f (String dquote x) with
    | Some (o, r) => Some (VObj o, r)
    | None => None
    end.
Proof. reflexivity. Qed.

Lemma parse_value_quote (f : nat) (x : string) :
  parse_value (S f) (String dquote x)
  = match parse_chars x with
    | Some (str, r) => Some (VStr str, r)
    | None => None
    end.
Proof. reflexivity. Qed.

Lemma parse_value_string (f : nat) (s rest : string) :
  parse_value (S f) (quote s ++ rest) = Some (VStr s, rest).
Proof.
  unfold quote. rewrite append_cons, append_assoc, append_cons, append_empty.
  now rewrite parse_value_quote, parse_chars_escape_all.
Qed.

Lemma add_member_fresh (k : string) (v : value) (o : obj) :
  k ∉ map fst o -> add_member k v o = (k, v) :: o.
Proof.
  intros Hk. unfold add_member.
  replace (Js.obj_get k o) with (@None value); [reflexivity|].
  symmetry. induction o as [|[k' v'] o IH]; [reflexivity|].
  cbn [Js.obj_get]. cbn [map fst] in Hk. apply not_elem_of_cons in Hk as [Hne Hk].
  destruct (decide (k = k')); [contradiction|]. now apply IH.
Qed.

Lemma elements_round_trip (xs : list value) :
  xs <> [] -> Forall round_trips xs ->
  forall fuel rest,
    (String.length (Js.join "," (map stringify xs)) < fuel)%nat ->
    parse_elements fuel (Js.join "," (map stringify xs) ++ String "]" rest)
    = Some (xs, rest).
Proof.
  intros Hne Hall. induction Hall as [|x xs Hx Hxs IH]; [congruence|].
  intros fuel rest Hf. destruct fuel as [|f]; [lia|].
  destruct xs as [|y ys].
  - cbn [map Js.join] in *. apply parse_elements_close. apply Hx; [lia|reflexivity].
  - cbn [map] in *. rewrite join_cons in *.
    rewrite !length_append in Hf. cbn [String.length] in Hf.
    rewrite !append_assoc, append_cons, append_empty.
    erewrite parse_elements_comma; [|apply Hx; [lia|reflexivity]].
    rewrite IH; [reflexivity|discriminate|lia].
Qed.

Lemma member_length (kv : string * value) :
  (String.length (stringify (snd kv)) < String.length (member_text kv))%nat.
Proof.
  unfold member_text, quote. rewrite append_cons. cbn [String.length].
  rewrite !length_append. cbn [String.length]. lia.
Qed.

Lemma members_round_trip (o : obj) :
  o <> [] -> Forall (fun kv => round_trips (snd kv)) o -> NoDup (map fst o) ->
  forall fuel rest,
    (String.length (Js.join "," (map member_text o)) < fuel)%nat ->
    parse_members fuel (Js.join "," (map member_text o) ++ String "}" rest)
    = Some (o, rest).
Proof.
  intros Hne Hall. induction Hall as [|[k v] o Hx Ho IH]; [congruence|].
  intros Hnd fuel rest Hf. destruct fuel as [|f]; [lia|].
  cbn [map fst] in Hnd. apply NoDup_cons in Hnd as [Hk Hnd].
  pose proof (member_length (k, v)) as Hlen. cbn [snd] in Hx, Hlen.
  destruct o as [|kv o'].
  - cbn [map Js.join] in *. rewrite member_app.
    apply parse_members_close. apply Hx; [lia|reflexivity].
  - cbn [map] in *. rewrite join_cons in *.
    rewrite !length_append in Hf. cbn [String.length] in Hf.
    rewrite append_assoc, member_app.
    rewrite !append_assoc, append_cons, append_empty.
    erewrite parse_members_comma; [|apply Hx; [lia|reflexivity]].
    rewrite IH; [|discriminate|assumption|lia].
    now rewrite add_member_fresh.
Qed.

Lemma wf_value_arr (xs : list value) : wf_value (VArr xs) -> Forall wf_value xs.
Proof. now inversion 1. Qed.

Lemma wf_value_obj (o : obj) :
  wf_value (VObj o) ->
  NoDup (map fst o) /\ Forall (fun kv => well_formed (fst kv) /\ wf_value (snd kv)) o.
Proof. now inversion 1. Qed.

Lemma wf_value_str (s : string) : wf_value (VStr s) -> well_formed s.
Proof. now inversion 1. Qed.

Lemma join_head (x : string) (l : list string) (t : string) (c : ascii) (s : string) :
  x = String c s -> exists s', Js.join "," (x :: l) ++ t = String c s'.
Proof.
  intros ->. destruct l as [|y l].
  - cbn [Js.join]. rewrite append_cons. eauto.
  - rewrite join_cons, append_cons, append_cons. eauto.
Qed.

Lemma stringify_round_trips (v : value) : wf_value v -> round_trips v.
Proof.
  induction v as [ |b|n|s|xs IH|o IH] using value_induction; intros Hwf fuel rest Hf Hrest;
    (destruct fuel as [|f];
     [match type of Hf with (String.length (stringify ?v) <= _)%nat =>
        pose proof (stringify_length v); lia end|]).
  - reflexivity.
  - destruct b; reflexivity.
  - now apply parse_value_number.
  - apply parse_value_string.
  - apply wf_value_arr in Hwf. rewrite array_text.
    destruct xs as [|x xs]; [reflexivity|].
    assert (Hall : Forall round_trips (x :: xs)).
    { clear -IH Hwf. induction IH as [|y ys Hy Hys IHys]; [constructor|].
      apply Forall_cons in Hwf as [Hwy Hwys]. constructor; auto. }
    cbn [stringify] in Hf. rewrite append_cons, append_empty in Hf. cbn [String.length] in Hf.
    rewrite length_append in Hf. cbn [String.length] in Hf.
    destruct (stringify_head x) as (c & s & E & Hc).
    destruct (join_head (stringify x) (map stringify xs) (String "]" rest) c s E) as (s' & E').
    change (map stringify (x :: xs)) with (stringify x :: map stringify xs).
    rewrite E', parse_value_array, <- E' by assumption.
    change (stringify x :: map stringify xs) with (map stringify (x :: xs)).
    rewrite elements_round_trip; [reflexivity|discriminate|assumption|].
    cbn [map] in Hf |- *. lia.
  - apply wf_value_obj in Hwf as [Hnd Hwf]. rewrite object_text.
    destruct o as [|[k x] o]; [reflexivity|].
    assert (Hall : Forall (fun kv => round_trips (snd kv)) ((k, x) :: o)).
    { clear -IH Hwf. induction IH as [|y ys Hy Hys IHys]; [constructor|].
      apply Forall_cons in Hwf as [[_ Hwy] Hwys]. constructor; auto. }
    cbn [stringify] in Hf. rewrite append_cons, append_empty in Hf. cbn [String.length] in Hf.
    rewrite length_append in Hf. cbn [String.length] in Hf.
    change (fun kv : string * value => quote (fst kv) ++ ":" ++ stringify (snd kv))
      with member_text in Hf.
    destruct (join_head (member_text (k, x)) (map member_text o) (String "}" rest)
                dquote _ eq_refl) as (s' & E').
    change (map member_text ((k, x) :: o)) with (member_text (k, x) :: map member_text o).
    rewrite E', parse_value_object, <- E'.
    change (member_text (k, x) :: map member_text o) with (map member_text ((k, x) :: o)).
    rewrite members_round_trip; [reflexivity|discriminate|assumption..|].
    cbn [map] in Hf |- *. lia.
Qed.

Theorem parse_stringify (v : value) : wf_value v -> parse (stringify v) = Some v.
Proof.
  intros Hwf. unfold parse.
  rewrite <- (append_empty_r (stringify v)) at 2.
  rewrite (stringify_round_trips v Hwf) by (lia || reflexivity). reflexivity.
Qed.

Lemma well_formed_number (n : Z) : well_formed (number n).
Proof.
  apply well_formed_low. unfold number.
  destruct (digits_shape (Z.abs_N n)) as (c & d & E & Hc & Hd & _).
  assert (Hlow : low (digits (Z.abs_N n)) = true).
  { rewrite E. apply all_digits_low. cbn [all_digits]. now rewrite Hc, Hd. }
  destruct (n <? 0)%Z; [cbn [low]; now rewrite Hlow|exact Hlow].
Qed.

Lemma well_formed_stringify (v : value) : wf_value v -> well_formed (stringify v).
Proof.
  induction v as [ |b|n|s|xs IH|o IH] using value_induction; intros Hwf.
  - reflexivity.
  - destruct b; reflexivity.
  - apply well_formed_number.
  - apply well_formed_quote. now apply wf_value_str.
  - apply wf_value_arr in Hwf. cbn [stringify].
    apply (well_formed_app "["); [reflexivity|].
    apply well_formed_app; [|reflexivity].
    apply well_formed_join; [reflexivity|].
    apply Forall_map. clear -IH Hwf.
    induction IH as [|y ys Hy Hys IHys]; [constructor|].
    apply Forall_cons in Hwf as [Hwy Hwys]. constructor; auto.
  - apply wf_value_obj in Hwf as [_ Hwf]. cbn [stringify].
    apply (well_formed_app "{"); [reflexivity|].
    apply well_formed_app; [|reflexivity].
    apply well_formed_join; [reflexivity|].
    apply Forall_map. clear -IH Hwf.
    induction IH as [|[k y] ys Hy Hys IHys]; [constructor|].
    apply Forall_cons in Hwf as [[Hk Hwy] Hwys]. constructor; [|auto].
    cbn [fst snd] in *.
    apply well_formed_app; [now apply well_formed_quote|].
    apply (well_formed_app ":"); [reflexivity|auto].
Qed.
End JsonFacts.

Module TokenClaims.
Import Text JSON Runtime Http Users Utf8Facts JsonFacts Base64Facts.

Lemma encode_nonempty (x : ascii) (l : list ascii) : Base64.encode (x :: l) <> "".
Proof. destruct l as [|y [|z l]]; discriminate. Qed.

Lemma encode_key_nonempty (key : obj) : encode_key key <> "".
Proof.
  unfold encode_key, Buffer_from_utf8.
  rewrite <- (append_empty_r (stringify (VObj key))), object_text.
  apply encode_nonempty.
Qed.

Lemma decode_encode_key (key : obj) :
  wf_value (VObj key) -> decode_key (encode_key key) = Some (VObj key).
Proof.
  intros Hwf. unfold decode_key, encode_key, Buffer_toString, Buffer_from_utf8.
  rewrite decode_encode, string_of_list_ascii_of_string.
  rewrite (well_formed_stringify _ Hwf). now apply parse_stringify.
Qed.

(** C5: encoding then decoding a pagination token is the identity on
    continuation keys.  For every key that is a JavaScript object
    (its strings are well-formed texts and no property name occurs
    twice, at any depth), base64-decoding and JSON-parsing the base64
    of its JSON serialization yields the key itself; so the token that
    listUsers and listJobs answer as lastKey for a continuation key is
    read, when it comes back in the query string, as that very key for
    ExclusiveStartKey, without an exception. *)
Theorem token_round_trip (key : obj) (w : World) :
  wf_value (VObj key) ->
  decode_key (encode_key key) = Some (VObj key) /\
  exists token,
    response_lastKey (Some key) = VStr token /\
    exclusive_start_key (Some token) w = (Ok (Some (VObj key)), w).
Proof.
  intros Hwf. split; [now apply decode_encode_key|].
  exists (encode_key key). split; [reflexivity|].
  unfold exclusive_start_key, present.
  rewrite (bool_decide_eq_false_2 _ (encode_key_nonempty key)).
  cbn [negb default id]. now rewrite decode_encode_key.
Qed.

(** The continuation key of a scan of the users table. *)
Lemma token_round_trip_witness :
  wf_value (VObj [("userId", VStr "3f2a-77")]) /\
  decode_key (encode_key [("userId", VStr "3f2a-77")])
  = Some (VObj [("userId", VStr "3f2a-77")]) /\
  exists token,
    response_lastKey (Some [("userId", VStr "3f2a-77")]) = VStr token /\
    exclusive_start_key (Some token) Examples.quiet
    = (Ok (Some (VObj [("userId", VStr "3f2a-77")])), Examples.quiet).
Proof.
  assert (H : wf_value (VObj [("userId", VStr "3f2a-77")])).
  { constructor.
    - cbn [map fst]. apply NoDup_singleton.
    - repeat constructor; reflexivity. }
  split; [exact H|].
  exact (token_round_trip [("userId", VStr "3f2a-77")] Examples.quiet H).
Defined.
End TokenClaims.

(** * Further facts about the handlers *)

Module FrameFacts.
Import Runtime Http Api FrameDefs RuntimeFacts.

Lemma keeps_ret {A} (t : table) (a : A) : keeps t (ret a).
Proof. intros w. reflexivity. Qed.

Lemma keeps_throw {A} (t : table) (e : error) : keeps t (@throw A e).
Proof. intros w. reflexivity. Qed.

Lemma keeps_bind {A B} (t : table) (m : M A) (f : A -> M B) :
  keeps t m -> (forall a, keeps t (f a)) -> keeps t (bind m f).
Proof.
  intros Hm Hf w. unfold bind. specialize (Hm w).
  destruct (m w) as [[a|e] w1]; cbn [snd] in *; [|exact Hm].
  rewrite Hf. exact Hm.
Qed.

Lemma keeps_try_catch {A} (t : table) (m : M A) (h : error -> M A) :
  keeps t m -> (forall e, keeps t (h e)) -> keeps t (try_catch m h).
Proof.
  intros Hm Hh w. unfold try_catch. specialize (Hm w).
  destruct (m w) as [[a|e] w1]; cbn [snd] in *; [exact Hm|].
  rewrite Hh. exact Hm.
Qed.

Lemma keeps_uuidv4 (t : table) : keeps t uuidv4.
Proof. intros w. apply rows_advance. Qed.

Lemma keeps_now_iso (t : table) : keeps t now_iso.
Proof. intros w. apply rows_advance. Qed.

Lemma keeps_getenv (t : table) (name : string) : keeps t (getenv name).
Proof. intros w. reflexivity. Qed.

Lemma keeps_cognito (t : table) (op : string) (params : obj) : keeps t (Auth.cognito op params).
Proof. intros w. apply rows_advance. Qed.

Lemma keeps_request {A} (t : table) (op : World -> outcome A * World) :
  (forall w, rows t (snd (op w)) = rows t w) -> keeps t (Dynamo.request op).
Proof.
  intros H w. unfold Dynamo.request.
  destruct (fault_at w (ticks w)); cbn [snd]; [apply rows_advance|].
  rewrite H. apply rows_advance.
Qed.

Lemma keeps_get (t t' : table) (key : option value) : keeps t (Dynamo.get t' key).
Proof. apply keeps_request. intros w. now destruct (Dynamo.to_key _ _). Qed.

Lemma keeps_query_username (t : table) (u : option value) : keeps t (Dynamo.query_username u).
Proof.
  apply keeps_request. intros w.
  destruct u as [[ | | |s| | ]|]; try reflexivity. now destruct (decide (s = "")).
Qed.

Lemma keeps_scan (t t' : table) (limit : option Z) (start : option value)
    (filter : option Dynamo.cond) : keeps t (Dynamo.scan t' limit start filter).
Proof.
  apply keeps_request. intros w. cbv zeta.
  destruct (match start with None => _ | Some _ => _ end); [|reflexivity].
  destruct limit as [n|]; [|reflexivity]. now destruct (n <? 1)%Z.
Qed.

Lemma keeps_put_new (t t' : table) (item : obj) : t <> t' -> keeps t (Dynamo.put_new t' item).
Proof.
  intros Hne. apply keeps_request. intros w.
  destruct (Dynamo.to_key _ _); [|reflexivity].
  destruct (negb _); [reflexivity|].
  destruct (rows t' w !! s); [reflexivity|]. cbn [snd]. now apply rows_set_rows_ne.
Qed.

Lemma keeps_delete (t t' : table) (key : option value) : t <> t' -> keeps t (Dynamo.delete t' key).
Proof.
  intros Hne. apply keeps_request. intros w.
  destruct (Dynamo.to_key _ _); [|reflexivity]. cbn [snd]. now apply rows_set_rows_ne.
Qed.

Lemma keeps_update (t t' : table) (key : option value) (acts : list Dynamo.action)
    (must : bool) : t <> t' -> keeps t (Dynamo.update t' key acts must).
Proof.
  intros Hne. apply keeps_request. intros w.
  destruct (Dynamo.to_key _ _); [|reflexivity].
  destruct (_ || _); [reflexivity|]. cbv zeta.
  destruct (rows t' w !! s), must;
    try reflexivity;
    (destruct (Dynamo.apply_actions _ _ _); [|reflexivity]);
    (destruct (Dynamo.index_keys_ok _ _); [|reflexivity]);
    cbn [snd]; now apply rows_set_rows_ne.
Qed.

Ltac keeps_step :=
  lazymatch goal with
  | |- keeps _ (ret _) => apply keeps_ret
  | |- keeps _ (throw _) => apply keeps_throw
  | |- keeps _ (bind _ _) => apply keeps_bind; [|intros]
  | |- keeps _ (try_catch _ _) => apply keeps_try_catch; [|intros]
  | |- keeps _ (match ?x with _ => _ end) => destruct x
  | |- keeps _ (let _ := _ in _) => cbv zeta
  | |- keeps _ uuidv4 => apply keeps_uuidv4
  | |- keeps _ now_iso => apply keeps_now_iso
  | |- keeps _ (getenv _) => apply keeps_getenv
  | |- keeps _ (Auth.cognito _ _) => apply keeps_cognito
  | |- keeps _ (Dynamo.get _ _) => apply keeps_get
  | |- keeps _ (Dynamo.query_username _) => apply keeps_query_username
  | |- keeps _ (Dynamo.scan _ _ _ _) => apply keeps_scan
  | |- keeps _ (Dynamo.put_new _ _) => apply keeps_put_new; discriminate
  | |- keeps _ (Dynamo.delete _ _) => apply keeps_delete; discriminate
  | |- keeps _ (Dynamo.update _ _ _ _) => apply keeps_update; discriminate
  | |- keeps _ (parse_body _) => unfold parse_body
  | |- keeps _ (Tasks.parse_raw _) => unfold Tasks.parse_raw
  | |- keeps _ (destructure _) => unfold destructure
  | |- keeps _ (member _ _) => unfold member
  | |- keeps _ (path_parameter _ _) => unfold path_parameter
  | |- keeps _ (to_string_opt _) => unfold to_string_opt
  | |- keeps _ (Auth.toString_method _) => unfold Auth.toString_method
  | |- keeps _ (Users.exclusive_start_key _) => unfold Users.exclusive_start_key
  | |- keeps _ (Casting.alreadyApplied _ _) => unfold Casting.alreadyApplied
  | |- keeps _ (Auth.below _ _ _) => unfold Auth.below
  | |- keeps _ (Auth.password_problem _ _) => unfold Auth.password_problem
  end.

Lemma keeps_some_applied (t : table) (userId : option value) (apps : list value) :
  keeps t (Casting.some_applied userId apps).
Proof.
  induction apps as [|app apps IH]; cbn [Casting.some_applied]; [apply keeps_ret|].
  destruct app; try apply keeps_throw;
    (destruct (Js.strict_eq _ _); [apply keeps_ret | exact IH]).
Qed.

Lemma keeps_findIndex (t : table) (userId : option value) (apps : list value) :
  keeps t (Casting.findIndex userId apps).
Proof.
  induction apps as [|app apps IH]; cbn [Casting.findIndex]; [apply keeps_ret|].
  destruct app; try apply keeps_throw;
    (destruct (Js.strict_eq _ _); [apply keeps_ret|]);
    (apply keeps_bind; [exact IH | intros; apply keeps_ret]).
Qed.

Lemma keeps_without_id (t : table) (docId : option value) (docs : list value) :
  keeps t (Casting.without_id docId docs).
Proof.
  induction docs as [|doc docs IH]; cbn [Casting.without_id]; [apply keeps_ret|].
  destruct doc; try apply keeps_throw;
    (apply keeps_bind; [exact IH | intros; apply keeps_ret]).
Qed.

Lemma keeps_applications_of (t : table) (userId : option value) (apps : list value) :
  keeps t (Casting.applications_of userId apps).
Proof.
  induction apps as [|app apps IH]; cbn [Casting.applications_of]; [apply keeps_ret|].
  destruct app; try apply keeps_throw;
    (apply keeps_bind; [exact IH | intros; apply keeps_ret]).
Qed.

Lemma keeps_collect (t : table) (userId : option value) (jobs : list obj) :
  keeps t (Casting.collect userId jobs).
Proof.
  induction jobs as [|job jobs IH]; cbn [Casting.collect]; [apply keeps_ret|].
  destruct (Js.or_default _ _); try apply keeps_throw.
  apply keeps_bind; [apply keeps_applications_of|]. intros.
  apply keeps_bind; [exact IH | intros; apply keeps_ret].
Qed.

Ltac keeps_solve :=
  repeat first
    [ apply keeps_some_applied | apply keeps_findIndex | apply keeps_without_id
    | apply keeps_applications_of | apply keeps_collect | keeps_step ].

Lemma same_tables_refl (w : World) : same_tables w w.
Proof. repeat split. Qed.

Lemma same_tables_rows (w w' : World) :
  (forall t, rows t w' = rows t w) -> same_tables w w'.
Proof.
  intros H. repeat split;
    [apply (H USERS_TABLE) | apply (H CASTING_TABLE) | apply (H TASKS_TABLE)].
Qed.

Lemma same_tables_trans (w w1 w2 : World) :
  same_tables w w1 -> same_tables w1 w2 -> same_tables w w2.
Proof. intros (A & B & C) (D & E & F). repeat split; congruence. Qed.

Lemma keeps_same_tables {A} (m : M A) (w : World) :
  (forall t, keeps t m) -> same_tables w (snd (m w)).
Proof. intros H. apply same_tables_rows. intros t. apply H. Qed.

Lemma cow_ret {A} (Q : A -> Prop) (a : A) : changes_only_with Q (ret a).
Proof. intros w. right. apply same_tables_refl. Qed.

Lemma cow_throw {A} (Q : A -> Prop) (e : error) : changes_only_with Q (throw e).
Proof. intros w. apply same_tables_refl. Qed.

Lemma cow_bind_reads {A B} (Q : B -> Prop) (m : M A) (f : A -> M B) :
  (forall t, keeps t m) -> (forall a, changes_only_with Q (f a)) ->
  changes_only_with Q (bind m f).
Proof.
  intros Hm Hf w. unfold bind. pose proof (keeps_same_tables m w Hm) as H.
  destruct (m w) as [[a|e] w1]; cbn [snd] in H; [|exact H].
  specialize (Hf a w1). destruct (f a w1) as [[b|e] w2].
  - destruct Hf as [Hq|Hs]; [now left | right; eapply same_tables_trans; eauto].
  - eapply same_tables_trans; eauto.
Qed.

Lemma cow_bind_write {A B} (Q : B -> Prop) (m : M A) (f : A -> M B) :
  fails_clean m -> (forall a, answers Q (f a)) -> changes_only_with Q (bind m f).
Proof.
  intros Hm Hf w. unfold bind. specialize (Hm w).
  destruct (m w) as [[a|e] w1]; [|exact Hm].
  destruct (Hf a w1) as (b & w2 & -> & Hq). now left.
Qed.

Lemma cow_try_catch {A} (Q : A -> Prop) (m : M A) (h : error -> M A) :
  changes_only_with Q m -> (forall e t, keeps t (h e)) ->
  changes_only_with Q (try_catch m h).
Proof.
  intros Hm Hh w. unfold try_catch. specialize (Hm w).
  destruct (m w) as [[a|e] w1]; [exact Hm|].
  pose proof (keeps_same_tables (h e) w1 (Hh e)) as H.
  destruct (h e w1) as [[b|e'] w2]; cbn [snd] in H;
    [right|]; eapply same_tables_trans; eauto.
Qed.

Lemma request_clean {A} (op : World -> outcome A * World) :
  (forall w, match op w with
             | (Ok _, _) => True
             | (Throw _, w') => same_tables w w'
             end) ->
  fails_clean (Dynamo.request op).
Proof.
  intros H w. unfold Dynamo.request.
  destruct (fault_at w (ticks w)); [repeat split|].
  specialize (H (advance w)). destruct (op (advance w)) as [[a|e] w']; [exact I|].
  exact H.
Qed.

Lemma put_new_clean (t : table) (item : obj) : fails_clean (Dynamo.put_new t item).
Proof.
  apply request_clean. intros w.
  destruct (Dynamo.to_key _ _); [|apply same_tables_refl].
  destruct (negb _); [apply same_tables_refl|].
  destruct (rows t w !! s); [apply same_tables_refl | exact I].
Qed.

Lemma delete_clean (t : table) (key : option value) : fails_clean (Dynamo.delete t key).
Proof.
  apply request_clean. intros w.
  destruct (Dynamo.to_key _ _); [exact I | apply same_tables_refl].
Qed.

Lemma update_clean (t : table) (key : option value) (acts : list Dynamo.action) (must : bool) :
  fails_clean (Dynamo.update t key acts must).
Proof.
  apply request_clean. intros w.
  destruct (Dynamo.to_key _ _); [|apply same_tables_refl].
  destruct (_ || _); [apply same_tables_refl|]. cbv zeta.
  destruct (rows t w !! s), must;
    try apply same_tables_refl;
    (destruct (Dynamo.apply_actions _ _ _); [|apply same_tables_refl]);
    (destruct (Dynamo.index_keys_ok _ _); [exact I | apply same_tables_refl]).
Qed.

Lemma answers_ret {A} (Q : A -> Prop) (a : A) : Q a -> answers Q (ret a).
Proof. intros H w. eauto. Qed.

Ltac answered :=
  apply answers_ret; unfold accepted, successResponse, Tasks.plain; cbn [statusCode]; lia.

Ltac cow_step :=
  lazymatch goal with
  | |- changes_only_with _ (ret _) => apply cow_ret
  | |- changes_only_with _ (throw _) => apply cow_throw
  | |- changes_only_with _ (try_catch _ _) =>
      apply cow_try_catch; [|intros; keeps_solve]
  | |- changes_only_with _ (bind (Dynamo.put_new _ _) _) =>
      apply cow_bind_write; [apply put_new_clean | intros; answered]
  | |- changes_only_with _ (bind (Dynamo.delete _ _) _) =>
      apply cow_bind_write; [apply delete_clean | intros; answered]
  | |- changes_only_with _ (bind (Dynamo.update _ _ _ _) _) =>
      apply cow_bind_write; [apply update_clean | intros; answered]
  | |- changes_only_with _ (bind _ _) =>
      apply cow_bind_reads; [intros; keeps_solve | intros]
  | |- changes_only_with _ (match ?x with _ => _ end) => destruct x
  | |- changes_only_with _ (let _ := _ in _) => cbv zeta
  end.

End FrameFacts.

Module FrameExtras.
Import Runtime Http Api FrameDefs FrameFacts Examples.

(** X1: whatever the request and whatever the datastore and the identity provider do,
    a handler that throws or answers with a status outside 200..299 has left the
    users, casting and tasks tables exactly as they were. *)
Theorem rejected_requests_change_nothing (below : string -> Z -> bool) (e : endpoint)
    (ev : event) (w : World) :
  match handler below e ev w with
  | (Ok r, w') => (200 <= statusCode r < 300)%Z \/ same_tables w w'
  | (Throw _, w') => same_tables w w'
  end.
Proof.
  revert w. change (changes_only_with accepted (handler below e ev)).
  destruct e; cbn [handler];
    unfold Users.createUser, Users.getUserById, Users.getUserByUsername, Users.updateUser,
      Users.deleteUser, Users.listUsers, Users.incrementUserView, Users.addWorkExperience,
      Users.addPortfolioItem, Users.addConnection, Users.searchUsers,
      Casting.createJob, Casting.getJobById, Casting.listJobs, Casting.updateJob,
      Casting.deleteJob, Casting.applyForJob, Casting.getJobApplications,
      Casting.updateApplicationStatus, Casting.incrementJobView, Casting.addDocument,
      Casting.removeDocument, Casting.getUserApplications, Casting.searchJobs,
      Auth.signUp, Auth.signIn, Auth.confirmSignUp, Auth.resendConfirmationCode,
      Auth.adminConfirmUser, Auth.forgotPassword, Auth.resetPassword,
      Tasks.createTask, Tasks.getTasks, Tasks.updateTask;
    repeat cow_step.
Qed.

(** X2: a handler touches at most its own table: the read-only handlers and the
    authentication handlers change no table, and a writing handler changes none but
    the one it stores to, whatever the request and however it ends. *)
Theorem handlers_keep_foreign_tables (below : string -> Z -> bool) (e : endpoint)
    (ev : event) (w : World) (t : table) :
  stores e <> Some t ->
  rows t (snd (handler below e ev w)) = rows t w.
Proof.
  intros Hs. revert w. change (keeps t (handler below e ev)).
  destruct e, t; try (exfalso; apply Hs; reflexivity); clear Hs;
    cbn [handler];
    unfold Users.createUser, Users.getUserById, Users.getUserByUsername, Users.updateUser,
      Users.deleteUser, Users.listUsers, Users.incrementUserView, Users.addWorkExperience,
      Users.addPortfolioItem, Users.addConnection, Users.searchUsers,
      Casting.createJob, Casting.getJobById, Casting.listJobs, Casting.updateJob,
      Casting.deleteJob, Casting.applyForJob, Casting.getJobApplications,
      Casting.updateApplicationStatus, Casting.incrementJobView, Casting.addDocument,
      Casting.removeDocument, Casting.getUserApplications, Casting.searchJobs,
      Auth.signUp, Auth.signIn, Auth.confirmSignUp, Auth.resendConfirmationCode,
      Auth.adminConfirmUser, Auth.forgotPassword, Auth.resetPassword,
      Tasks.createTask, Tasks.getTasks, Tasks.updateTask;
    keeps_solve.
Qed.

Lemma handlers_keep_foreign_tables_witness :
  rows USERS_TABLE
    (snd (handler never_below createJob (request [] "") one_user))
  = rows USERS_TABLE one_user.
Proof. apply handlers_keep_foreign_tables. discriminate. Defined.
End FrameExtras.

Module HelperFacts.
Import Text JSON Runtime Http JsonFacts.
Local Open Scope list_scope.

Lemma wf_error_body (msg : string) (details : option string) :
  well_formed msg -> (forall d, details = Some d -> well_formed d) ->
  wf_value (VObj (error_body msg details)).
Proof.
  intros Hm Hd. unfold error_body.
  destruct details as [d|]; [destruct (Js.truthy (VStr d))|]; cbn [app];
    (constructor;
     [ apply (bool_decide_unpack _); vm_compute; exact I
     | repeat constructor; auto; reflexivity ]).
Qed.

(** X4: the body of a response is a JSON text that reads back as the
    object the helper was given: for errorResponse an object with
    success false, the message, and the details when they are a
    non-empty string; for successResponse the body object itself. *)
Theorem response_bodies_parse_back (status : Z) (msg : string) (details : option string)
    (b : obj) :
  well_formed msg -> (forall d, details = Some d -> well_formed d) ->
  wf_value (VObj b) ->
  JSON.parse (payload (errorResponse status msg details))
  = Some (VObj ([("success", VBool false); ("message", VStr msg)] ++
                match details with
                | Some d => if decide (d = "") then [] else [("details", VStr d)]
                | None => []
                end))
  /\ JSON.parse (payload (successResponse status b)) = Some (VObj b).
Proof.
  intros Hm Hd Hb. split.
  - unfold errorResponse. cbn [payload].
    rewrite parse_stringify by now apply wf_error_body.
    unfold error_body. destruct details as [d|]; [|reflexivity].
    cbn [Js.truthy]. now destruct (decide (d = "")); [rewrite bool_decide_eq_true_2|rewrite bool_decide_eq_false_2].
  - unfold successResponse. cbn [payload]. now apply parse_stringify.
Qed.

Lemma response_bodies_parse_back_witness :
  JSON.parse (payload (errorResponse 404 "User not found" None))
  = Some (VObj ([("success", VBool false); ("message", VStr "User not found")] ++ []))
  /\ JSON.parse (payload (successResponse 200 [("success", VBool true)]))
     = Some (VObj [("success", VBool true)]).
Proof.
  apply (response_bodies_parse_back 404 "User not found" None [("success", VBool true)]).
  - reflexivity.
  - intros d H. discriminate H.
  - constructor; [apply NoDup_singleton | repeat constructor; reflexivity].
Defined.
End HelperFacts.

Module UserRuns.
Import Runtime Http Users RuntimeFacts DynamoFacts JsFacts HttpFacts UpdateFacts CreateClaims.
Local Open Scope list_scope.

Lemma getUserById_run (ev : event) (w : World) (ps : gmap string string) (k : string) :
  reliable w -> pathParameters ev = Some ps -> ps !! "userId" = Some k -> k <> "" ->
  getUserById ev w
  = (Ok match users w !! KS k with
        | Some user => successResponse 200 [("success", VBool true); ("user", VObj user)]
        | None => errorResponse 404 "User not found" None
        end, advance w).
Proof.
  intros Hr Hps Hk Hne. unfold getUserById. apply try_catch_ok.
  erewrite bind_run by (apply path_parameter_run; exact Hps).
  rewrite Hk, present_some by exact Hne. cbn [negb str fmap option_fmap option_map].
  erewrite bind_run by (apply (get_run USERS_TABLE); [exact Hr | reflexivity | exact Hne]).
  cbn [rows]. now destruct (users w !! KS k).
Qed.

Lemma delete_run (t : table) (k : string) (w : World) :
  reliable w -> Dynamo.string_keyed t -> k <> "" ->
  Dynamo.delete t (Some (VStr k)) w
  = (Ok tt, set_rows t (base.delete (KS k) (rows t w)) (advance w)).
Proof.
  intros Hr Ht Hk. unfold Dynamo.delete. rewrite request_run by exact Hr.
  rewrite Ht. cbn [Dynamo.to_key]. destruct (decide (k = "")); [contradiction|].
  now rewrite rows_advance.
Qed.




Lemma deleteUser_run (ev : event) (w : World) (ps : gmap string string) (k : string)
    (item : obj) :
  reliable w -> pathParameters ev = Some ps -> ps !! "userId" = Some k -> k <> "" ->
  users w !! KS k = Some item ->
  deleteUser ev w
  = (Ok (successResponse 200
           [("success", VBool true);
            ("message", VStr "User deleted successfully");
            ("deletedUserId", VStr k)]),
     set_rows USERS_TABLE (base.delete (KS k) (users w)) (advance (advance w))).
Proof.
  intros Hr Hps Hk Hne Hit. unfold deleteUser. apply try_catch_ok.
  erewrite bind_run by (apply path_parameter_run; exact Hps).
  rewrite Hk, present_some by exact Hne. cbn [negb str fmap option_fmap option_map].
  erewrite bind_run by (apply (get_run USERS_TABLE); [exact Hr | reflexivity | exact Hne]).
  cbn [rows]. rewrite Hit.
  erewrite bind_run
    by (apply (delete_run USERS_TABLE);
        [now apply reliable_advance | reflexivity | exact Hne]).
  reflexivity.
Qed.

Lemma deleteUser_missing (ev : event) (w : World) (ps : gmap string string) (k : string) :
  reliable w -> pathParameters ev = Some ps -> ps !! "userId" = Some k -> k <> "" ->
  users w !! KS k = None ->
  deleteUser ev w = (Ok (errorResponse 404 "User not found" None), advance w).
Proof.
  intros Hr Hps Hk Hne Hit. unfold deleteUser. apply try_catch_ok.
  erewrite bind_run by (apply path_parameter_run; exact Hps).
  rewrite Hk, present_some by exact Hne. cbn [negb str fmap option_fmap option_map].
  erewrite bind_run by (apply (get_run USERS_TABLE); [exact Hr | reflexivity | exact Hne]).
  cbn [rows]. rewrite Hit. reflexivity.
Qed.

Lemma strict_eq_str_l (x : option value) (u : string) :
  x <> Some (VStr u) -> Js.strict_eq (Some (VStr u)) x = false.
Proof.
  intros H. destruct x as [[ | | |s| | ]|]; try reflexivity.
  cbn. apply bool_decide_eq_false_2. intros ->. now apply H.
Qed.
End UserRuns.

Module UserExtras.
Import Runtime Http Users RuntimeFacts DynamoFacts JsFacts HttpFacts UpdateFacts CreateClaims
  UserRuns.
Local Open Scope list_scope.



(** X6: deleteUser removes exactly the record of the path parameter:
    for a stored user it answers 200 naming the deleted id and the
    users table afterwards is the old one without that key; reading
    the id or deleting it again is then answered 404, and the second
    delete changes nothing. *)
Theorem deleted_user_is_gone (ev : event) (w : World) (ps : gmap string string)
    (k : string) (item : obj) :
  reliable w -> pathParameters ev = Some ps -> ps !! "userId" = Some k -> k <> "" ->
  users w !! KS k = Some item ->
  exists w1,
    deleteUser ev w
    = (Ok (successResponse 200
             [("success", VBool true);
              ("message", VStr "User deleted successfully");
              ("deletedUserId", VStr k)]), w1)
    /\ users w1 = base.delete (KS k) (users w)
    /\ (exists w2, getUserById ev w1 = (Ok (errorResponse 404 "User not found" None), w2))
    /\ (exists w2, deleteUser ev w1 = (Ok (errorResponse 404 "User not found" None), w2)
                   /\ users w2 = users w1).
Proof.
  intros Hr Hps Hk Hne Hit.
  set (w1 := set_rows USERS_TABLE (base.delete (KS k) (users w)) (advance (advance w))).
  assert (Hr1 : reliable w1)
    by (apply reliable_set_rows; now repeat apply reliable_advance).
  assert (Hgone : users w1 !! KS k = None) by apply lookup_delete_eq.
  exists w1. split; [now apply (deleteUser_run ev w ps k item)|].
  split; [reflexivity|]. split.
  - eexists. rewrite (getUserById_run ev w1 ps k Hr1 Hps Hk Hne). now rewrite Hgone.
  - eexists. split; [now apply (deleteUser_missing ev w1 ps k)|reflexivity].
Qed.

Lemma deleted_user_is_gone_witness :
  exists w1,
    deleteUser (Examples.request [("userId", "u1")] "") Examples.one_user
    = (Ok (successResponse 200
             [("success", VBool true);
              ("message", VStr "User deleted successfully");
              ("deletedUserId", VStr "u1")]), w1)
    /\ users w1 = base.delete (KS "u1") (users Examples.one_user)
    /\ (exists w2, getUserById (Examples.request [("userId", "u1")] "") w1
                   = (Ok (errorResponse 404 "User not found" None), w2))
    /\ (exists w2, deleteUser (Examples.request [("userId", "u1")] "") w1
                   = (Ok (errorResponse 404 "User not found" None), w2)
                   /\ users w2 = users w1).
Proof.
  apply (deleted_user_is_gone (Examples.request [("userId", "u1")] "") Examples.one_user
           (list_to_map [("userId", "u1")]) "u1" Examples.ann).
  - intros n. reflexivity.
  - reflexivity.
  - reflexivity.
  - discriminate.
  - reflexivity.
Defined.

(** X8: updateUser refuses a user name that another record holds: when
    the body asks for a non-empty name that differs from the stored
    one and some record of the table carries it, the answer is 409 and
    no table changes. *)
Theorem rename_to_taken_name_conflicts (ev : event) (w : World) (ps : gmap string string)
    (k u : string) (b : value) (item : obj) (k' : scalar) (other : obj) :
  reliable w -> pathParameters ev = Some ps -> ps !! "userId" = Some k -> k <> "" ->
  JSON.parse (body_text ev) = Some b ->
  users w !! KS k = Some item ->
  Js.prop b "username" = Some (VStr u) -> u <> "" ->
  Js.obj_get "username" item <> Some (VStr u) ->
  users w !! k' = Some other -> Js.obj_get "username" other = Some (VStr u) ->
  exists w1,
    updateUser ev w = (Ok (errorResponse 409 "Username already exists" None), w1)
    /\ users w1 = users w /\ casting w1 = casting w /\ tasks w1 = tasks w.
Proof.
  intros Hr Hps Hk Hne Hb Hit Hn Hu Hdiff Hother Hname.
  assert (Hnn : b <> VNull) by (intros ->; discriminate Hn).
  destruct (query_username_found u k' other (advance w))
    as (l & Hq & Hl); [now apply reliable_advance | exact Hu | exact Hother | exact Hname |].
  eexists. split.
  - unfold updateUser. apply try_catch_ok.
    erewrite bind_run by (apply path_parameter_run; exact Hps).
    erewrite bind_run by (apply parse_body_run; exact Hb).
    rewrite Hk, present_some by exact Hne. cbn [negb str fmap option_fmap option_map].
    erewrite bind_run by (apply (get_run USERS_TABLE); [exact Hr | reflexivity | exact Hne]).
    cbn [rows]. rewrite Hit.
    erewrite bind_run by (apply member_run; exact Hnn).
    rewrite Hn. rewrite (strict_eq_str_l _ u Hdiff).
    change (Js.truthy_opt (Some (VStr u))) with (negb (bool_decide (u = ""))).
    rewrite bool_decide_eq_false_2 by exact Hu. cbn [negb andb].
    erewrite bind_run by (erewrite bind_run by exact Hq; reflexivity).
    rewrite Hl. reflexivity.
  - repeat split.
Qed.

Lemma rename_to_taken_name_conflicts_witness :
  exists w1,
    updateUser (Examples.request [("userId", "u1")] Samples.rename_to_bob) Samples.two_users
    = (Ok (errorResponse 409 "Username already exists" None), w1)
    /\ users w1 = users Samples.two_users /\ casting w1 = casting Samples.two_users
    /\ tasks w1 = tasks Samples.two_users.
Proof.
  apply (rename_to_taken_name_conflicts
           (Examples.request [("userId", "u1")] Samples.rename_to_bob) Samples.two_users
           (list_to_map [("userId", "u1")]) "u1" "bob"
           (VObj [("username", VStr "bob")]) Examples.ann (KS "u2") Samples.bob).
  - intros n. reflexivity.
  - reflexivity.
  - reflexivity.
  - discriminate.
  - vm_compute. reflexivity.
  - reflexivity.
  - reflexivity.
  - discriminate.
  - discriminate.
  - reflexivity.
  - reflexivity.
Defined.
End UserExtras.

Module ViewFacts.
Import Runtime Http RuntimeFacts DynamoFacts JsFacts HttpFacts UpdateFacts UserRuns ViewDefs.
Local Open Scope list_scope.

Lemma count_view_run (t : table) (k now : string) (w : World) (n : Z) :
  reliable w -> t <> TASKS_TABLE -> k <> "" ->
  views (current t k w) = Some n ->
  let item' := Js.obj_set "updatedAt" (VStr now)
                 (Js.obj_set "view" (VNum (n + 1)) (current t k w)) in
  Dynamo.update t (Some (VStr k)) (count_view now) false w
  = (Ok item', set_rows t (<[KS k := item']> (rows t w)) (advance w)).
Proof.
  intros Hr Ht Hk Hv item'. unfold Dynamo.update. rewrite request_run by exact Hr.
  assert (Hty : Dynamo.hash_type t = Dynamo.TS) by (destruct t; [reflexivity..|contradiction]).
  rewrite Hty. cbn [Dynamo.to_key]. destruct (decide (k = "")); [contradiction|].
  replace (negb (bool_decide (NoDup (map fst (count_view now))))
           || bool_decide (Dynamo.hash_key t ∈ map fst (count_view now))) with false.
  2:{ symmetry. apply orb_false_iff. split.
      - apply negb_false_iff, bool_decide_eq_true_2.
        apply (bool_decide_unpack _). vm_compute. exact I.
      - apply bool_decide_eq_false_2. destruct t; [| |contradiction];
          apply (bool_decide_unpack _); vm_compute; exact I. }
  cbv zeta. rewrite rows_advance.
  assert (Hold : default [(Dynamo.hash_key t, Dynamo.key_value (KS k))] (rows t w !! KS k)
                 = current t k w) by reflexivity.
  assert (Happ : Dynamo.apply_actions (current t k w) (count_view now) (current t k w)
                 = Some item').
  { unfold count_view. cbn [Dynamo.apply_actions Dynamo.eval].
    unfold views in Hv. destruct (Js.obj_get "view" (current t k w)) as [[ | |m| | | ]|];
      try discriminate Hv; injection Hv as <-; reflexivity. }
  assert (Hidx : Dynamo.index_keys_ok t (Dynamo.written (count_view now) item') = true).
  { destruct t; [|reflexivity|contradiction].
    unfold Dynamo.index_keys_ok. cbn [Dynamo.index_keys forallb].
    rewrite obj_get_written. reflexivity. }
  destruct (rows t w !! KS k) as [old|] eqn:E; rewrite Hold, Happ, Hidx; reflexivity.
Qed.

Lemma obj_get_counted (now : string) (n : Z) (item : obj) :
  Js.obj_get "view" (Js.obj_set "updatedAt" (VStr now) (Js.obj_set "view" (VNum n) item))
  = Some (VNum n).
Proof. rewrite obj_get_set_ne by discriminate. apply obj_get_set_eq. Qed.

Lemma incrementUserView_run (ev : event) (w : World) (ps : gmap string string)
    (k : string) (n : Z) :
  reliable w -> pathParameters ev = Some ps -> ps !! "userId" = Some k -> k <> "" ->
  views (current USERS_TABLE k w) = Some n ->
  let item' := Js.obj_set "updatedAt" (VStr (time_at w (ticks w)))
                 (Js.obj_set "view" (VNum (n + 1)) (current USERS_TABLE k w)) in
  Users.incrementUserView ev w
  = (Ok (successResponse 200
           [("success", VBool true);
            ("message", VStr "User view incremented");
            ("view", VNum (n + 1))]),
     set_rows USERS_TABLE (<[KS k := item']> (users w)) (advance (advance w))).
Proof.
  intros Hr Hps Hk Hne Hv item'. unfold Users.incrementUserView. apply try_catch_ok.
  erewrite bind_run by (apply path_parameter_run; exact Hps).
  rewrite Hk, present_some by exact Hne. cbn [negb str fmap option_fmap option_map].
  erewrite bind_run by reflexivity.
  erewrite bind_run.
  2:{ apply (count_view_run USERS_TABLE k _ (advance w) n);
        [now apply reliable_advance | discriminate | exact Hne | exact Hv]. }
  unfold current. rewrite !rows_advance. fold (current USERS_TABLE k w).
  rewrite obj_get_counted. reflexivity.
Qed.

Lemma incrementJobView_run (ev : event) (w : World) (ps : gmap string string)
    (k : string) (n : Z) :
  reliable w -> pathParameters ev = Some ps -> ps !! "jobId" = Some k -> k <> "" ->
  views (current CASTING_TABLE k w) = Some n ->
  let item' := Js.obj_set "updatedAt" (VStr (time_at w (ticks w)))
                 (Js.obj_set "view" (VNum (n + 1)) (current CASTING_TABLE k w)) in
  Casting.incrementJobView ev w
  = (Ok (successResponse 200
           [("success", VBool true);
            ("message", VStr "Job view incremented");
            ("view", VNum (n + 1))]),
     set_rows CASTING_TABLE (<[KS k := item']> (casting w)) (advance (advance w))).
Proof.
  intros Hr Hps Hk Hne Hv item'. unfold Casting.incrementJobView. apply try_catch_ok.
  erewrite bind_run by (apply path_parameter_run; exact Hps).
  rewrite Hk, present_some by exact Hne. cbn [negb str fmap option_fmap option_map].
  erewrite bind_run by reflexivity.
  erewrite bind_run.
  2:{ apply (count_view_run CASTING_TABLE k _ (advance w) n);
        [now apply reliable_advance | discriminate | exact Hne | exact Hv]. }
  unfold current. rewrite !rows_advance. fold (current CASTING_TABLE k w).
  rewrite obj_get_counted. reflexivity.
Qed.
End ViewFacts.

Module ViewExtras.
Import Runtime Http RuntimeFacts ViewDefs ViewFacts.
Local Open Scope list_scope.



(** X9: the view counters do not check that the record exists: for an
    id under which nothing is stored, incrementUserView and
    incrementJobView answer 200 with view 1 and create a record that
    holds only the key, view 1 and updatedAt. *)
Theorem view_of_unknown_id_creates_record (ev : event) (w : World)
    (ps : gmap string string) (k : string) :
  reliable w -> pathParameters ev = Some ps -> k <> "" ->
  (ps !! "userId" = Some k -> users w !! KS k = None ->
   exists w1,
     Users.incrementUserView ev w
     = (Ok (successResponse 200
              [("success", VBool true);
               ("message", VStr "User view incremented");
               ("view", VNum 1)]), w1)
     /\ users w1 !! KS k
        = Some [("userId", VStr k); ("view", VNum 1);
                ("updatedAt", VStr (time_at w (ticks w)))])
  /\
  (ps !! "jobId" = Some k -> casting w !! KS k = None ->
   exists w1,
     Casting.incrementJobView ev w
     = (Ok (successResponse 200
              [("success", VBool true);
               ("message", VStr "Job view incremented");
               ("view", VNum 1)]), w1)
     /\ casting w1 !! KS k
        = Some [("jobId", VStr k); ("view", VNum 1);
                ("updatedAt", VStr (time_at w (ticks w)))]).
Proof.
  intros Hr Hps Hne. split; intros Hk Hnone; eexists.
  - split.
    + apply (incrementUserView_run ev w ps k 0); try assumption.
      unfold current. cbn [rows]. rewrite Hnone. reflexivity.
    + cbn [users set_rows]. rewrite lookup_insert_eq.
      unfold current. cbn [rows]. rewrite Hnone. reflexivity.
  - split.
    + apply (incrementJobView_run ev w ps k 0); try assumption.
      unfold current. cbn [rows]. rewrite Hnone. reflexivity.
    + cbn [casting set_rows]. rewrite lookup_insert_eq.
      unfold current. cbn [rows]. rewrite Hnone. reflexivity.
Qed.

Lemma view_of_unknown_id_creates_record_witness :
  exists w1,
    Casting.incrementJobView (Examples.request [("jobId", "j9")] "") Examples.quiet
    = (Ok (successResponse 200
             [("success", VBool true);
              ("message", VStr "Job view incremented");
              ("view", VNum 1)]), w1)
    /\ casting w1 !! KS "j9"
       = Some [("jobId", VStr "j9"); ("view", VNum 1);
               ("updatedAt", VStr (time_at Examples.quiet 0))].
Proof.
  apply (view_of_unknown_id_creates_record
           (Examples.request [("jobId", "j9")] "") Examples.quiet
           (list_to_map [("jobId", "j9")]) "j9").
  - intros n. reflexivity.
  - reflexivity.
  - discriminate.
  - reflexivity.
  - reflexivity.
Defined.
End ViewExtras.

Module DocumentFacts.
Import Runtime Http Casting RuntimeFacts DynamoFacts JsFacts HttpFacts UpdateFacts
  CastingClaims DocumentDefs.
Local Open Scope list_scope.

Lemma without_id_filters (docId : string) (docs : list value) (w : World) :
  Forall (fun d => d <> VNull) docs ->
  without_id (Some (VStr docId)) docs w = (Ok (other_documents docId docs), w).
Proof.
  induction 1 as [|d docs Hd _ IH]; cbn [without_id]; [reflexivity|].
  destruct d; try contradiction;
    (erewrite bind_run by exact IH; unfold other_documents; cbn [List.filter];
     destruct (Js.strict_eq _ _); reflexivity).
Qed.

Lemma other_documents_shorter (docId : string) (docs : list value) (doc : value) :
  doc ∈ docs -> Js.prop doc "id" = Some (VStr docId) ->
  (length (other_documents docId docs) < length docs)%nat.
Proof.
  intros Hin Hid. induction Hin as [doc docs|doc d docs Hin IH].
  - unfold other_documents. cbn [List.filter]. rewrite Hid.
    replace (Js.strict_eq _ _) with true by (symmetry; now apply strict_eq_str).
    cbn [negb length]. pose proof (List.filter_length_le
      (fun doc => negb (Js.strict_eq (Js.prop doc "id") (Some (VStr docId)))) docs). lia.
  - specialize (IH Hid). unfold other_documents in *. cbn [List.filter].
    destruct (negb _); cbn [length]; lia.
Qed.

Lemma other_documents_all (docId : string) (docs : list value) :
  Forall (fun d => Js.prop d "id" <> Some (VStr docId)) docs ->
  other_documents docId docs = docs.
Proof.
  induction 1 as [|d docs Hd _ IH]; [reflexivity|].
  unfold other_documents in *. cbn [List.filter].
  replace (Js.strict_eq _ _) with false; [cbn [negb]; now f_equal|].
  symmetry. apply not_true_is_false. intros H. now apply strict_eq_str in H.
Qed.

Lemma other_documents_app (docId : string) (a b : list value) :
  other_documents docId (a ++ b) = other_documents docId a ++ other_documents docId b.
Proof. apply List.filter_app. Qed.

Lemma removeDocument_run (ev : event) (w : World) (ps : gmap string string)
    (jobId docId : string) (item : obj) (docs : list value) (doc : value) :
  reliable w ->
  pathParameters ev = Some ps ->
  ps !! "jobId" = Some jobId -> jobId <> "" -> ps !! "docId" = Some docId -> docId <> "" ->
  casting w !! KS jobId = Some item ->
  Js.obj_get "documents" item = Some (VArr docs) ->
  Forall (fun d => d <> VNull) docs ->
  doc ∈ docs -> Js.prop doc "id" = Some (VStr docId) ->
  let item' := Js.obj_set "updatedAt" (VStr (time_at w (S (ticks w))))
                 (Js.obj_set "documents" (VArr (other_documents docId docs)) item) in
  removeDocument ev w
  = (Ok (successResponse 200
           [("success", VBool true);
            ("message", VStr "Document removed");
            ("job", VObj item')]),
     set_rows CASTING_TABLE (<[KS jobId := item']> (casting w))
       (advance (advance (advance w)))).
Proof.
  intros Hr Hps Hid Hne Hdoc Hdne Hitem Hdocs Hall Hin Hhit item'.
  unfold removeDocument. apply try_catch_ok.
  erewrite bind_run by (apply path_parameter_run; exact Hps). rewrite Hid.
  erewrite bind_run by (apply path_parameter_run; exact Hps). rewrite Hdoc.
  rewrite !present_some by assumption. cbn [negb orb].
  erewrite bind_run by (apply (get_run CASTING_TABLE); [exact Hr | reflexivity | exact Hne]).
  cbn [rows]. rewrite Hitem, Hdocs. cbn [Js.or_default Js.truthy].
  erewrite bind_run by (now apply without_id_filters).
  cbn [stored_length length_of Js.strict_eq].
  pose proof (other_documents_shorter docId docs doc Hin Hhit) as Hlen.
  replace (Z.of_nat (length (other_documents docId docs)) =? Z.of_nat (length docs))%Z
    with false by (symmetry; apply Z.eqb_neq; lia).
  erewrite bind_run by reflexivity.
  erewrite bind_run.
  2:{ apply (update_run CASTING_TABLE jobId _ _ item).
      - now repeat apply reliable_advance.
      - reflexivity.
      - exact Hne.
      - apply (bool_decide_unpack _). vm_compute. exact I.
      - apply (bool_decide_unpack _). vm_compute. exact I.
      - exact Hitem.
      - reflexivity.
      - reflexivity. }
  reflexivity.
Qed.
End DocumentFacts.

Module DocumentExtras.
Import Runtime Http Casting RuntimeFacts DynamoFacts JsFacts HttpFacts CastingClaims
  InversionFacts AppendClaims AppendRuns DocumentDefs DocumentFacts.
Local Open Scope list_scope.

(** X10: removeDocument removes every document that carries the id of
    the path and nothing else: on a job whose documents list holds
    such an entry, the answer is 200 and the stored list is the old
    one without the entries of that id, the others in their order;
    updatedAt becomes the clock reading taken during the call and no
    other attribute changes. *)
Theorem remove_document_filters (ev : event) (w : World) (ps : gmap string string)
    (jobId docId : string) (item : obj) (docs : list value) (doc : value) :
  reliable w ->
  pathParameters ev = Some ps ->
  ps !! "jobId" = Some jobId -> jobId <> "" -> ps !! "docId" = Some docId -> docId <> "" ->
  casting w !! KS jobId = Some item ->
  Js.obj_get "documents" item = Some (VArr docs) ->
  Forall (fun d => d <> VNull) docs ->
  doc ∈ docs -> Js.prop doc "id" = Some (VStr docId) ->
  exists w1 item',
    removeDocument ev w
    = (Ok (successResponse 200
             [("success", VBool true);
              ("message", VStr "Document removed");
              ("job", VObj item')]), w1)
    /\ casting w1 = <[KS jobId := item']> (casting w)
    /\ Js.obj_get "documents" item' = Some (VArr (other_documents docId docs))
    /\ Js.obj_get "updatedAt" item' = Some (VStr (time_at w (S (ticks w))))
    /\ (forall d, d ∈ other_documents docId docs
                  <-> d ∈ docs /\ Js.prop d "id" <> Some (VStr docId))
    /\ sublist (other_documents docId docs) docs
    /\ (forall f, f <> "documents" -> f <> "updatedAt" ->
                  Js.obj_get f item' = Js.obj_get f item).
Proof.
  intros Hr Hps Hid Hne Hdoc Hdne Hitem Hdocs Hall Hin Hhit.
  do 2 eexists. split; [now apply (removeDocument_run ev w ps jobId docId item docs doc)|].
  split; [reflexivity|]. split; [|split; [|split; [|split]]].
  - rewrite obj_get_set_ne by discriminate. apply obj_get_set_eq.
  - apply obj_get_set_eq.
  - intros d. unfold other_documents.
    rewrite !list_elem_of_In, filter_In, negb_true_iff. split.
    + intros [H1 H2]. split; [exact H1|]. intros H. apply strict_eq_str in H. congruence.
    + intros [H1 H2]. split; [exact H1|]. apply not_true_is_false. intros H.
      now apply strict_eq_str in H.
  - unfold other_documents. clear. induction docs as [|d docs IH]; [constructor|].
    cbn [List.filter]. destruct (negb _); [now constructor | now apply sublist_cons].
  - intros f H1 H2. now rewrite !obj_get_set_ne by congruence.
Qed.

Lemma remove_document_filters_witness :
  exists w1 item',
    removeDocument (Examples.request [("jobId", "j7"); ("docId", "d1")] "") Examples.one_job
    = (Ok (successResponse 200
             [("success", VBool true);
              ("message", VStr "Document removed");
              ("job", VObj item')]), w1)
    /\ casting w1 = <[KS "j7" := item']> (casting Examples.one_job)
    /\ Js.obj_get "documents" item'
       = Some (VArr (other_documents "d1"
                       [VObj [("id", VStr "d1"); ("url", VStr "x"); ("type", VStr "pdf")]]))
    /\ Js.obj_get "updatedAt" item'
       = Some (VStr (time_at Examples.one_job (S (ticks Examples.one_job))))
    /\ (forall d,
          d ∈ other_documents "d1"
                [VObj [("id", VStr "d1"); ("url", VStr "x"); ("type", VStr "pdf")]]
          <-> d ∈ [VObj [("id", VStr "d1"); ("url", VStr "x"); ("type", VStr "pdf")]]
              /\ Js.prop d "id" <> Some (VStr "d1"))
    /\ sublist (other_documents "d1"
                  [VObj [("id", VStr "d1"); ("url", VStr "x"); ("type", VStr "pdf")]])
               [VObj [("id", VStr "d1"); ("url", VStr "x"); ("type", VStr "pdf")]]
    /\ (forall f, f <> "documents" -> f <> "updatedAt" ->
                  Js.obj_get f item' = Js.obj_get f Examples.job7).
Proof.
  apply (remove_document_filters
           (Examples.request [("jobId", "j7"); ("docId", "d1")] "") Examples.one_job
           (list_to_map [("jobId", "j7"); ("docId", "d1")]) "j7" "d1" Examples.job7
           [VObj [("id", VStr "d1"); ("url", VStr "x"); ("type", VStr "pdf")]]
           (VObj [("id", VStr "d1"); ("url", VStr "x"); ("type", VStr "pdf")])).
  - intros n. reflexivity.
  - reflexivity.
  - reflexivity.
  - discriminate.
  - reflexivity.
  - discriminate.
  - reflexivity.
  - reflexivity.
  - repeat constructor; discriminate.
  - constructor.
  - reflexivity.
Defined.

(** X11: a document that addDocument has added can be removed again:
    addDocument answers 201 with an entry whose id comes from the uuid
    generator and appends it to the documents list; if no earlier
    entry carries that id, removeDocument with the id answers 200 and
    leaves exactly the documents that were there before. *)
Theorem added_document_can_be_removed
    (ev ev2 : event) (w : World) (ps ps2 : gmap string string) (jobId : string)
    (b url : value) (ty : string) (item : obj) (docs : list value) :
  reliable w ->
  pathParameters ev = Some ps -> ps !! "jobId" = Some jobId -> jobId <> "" ->
  JSON.parse (body_text ev) = Some b ->
  Js.prop b "url" = Some url -> Js.truthy url = true ->
  Js.prop b "type" = Some (VStr ty) -> ty ∈ validTypes ->
  casting w !! KS jobId = Some item ->
  Users.stored_list "documents" item = Some docs ->
  uuid_at w (S (ticks w)) <> "" ->
  Forall (fun d => d <> VNull /\ Js.prop d "id" <> Some (VStr (uuid_at w (S (ticks w))))) docs ->
  pathParameters ev2 = Some ps2 -> ps2 !! "jobId" = Some jobId ->
  ps2 !! "docId" = Some (uuid_at w (S (ticks w))) ->
  exists r1 w1 item1 r2 w2 item2,
    addDocument ev w = (Ok r1, w1) /\ statusCode r1 = 201%Z /\
    casting w1 !! KS jobId = Some item1 /\
    Js.obj_get "documents" item1
    = Some (VArr (docs ++ [VObj [("id", VStr (uuid_at w (S (ticks w))));
                                 ("url", url); ("type", VStr ty)]])) /\
    removeDocument ev2 w1 = (Ok r2, w2) /\ statusCode r2 = 200%Z /\
    casting w2 !! KS jobId = Some item2 /\
    Js.obj_get "documents" item2 = Some (VArr docs).
Proof.
  intros Hr Hps Hid Hne Hb Hu Htr Ht Hin Hitem Hdocs Huid Hall Hps2 Hid2 Hdoc2.
  set (id := uuid_at w (S (ticks w))) in *.
  set (entry := [("id", VStr id); ("url", url); ("type", VStr ty)]).
  pose proof (addDocument_run ev w ps jobId b url ty item docs
                Hr Hps Hid Hne Hb Hu Htr Ht Hin Hitem Hdocs) as Hadd.
  cbv zeta in Hadd. fold id in Hadd. fold entry in Hadd.
  set (item1 := Users.appended "documents" entry _ docs item) in Hadd.
  set (w1 := set_rows CASTING_TABLE _ _) in Hadd.
  assert (Hr1 : reliable w1)
    by (apply reliable_set_rows; now repeat apply reliable_advance).
  assert (Hitem1 : casting w1 !! KS jobId = Some item1) by apply lookup_insert_eq.
  assert (Hdocs1 : Js.obj_get "documents" item1 = Some (VArr (docs ++ [VObj entry])))
    by (apply obj_get_appended; discriminate).
  assert (Hkept : other_documents id (docs ++ [VObj entry]) = docs).
  { rewrite other_documents_app, other_documents_all.
    - unfold other_documents. cbn [List.filter Js.prop Js.obj_get entry].
      destruct (decide ("id" = "id")); [|contradiction].
      cbn [Js.strict_eq]. rewrite bool_decide_eq_true_2 by reflexivity.
      apply app_nil_r.
    - eapply Forall_impl; [exact Hall|]. now intros d [_ H]. }
  pose proof (removeDocument_run ev2 w1 ps2 jobId id item1 (docs ++ [VObj entry])
                (VObj entry) Hr1 Hps2 Hid2 Hne Hdoc2 Huid Hitem1 Hdocs1) as Hrem.
  cbv zeta in Hrem. rewrite Hkept in Hrem.
  do 6 eexists. split; [exact Hadd|]. split; [reflexivity|].
  split; [exact Hitem1|]. split; [exact Hdocs1|].
  split; [apply Hrem|].
  - apply Forall_app. split; [|repeat constructor; discriminate].
    eapply Forall_impl; [exact Hall|]. now intros d [H _].
  - apply elem_of_app. right. constructor.
  - reflexivity.
  - split; [reflexivity|]. split; [apply lookup_insert_eq|].
    rewrite obj_get_set_ne by discriminate. apply obj_get_set_eq.
Qed.

Lemma added_document_can_be_removed_witness :
  exists r1 w1 item1 r2 w2 item2,
    addDocument (Examples.request [("jobId", "j7")] Examples.script) Examples.one_job
    = (Ok r1, w1) /\ statusCode r1 = 201%Z /\
    casting w1 !! KS "j7" = Some item1 /\
    Js.obj_get "documents" item1
    = Some (VArr ([VObj [("id", VStr "d1"); ("url", VStr "x"); ("type", VStr "pdf")]]
                  ++ [VObj [("id", VStr (uuid_at Examples.one_job 1));
                            ("url", VStr "s3://script"); ("type", VStr "script")]])) /\
    removeDocument (Examples.request [("jobId", "j7"); ("docId", "uuid-1")] "") w1
    = (Ok r2, w2) /\ statusCode r2 = 200%Z /\
    casting w2 !! KS "j7" = Some item2 /\
    Js.obj_get "documents" item2
    = Some (VArr [VObj [("id", VStr "d1"); ("url", VStr "x"); ("type", VStr "pdf")]]).
Proof.
  apply (added_document_can_be_removed
           (Examples.request [("jobId", "j7")] Examples.script)
           (Examples.request [("jobId", "j7"); ("docId", "uuid-1")] "")
           Examples.one_job
           (list_to_map [("jobId", "j7")])
           (list_to_map [("jobId", "j7"); ("docId", "uuid-1")]) "j7"
           (VObj [("url", VStr "s3://script"); ("type", VStr "script")])
           (VStr "s3://script") "script" Examples.job7
           [VObj [("id", VStr "d1"); ("url", VStr "x"); ("type", VStr "pdf")]]).
  - intros n. reflexivity.
  - reflexivity.
  - reflexivity.
  - discriminate.
  - vm_compute. reflexivity.
  - reflexivity.
  - reflexivity.
  - reflexivity.
  - apply (bool_decide_unpack _). vm_compute. exact I.
  - reflexivity.
  - reflexivity.
  - vm_compute. discriminate.
  - repeat constructor; vm_compute; discriminate.
  - reflexivity.
  - reflexivity.
  - vm_compute. reflexivity.
Defined.
End DocumentExtras.

Module ApplicationFacts.
Import Runtime Http Casting RuntimeFacts DynamoFacts JsFacts HttpFacts UpdateFacts
  CastingClaims InversionFacts AppendClaims.
Local Open Scope list_scope.

Lemma strict_eq_other (x : option value) (uid : string) :
  x <> Some (VStr uid) -> Js.strict_eq x (Some (VStr uid)) = false.
Proof. intros H. apply not_true_is_false. intros E. now apply strict_eq_str in E. Qed.

Lemma findIndex_found (uid : string) (pre post : list value) (entry : obj) (w : World) :
  Forall (fun x => x <> VNull /\ Js.prop x "userId" <> Some (VStr uid)) pre ->
  Js.obj_get "userId" entry = Some (VStr uid) ->
  findIndex (Some (VStr uid)) (pre ++ VObj entry :: post) w = (Ok (Some (length pre)), w).
Proof.
  intros Hpre Happ. induction Hpre as [|x pre [Hx Hne] _ IH]; cbn [findIndex List.app length].
  - cbn [Js.prop]. rewrite Happ. cbn [Js.strict_eq].
    now rewrite bool_decide_eq_true_2.
  - rewrite (strict_eq_other _ uid Hne).
    destruct x; try contradiction; (erewrite bind_run by exact IH; reflexivity).
Qed.

Lemma findIndex_none (uid : string) (xs : list value) (w : World) :
  Forall (fun x => x <> VNull /\ Js.prop x "userId" <> Some (VStr uid)) xs ->
  findIndex (Some (VStr uid)) xs w = (Ok None, w).
Proof.
  induction 1 as [|x xs [Hx Hne] _ IH]; cbn [findIndex]; [reflexivity|].
  rewrite (strict_eq_other _ uid Hne).
  destruct x; try contradiction; (erewrite bind_run by exact IH; reflexivity).
Qed.

Lemma alter_middle {A} (f : A -> A) (pre post : list A) (x : A) :
  alter f (length pre) (pre ++ x :: post) = pre ++ f x :: post.
Proof. induction pre as [|y pre IH]; [reflexivity|]. cbn. now f_equal. Qed.

Lemma updateApplicationStatus_run (ev : event) (w : World) (ps : gmap string string)
    (jobId uid : string) (b s : value) (text : string) (item : obj)
    (pre post : list value) (entry : obj) :
  reliable w ->
  pathParameters ev = Some ps ->
  ps !! "jobId" = Some jobId -> jobId <> "" -> ps !! "userId" = Some uid -> uid <> "" ->
  JSON.parse (body_text ev) = Some b ->
  Js.prop b "status" = Some s -> to_string s = Some text ->
  parseInt10 text = Some 1%Z \/ parseInt10 text = Some 2%Z ->
  casting w !! KS jobId = Some item ->
  Js.obj_get "appliedBy" item = Some (VArr (pre ++ VObj entry :: post)) ->
  Forall (fun x => x <> VNull /\ Js.prop x "userId" <> Some (VStr uid)) pre ->
  Js.obj_get "userId" entry = Some (VStr uid) ->
  let item' := Js.obj_set "updatedAt" (VStr (time_at w (S (ticks w))))
                 (Js.obj_set "appliedBy"
                    (VArr (pre ++ VObj (Js.obj_set "status" s entry) :: post)) item) in
  updateApplicationStatus ev w
  = (Ok (successResponse 200
           [("success", VBool true);
            ("message", VStr "Application status updated");
            ("job", VObj item')]),
     set_rows CASTING_TABLE (<[KS jobId := item']> (casting w))
       (advance (advance (advance w)))).
Proof.
  intros Hr Hps Hid Hne Huid Hune Hb Hs Htext Hparse Hitem Happs Hpre Happ item'.
  assert (Hnn : b <> VNull) by (intros ->; discriminate Hs).
  unfold updateApplicationStatus. apply try_catch_ok.
  erewrite bind_run by (apply path_parameter_run; exact Hps). rewrite Hid.
  erewrite bind_run by (apply path_parameter_run; exact Hps). rewrite Huid.
  erewrite bind_run by (apply parse_body_run; exact Hb).
  erewrite bind_run by (destruct b; [contradiction | reflexivity ..]).
  cbv zeta. rewrite !present_some by assumption. cbn [negb orb].
  rewrite Hs.
  erewrite bind_run by (unfold to_string_opt; rewrite Htext; reflexivity).
  replace (bool_decide (parseInt10 text ∈ [Some 1%Z; Some 2%Z])) with true.
  2:{ symmetry. apply bool_decide_eq_true_2.
      destruct Hparse as [-> | ->]; [constructor | constructor; constructor]. }
  cbn [negb].
  erewrite bind_run by (apply (get_run CASTING_TABLE); [exact Hr | reflexivity | exact Hne]).
  cbn [rows]. rewrite Hitem, Happs. cbn [Js.or_default Js.truthy].
  cbn [str fmap option_fmap option_map].
  erewrite bind_run by (now apply findIndex_found).
  cbv beta iota. rewrite alter_middle. cbn [set_status].
  erewrite bind_run by reflexivity.
  erewrite bind_run.
  2:{ apply (update_run CASTING_TABLE jobId _ _ item).
      - now repeat apply reliable_advance.
      - reflexivity.
      - exact Hne.
      - apply (bool_decide_unpack _). vm_compute. exact I.
      - apply (bool_decide_unpack _). vm_compute. exact I.
      - exact Hitem.
      - reflexivity.
      - reflexivity. }
  reflexivity.
Qed.


Lemma scan_all_run (t : table) (c : Dynamo.cond) (w : World) :
  reliable w ->
  Dynamo.scan t None None (Some c) w
  = (Ok {| Dynamo.Items :=
             map snd (List.filter (fun kv => Dynamo.holds c (snd kv))
                        (map_to_list (rows t w)));
           Dynamo.LastEvaluatedKey := None |}, advance w).
Proof.
  intros Hr. unfold Dynamo.scan. rewrite request_run by exact Hr.
  cbv zeta. unfold Dynamo.scan_order. now rewrite rows_advance.
Qed.

Lemma contains_string_fails (job : obj) (uid : string) (xs : list value) :
  Users.stored_list "appliedBy" job = Some xs ->
  Forall (fun x => exists o, x = VObj o) xs ->
  Dynamo.holds (Dynamo.Contains ["appliedBy"] (VStr uid)) job = false.
Proof.
  intros Hxs Hall. unfold Users.stored_list in Hxs.
  cbn [Dynamo.holds Dynamo.at_path Js.prop].
  destruct (Js.obj_get "appliedBy" job) as [[ | | | |ys| ]|]; try discriminate Hxs;
    [|reflexivity].
  injection Hxs as ->. induction Hall as [|x xs [o ->] _ IH]; [reflexivity|].
  cbn [existsb]. rewrite IH. reflexivity.
Qed.
End ApplicationFacts.

Module ApplicationExtras.
Import Runtime Http Casting RuntimeFacts DynamoFacts JsFacts HttpFacts CastingClaims
  InversionFacts AppendClaims ApplicationFacts.
Local Open Scope list_scope.

(** X12: updateApplicationStatus sets the status of the first
    application of the user and of no other: when the status of the
    body reads as 1 or 2 and the appliedBy list of the job holds an
    entry with the user id of the path, the answer is 200 and the
    stored list is the old one with the status of the body, as the
    body gives it, on the first such entry. *)
Theorem application_status_is_set (ev : event) (w : World) (ps : gmap string string)
    (jobId uid : string) (b s : value) (text : string) (item : obj)
    (pre post : list value) (entry : obj) :
  reliable w ->
  pathParameters ev = Some ps ->
  ps !! "jobId" = Some jobId -> jobId <> "" -> ps !! "userId" = Some uid -> uid <> "" ->
  JSON.parse (body_text ev) = Some b ->
  Js.prop b "status" = Some s -> to_string s = Some text ->
  parseInt10 text = Some 1%Z \/ parseInt10 text = Some 2%Z ->
  casting w !! KS jobId = Some item ->
  Js.obj_get "appliedBy" item = Some (VArr (pre ++ VObj entry :: post)) ->
  Forall (fun x => x <> VNull /\ Js.prop x "userId" <> Some (VStr uid)) pre ->
  Js.obj_get "userId" entry = Some (VStr uid) ->
  exists w1 item',
    updateApplicationStatus ev w
    = (Ok (successResponse 200
             [("success", VBool true);
              ("message", VStr "Application status updated");
              ("job", VObj item')]), w1)
    /\ casting w1 = <[KS jobId := item']> (casting w)
    /\ Js.obj_get "appliedBy" item'
       = Some (VArr (pre ++ VObj (Js.obj_set "status" s entry) :: post))
    /\ Js.obj_get "status" (Js.obj_set "status" s entry) = Some s.
Proof.
  intros Hr Hps Hid Hne Huid Hune Hb Hs Htext Hparse Hitem Happs Hpre Happ.
  do 2 eexists. split.
  - now apply (updateApplicationStatus_run ev w ps jobId uid b s text item pre post entry).
  - split; [reflexivity|]. split; [|apply obj_get_set_eq].
    rewrite obj_get_set_ne by discriminate. apply obj_get_set_eq.
Qed.

Lemma application_status_is_set_witness :
  exists w1 item',
    updateApplicationStatus
      (Examples.request [("jobId", "j7"); ("userId", "u1")] DocumentDefs.shortlist)
      Examples.one_job
    = (Ok (successResponse 200
             [("success", VBool true);
              ("message", VStr "Application status updated");
              ("job", VObj item')]), w1)
    /\ casting w1 = <[KS "j7" := item']> (casting Examples.one_job)
    /\ Js.obj_get "appliedBy" item'
       = Some (VArr ([] ++ VObj (Js.obj_set "status" (VNum 2)
                                   [("userId", VStr "u1"); ("appId", VStr "a1");
                                    ("avatarUrl", VStr "")]) :: []))
    /\ Js.obj_get "status"
         (Js.obj_set "status" (VNum 2)
            [("userId", VStr "u1"); ("appId", VStr "a1"); ("avatarUrl", VStr "")])
       = Some (VNum 2).
Proof.
  apply (application_status_is_set
           (Examples.request [("jobId", "j7"); ("userId", "u1")] DocumentDefs.shortlist)
           Examples.one_job (list_to_map [("jobId", "j7"); ("userId", "u1")])
           "j7" "u1" (VObj [("status", VNum 2)]) (VNum 2) "2" Examples.job7 [] []
           [("userId", VStr "u1"); ("appId", VStr "a1"); ("avatarUrl", VStr "")]).
  - intros n. reflexivity.
  - reflexivity.
  - reflexivity.
  - discriminate.
  - reflexivity.
  - discriminate.
  - vm_compute. reflexivity.
  - reflexivity.
  - reflexivity.
  - right. reflexivity.
  - reflexivity.
  - reflexivity.
  - constructor.
  - reflexivity.
Defined.



(** X14: getUserApplications finds no application that applyForJob
    has stored: its scan asks for jobs whose appliedBy list contains
    the user id itself, and a list of application objects contains no
    string; whenever every stored appliedBy list is absent or holds
    objects only, the answer is 200 with no applications and count 0,
    whoever has applied. *)
Theorem user_applications_come_back_empty (ev : event) (w : World)
    (ps : gmap string string) (uid : string) :
  reliable w -> pathParameters ev = Some ps -> ps !! "userId" = Some uid -> uid <> "" ->
  (forall k job, casting w !! k = Some job ->
     exists xs, Users.stored_list "appliedBy" job = Some xs
                /\ Forall (fun x => exists o, x = VObj o) xs) ->
  getUserApplications ev w
  = (Ok (successResponse 200
           [("success", VBool true);
            ("userId", VStr uid);
            ("applications", VArr []);
            ("count", VNum 0)]), advance w).
Proof.
  intros Hr Hps Hid Hne Hjobs. unfold getUserApplications. apply try_catch_ok.
  erewrite bind_run by (apply path_parameter_run; exact Hps).
  rewrite Hid, present_some by exact Hne. cbn [negb str fmap option_fmap option_map].
  erewrite bind_run by (apply scan_all_run; exact Hr).
  cbn [default from_option id Dynamo.Items].
  rewrite filter_none.
  - reflexivity.
  - intros [k job] Hin. apply elem_of_map_to_list in Hin. cbn [snd].
    destruct (Hjobs k job Hin) as (xs & Hxs & Hall).
    now apply (contains_string_fails job uid xs).
Qed.

Lemma user_applications_come_back_empty_witness :
  Js.obj_get "appliedBy" Examples.job7
  = Some (VArr [VObj [("userId", VStr "u1"); ("appId", VStr "a1"); ("avatarUrl", VStr "")]])
  /\ getUserApplications (Examples.request [("userId", "u1")] "") Examples.one_job
     = (Ok (successResponse 200
              [("success", VBool true);
               ("userId", VStr "u1");
               ("applications", VArr []);
               ("count", VNum 0)]), advance Examples.one_job).
Proof.
  split; [reflexivity|].
  apply (user_applications_come_back_empty
           (Examples.request [("userId", "u1")] "") Examples.one_job
           (list_to_map [("userId", "u1")]) "u1").
  - intros n. reflexivity.
  - reflexivity.
  - reflexivity.
  - discriminate.
  - intros k job H. change (casting Examples.one_job) with
      ({[ KS "j7" := Examples.job7 ]} : gmap scalar obj) in H.
    apply lookup_singleton_Some in H as [_ <-].
    eexists. split; [reflexivity|]. repeat constructor. eexists. reflexivity.
Defined.
End ApplicationExtras.

Module PageFacts.
Import Runtime Http Users RuntimeFacts DynamoFacts JsFacts HttpFacts JsonFacts TokenClaims
  PageDefs.
Local Open Scope list_scope.

Lemma after_key_split (k : scalar) (pre rest : list (scalar * obj)) (it : obj) :
  k ∉ map fst pre -> Dynamo.after_key k (pre ++ (k, it) :: rest) = rest.
Proof.
  induction pre as [|[k' it'] pre IH]; intros Hk; cbn [Dynamo.after_key List.app].
  - destruct (decide (k = k)); [reflexivity | contradiction].
  - cbn [map fst] in Hk. apply not_elem_of_cons in Hk as [Hne Hk].
    destruct (decide (k = k')); [contradiction | now apply IH].
Qed.

Lemma scan_page_run (n : Z) (start : option value) (l : list (scalar * obj)) (w : World) :
  reliable w -> (1 <= n)%Z ->
  match start with
  | None => Some (Dynamo.scan_order USERS_TABLE w)
  | Some v => (fun k => Dynamo.after_key k (Dynamo.scan_order USERS_TABLE w))
                <$> Dynamo.start_key USERS_TABLE v
  end = Some l ->
  Dynamo.scan USERS_TABLE (Some n) start None w
  = (Ok {| Dynamo.Items := map snd (take (Z.to_nat n) l);
           Dynamo.LastEvaluatedKey :=
             if decide (length (take (Z.to_nat n) l) = Z.to_nat n)
             then Dynamo.last_key USERS_TABLE (take (Z.to_nat n) l) else None |},
     advance w).
Proof.
  intros Hr Hn Hl. unfold Dynamo.scan. rewrite request_run by exact Hr. cbv zeta.
  unfold Dynamo.scan_order in *. rewrite rows_advance.
  destruct start as [v|].
  - rewrite Hl. replace (n <? 1)%Z with false by (symmetry; apply Z.ltb_ge; lia).
    reflexivity.
  - injection Hl as <-. replace (n <? 1)%Z with false by (symmetry; apply Z.ltb_ge; lia).
    reflexivity.
Qed.

Lemma wf_user_key (k : string) :
  Text.well_formed k -> JSON.wf_value (VObj [("userId", VStr k)]).
Proof.
  intros Hk. constructor; [apply NoDup_singleton|].
  constructor; [|constructor]. split; [reflexivity|]. now constructor.
Qed.

Lemma exclusive_start_key_run (k : string) (w : World) :
  Text.well_formed k ->
  exclusive_start_key (Some (encode_key [("userId", VStr k)])) w
  = (Ok (Some (VObj [("userId", VStr k)])), w).
Proof.
  intros Hk. unfold exclusive_start_key, present.
  rewrite (bool_decide_eq_false_2 _ (encode_key_nonempty _)).
  cbn [negb default from_option id].
  now rewrite decode_encode_key by now apply wf_user_key.
Qed.

(** The page that follows a key. *)
Lemma listUsers_after (ev : event) (w : World) (n : Z) (k : string)
    (pre rest : list (scalar * obj)) (it : obj) :
  reliable w -> page_limit ev = Some n -> (1 <= n)%Z ->
  query_parameter ev "lastKey" = Some (encode_key [("userId", VStr k)]) ->
  k <> "" -> Text.well_formed k ->
  map_to_list (users w) = pre ++ (KS k, it) :: rest ->
  listUsers ev w
  = (Ok (users_page (bool_decide (length (take (Z.to_nat n) rest) = Z.to_nat n))
           (take (Z.to_nat n) rest)), advance w).
Proof.
  intros Hr Hlimit Hn Hkey Hne Hwf Hall. unfold listUsers. apply try_catch_ok.
  rewrite Hkey, Hlimit.
  erewrite bind_run by (now apply exclusive_start_key_run).
  erewrite bind_run.
  2:{ apply (scan_page_run n _ rest); [exact Hr | exact Hn |].
      cbn [Dynamo.start_key Dynamo.hash_key Dynamo.hash_type Dynamo.to_key].
      destruct (decide ("userId" = "userId")); [|contradiction].
      destruct (decide (k = "")); [contradiction|].
      cbn [fmap option_fmap option_map]. f_equal.
      unfold Dynamo.scan_order. cbn [rows]. rewrite Hall.
      apply after_key_split.
      pose proof (NoDup_fst_map_to_list (users w)) as Hnd.
      rewrite Hall, fmap_app in Hnd. apply NoDup_app in Hnd as (_ & Hnd & _).
      intros Hin. apply (Hnd _ Hin). cbn. constructor. }
  cbn [Dynamo.Items Dynamo.LastEvaluatedKey]. unfold users_page, next_key.
  destruct (decide (length (take (Z.to_nat n) rest) = Z.to_nat n)) as [E|E].
  - rewrite (bool_decide_eq_true_2 _ E). reflexivity.
  - rewrite (bool_decide_eq_false_2 _ E). reflexivity.
Qed.

(** The first page. *)
Lemma listUsers_first (ev : event) (w : World) (n : Z) :
  reliable w -> page_limit ev = Some n -> (1 <= n)%Z ->
  query_parameter ev "lastKey" = None ->
  listUsers ev w
  = (Ok (users_page (bool_decide (length (take (Z.to_nat n) (map_to_list (users w)))
                                  = Z.to_nat n))
           (take (Z.to_nat n) (map_to_list (users w)))), advance w).
Proof.
  intros Hr Hlimit Hn Hkey. unfold listUsers. apply try_catch_ok.
  rewrite Hkey, Hlimit.
  erewrite bind_run by reflexivity.
  erewrite bind_run by (apply (scan_page_run n None); [exact Hr | exact Hn | reflexivity]).
  cbn [Dynamo.Items Dynamo.LastEvaluatedKey]. unfold users_page, next_key.
  unfold Dynamo.scan_order. cbn [rows].
  destruct (decide (length (take (Z.to_nat n) (map_to_list (users w))) = Z.to_nat n))
    as [E|E].
  - rewrite (bool_decide_eq_true_2 _ E). reflexivity.
  - rewrite (bool_decide_eq_false_2 _ E). reflexivity.
Qed.

Lemma full_page_ends (w : World) (read : list (scalar * obj)) (p : nat) :
  text_keys w -> (1 <= p)%nat -> length read = p ->
  (forall x, x ∈ read -> x ∈ map_to_list (users w)) ->
  exists pre s it,
    read = pre ++ [(KS s, it)] /\ s <> "" /\ Text.well_formed s /\
    next_key USERS_TABLE true read = VStr (encode_key [("userId", VStr s)]).
Proof.
  intros Hkeys Hp Hlen Hsub.
  destruct (last read) as [[k it]|] eqn:Hlast.
  - pose proof Hlast as Hl. apply last_Some in Hl as [pre ->].
    assert (Hin : (k, it) ∈ map_to_list (users w)).
    { apply Hsub, elem_of_app. right. constructor. }
    apply elem_of_map_to_list in Hin.
    destruct (Hkeys k it Hin) as (s & -> & Hs & Hwf).
    exists pre, s, it. repeat split; try assumption.
    unfold next_key, Dynamo.last_key. rewrite Hlast. reflexivity.
  - apply last_None in Hlast. subst read. cbn in Hlen. lia.
Qed.
End PageFacts.

Module PageExtras.
Import Runtime Http Users RuntimeFacts PageDefs PageFacts.
Local Open Scope list_scope.

(** X15: the pages of listUsers partition the table in scan order.
    Without a lastKey the answer holds the first n records of the
    scan; a full page that ends m + n records into the scan carries a
    lastKey, and a request that passes this lastKey back is answered
    with the n records that follow, none repeated and none left out
    (the table unchanged in between, its keys being non-empty
    texts). *)
Theorem next_page_follows_last_key (w : World) (n : Z) (m : nat) :
  reliable w -> text_keys w -> (1 <= n)%Z ->
  (forall ev, page_limit ev = Some n -> query_parameter ev "lastKey" = None ->
     listUsers ev w
     = (Ok (users_page
              (bool_decide (length (take (Z.to_nat n) (map_to_list (users w))) = Z.to_nat n))
              (take (Z.to_nat n) (map_to_list (users w)))), advance w))
  /\
  (length (take (Z.to_nat n) (drop m (map_to_list (users w)))) = Z.to_nat n ->
   exists tok,
     next_key USERS_TABLE true (take (Z.to_nat n) (drop m (map_to_list (users w))))
     = VStr tok
     /\ forall ev w',
          reliable w' -> users w' = users w ->
          page_limit ev = Some n -> query_parameter ev "lastKey" = Some tok ->
          listUsers ev w'
          = (Ok (users_page
                   (bool_decide
                      (length (take (Z.to_nat n)
                                 (drop (m + Z.to_nat n) (map_to_list (users w))))
                       = Z.to_nat n))
                   (take (Z.to_nat n) (drop (m + Z.to_nat n) (map_to_list (users w))))),
             advance w')).
Proof.
  intros Hr Hkeys Hn. split.
  - intros ev Hlimit Hkey. now apply listUsers_first.
  - intros Hfull.
    set (all := map_to_list (users w)) in *. set (p := Z.to_nat n) in *.
    destruct (full_page_ends w (take p (drop m all)) p Hkeys ltac:(lia) Hfull)
      as (pre & s & it & Hread & Hs & Hwf & Hnext).
    { intros x Hx. apply elem_of_take in Hx as (i & Hx & _).
      rewrite lookup_drop in Hx. eapply list_elem_of_lookup_2. exact Hx. }
    exists (encode_key [("userId", VStr s)]). split; [exact Hnext|].
    intros ev w' Hr' Husers Hlimit Hkey.
    apply (listUsers_after ev w' n s (take m all ++ pre) _ it);
      try assumption.
    rewrite Husers. fold all.
    rewrite <- (take_drop m all) at 1.
    rewrite <- (take_drop p (drop m all)), Hread, drop_drop.
    now rewrite <- !app_assoc.
Qed.

Lemma two_users_text_keys : text_keys Samples.two_users.
Proof.
  intros k item H. unfold Samples.two_users, Examples.with_users in H.
  cbn [users set_rows] in H.
  apply lookup_insert_Some in H as [[<- <-]|[_ H]];
    [|apply lookup_singleton_Some in H as [<- <-]];
    eexists; (split; [reflexivity | split; [discriminate | reflexivity]]).
Qed.

Lemma next_page_follows_last_key_witness :
  (forall ev, page_limit ev = Some 1%Z -> query_parameter ev "lastKey" = None ->
     listUsers ev Samples.two_users
     = (Ok (users_page
              (bool_decide
                 (length (take (Z.to_nat 1) (map_to_list (users Samples.two_users)))
                  = Z.to_nat 1))
              (take (Z.to_nat 1) (map_to_list (users Samples.two_users)))),
        advance Samples.two_users))
  /\
  exists tok,
    next_key USERS_TABLE true
      (take (Z.to_nat 1) (drop 0 (map_to_list (users Samples.two_users))))
    = VStr tok
    /\ forall ev w',
         reliable w' -> users w' = users Samples.two_users ->
         page_limit ev = Some 1%Z -> query_parameter ev "lastKey" = Some tok ->
         listUsers ev w'
         = (Ok (users_page
                  (bool_decide
                     (length (take (Z.to_nat 1)
                                (drop (0 + Z.to_nat 1)
                                   (map_to_list (users Samples.two_users))))
                      = Z.to_nat 1))
                  (take (Z.to_nat 1)
                     (drop (0 + Z.to_nat 1) (map_to_list (users Samples.two_users))))),
            advance w').
Proof.
  destruct (next_page_follows_last_key Samples.two_users 1 0) as [A B].
  - intros n. reflexivity.
  - exact two_users_text_keys.
  - lia.
  - split; [exact A|]. apply B. vm_compute. reflexivity.
Defined.
End PageExtras.

Module TaskFacts.
Import Runtime Http Tasks RuntimeFacts DynamoFacts JsFacts HttpFacts.
Local Open Scope list_scope.

Lemma parse_raw_run (ev : event) (data : value) (w : World) :
  JSON.parse (default "null" (body ev)) = Some data -> parse_raw ev w = (Ok data, w).
Proof. intros H. unfold parse_raw. now rewrite H. Qed.

Lemma caught_answers {A} (m : M A) (h : error -> A) (w : World) :
  exists a w', try_catch m (fun err => ret (h err)) w = (Ok a, w').
Proof. unfold try_catch. destruct (m w) as [[a|e] w']; eauto. Qed.

Lemma put_task_run (item : obj) (n : Z) (w : World) :
  reliable w -> Js.obj_get "id" item = Some (VNum n) ->
  Dynamo.put_new TASKS_TABLE item w
  = match tasks w !! KN n with
    | Some _ => (Throw Dynamo.ConditionalCheckFailedException, advance w)
    | None => (Ok tt, set_rows TASKS_TABLE (<[KN n := item]> (tasks w)) (advance w))
    end.
Proof.
  intros Hr Hid. unfold Dynamo.put_new. rewrite request_run by exact Hr.
  cbn [Dynamo.hash_key Dynamo.hash_type]. rewrite Hid. cbn [Dynamo.to_key].
  cbn [Dynamo.index_keys_ok Dynamo.index_keys forallb negb rows advance tasks].
  now destruct (tasks w !! KN n).
Qed.

Lemma update_task_run (n : Z) (t d : value) (w : World) :
  reliable w ->
  Dynamo.update TASKS_TABLE (Some (VNum n))
    [("title", Dynamo.Val t); ("description", Dynamo.Val d)] true w
  = match tasks w !! KN n with
    | Some old =>
        let item := Js.obj_set "description" d (Js.obj_set "title" t old) in
        (Ok item, set_rows TASKS_TABLE (<[KN n := item]> (tasks w)) (advance w))
    | None => (Throw Dynamo.ConditionalCheckFailedException, advance w)
    end.
Proof.
  intros Hr. unfold Dynamo.update. rewrite request_run by exact Hr.
  cbn [Dynamo.hash_key Dynamo.hash_type Dynamo.to_key].
  replace (negb (bool_decide (NoDup (map fst [("title", Dynamo.Val t);
                                                ("description", Dynamo.Val d)])))
           || bool_decide ("id" ∈ map fst [("title", Dynamo.Val t);
                                           ("description", Dynamo.Val d)])) with false.
  2:{ symmetry. apply orb_false_iff. split.
      - apply negb_false_iff, bool_decide_eq_true_2.
        apply (bool_decide_unpack _). vm_compute. exact I.
      - apply bool_decide_eq_false_2. apply (bool_decide_unpack _). vm_compute. exact I. }
  cbv zeta. cbn [rows advance tasks].
  destruct (tasks w !! KN n) as [old|]; reflexivity.
Qed.

Lemma parse_body_raw (ev : event) (text : string) (data : value) (w : World) :
  body ev = Some text -> JSON.parse text = Some data -> parse_raw ev w = (Ok data, w).
Proof. intros Hb H. apply parse_raw_run. rewrite Hb. exact H. Qed.

Lemma unopened_parse (text : string) :
  TaskDefs.unopened text = true -> JSON.parse text = None.
Proof.
  unfold TaskDefs.unopened, JSON.parse. cbn [JSON.parse_value].
  destruct (JSON.skip_ws text) as [|c rest]; [reflexivity|].
  unfold TaskDefs.json_start. rewrite negb_true_iff, !orb_false_iff.
  intros [[[[[[[Hn Ht] Hf] Hq] Ha] Ho] Hm] Hd].
  rewrite Hn, Ht, Hf, Hq, Ha, Ho.
  unfold JSON.parse_number. rewrite Hm.
  unfold JSON.parse_natural. cbn [JSON.span_digits]. rewrite Hd. reflexivity.
Qed.

Lemma obj_get_task (n : Z) (title description : option value) (f : string) :
  Js.obj_get f (literal [("id", Some (VNum n)); ("title", title);
                         ("description", description)])
  = if decide (f = "id") then Some (VNum n)
    else if decide (f = "title") then title
    else if decide (f = "description") then description
    else None.
Proof.
  destruct title, description; cbn [literal Js.obj_get];
    repeat (destruct (decide _); subst; try congruence; try discriminate).
Qed.
End TaskFacts.

Module TaskExtras.
Import Runtime Http Tasks RuntimeFacts DynamoFacts JsFacts HttpFacts TaskDefs TaskFacts.
Local Open Scope list_scope.

(** X16: the task handlers parse the body before their try block.  A
    body that begins no JSON value (nothing but white space, or a
    first character that no value begins with) ends createTask and
    updateTask in an exception, with no response and nothing asked of
    the datastore; for a body that parses they always answer, as
    getTasks does for every request. *)
Theorem task_handlers_throw_on_bad_json (ev : event) (w : World) (text : string) :
  body ev = Some text ->
  (unopened text = true ->
   (exists e, createTask ev w = (Throw e, w))
   /\ (exists e, updateTask ev w = (Throw e, w)))
  /\ (forall data, JSON.parse text = Some data ->
      (exists r w', createTask ev w = (Ok r, w'))
      /\ (exists r w', updateTask ev w = (Ok r, w')))
  /\ exists r w', getTasks ev w = (Ok r, w').
Proof.
  intros Hb. split; [|split].
  - intros Hu. apply unopened_parse in Hu.
    assert (Hraw : parse_raw ev w = (Throw (SyntaxError "Unexpected token in JSON"), w)).
    { unfold parse_raw. rewrite Hb. cbn [default from_option id]. now rewrite Hu. }
    split; eexists.
    + unfold createTask. apply bind_throw. exact Hraw.
    + unfold updateTask. cbv zeta. apply bind_throw. exact Hraw.
  - intros data Hdata. split.
    + unfold createTask.
      erewrite bind_run by (eapply parse_body_raw; eassumption).
      apply caught_answers.
    + unfold updateTask. cbv zeta.
      erewrite bind_run by (eapply parse_body_raw; eassumption).
      apply caught_answers.
  - unfold getTasks. apply caught_answers.
Qed.

Lemma task_handlers_throw_on_bad_json_witness :
  (exists e, createTask (Examples.request [] "oops") Examples.quiet
             = (Throw e, Examples.quiet))
  /\ (exists e, updateTask (Examples.request [] "oops") Examples.quiet
                = (Throw e, Examples.quiet)).
Proof.
  apply (proj1 (task_handlers_throw_on_bad_json (Examples.request [] "oops")
                  Examples.quiet "oops" eq_refl)).
  reflexivity.
Defined.

(** X17: createTask never overwrites a task.  For a JSON body whose id
    is an integer that a double holds exactly: when no task has that
    id, the answer is 200 and the table gains one record under that
    id, which holds the id and nothing besides title and description,
    a title or description that is a string being stored as given;
    when a task has that id, the answer is 500 and the table is
    unchanged. *)
Theorem createTask_never_overwrites (ev : event) (w : World) (text : string)
    (data : value) (n : Z) :
  reliable w ->
  body ev = Some text -> JSON.parse text = Some data ->
  Js.prop data "id" = Some (VNum n) -> safe n ->
  (tasks w !! KN n = None ->
   exists r w1 record,
     createTask ev w = (Ok r, w1) /\ statusCode r = 200%Z
     /\ tasks w1 = <[KN n := record]> (tasks w)
     /\ Js.obj_get "id" record = Some (VNum n)
     /\ (forall f, Js.obj_get f record <> None -> f ∈ ["id"; "title"; "description"])
     /\ (forall f s, f ∈ ["title"; "description"] ->
           Js.prop data f = Some (VStr s) -> Text.well_formed s ->
           Js.obj_get f record = Some (VStr s)))
  /\
  (forall old, tasks w !! KN n = Some old ->
   exists r w1, createTask ev w = (Ok r, w1) /\ statusCode r = 500%Z /\ tasks w1 = tasks w).
Proof.
  intros Hr Hb Hdata Hid _.
  assert (Hnn : data <> VNull) by (intros ->; discriminate Hid).
  split.
  - intros Hnone. do 3 eexists. split; [|split; [|split; [|split; [|split]]]].
    + unfold createTask.
      erewrite bind_run by (eapply parse_body_raw; eassumption).
      apply try_catch_ok.
      erewrite bind_run by (apply member_run; exact Hnn).
      rewrite Hid.
      erewrite bind_run.
      2:{ rewrite (put_task_run _ n) by (exact Hr || (rewrite obj_get_task; reflexivity)).
          rewrite Hnone. reflexivity. }
      reflexivity.
    + reflexivity.
    + reflexivity.
    + rewrite obj_get_task. reflexivity.
    + intros f. rewrite obj_get_task.
      repeat (destruct (decide _) as [->|?]); intros H;
        [ apply list_elem_of_here
        | apply list_elem_of_further, list_elem_of_here
        | do 2 apply list_elem_of_further; apply list_elem_of_here
        | contradiction ].
    + intros f s Hf Hs _. rewrite obj_get_task.
      apply elem_of_cons in Hf as [->|Hf];
        [|apply list_elem_of_singleton in Hf as ->]; cbn; exact Hs.
  - intros old Hold. do 2 eexists. split; [|split].
    + unfold createTask.
      erewrite bind_run by (eapply parse_body_raw; eassumption).
      erewrite try_catch_throw.
      2:{ erewrite bind_run by (apply member_run; exact Hnn).
          rewrite Hid.
          eapply bind_throw.
          rewrite (put_task_run _ n) by (exact Hr || (rewrite obj_get_task; reflexivity)).
          rewrite Hold. reflexivity. }
      reflexivity.
    + reflexivity.
    + reflexivity.
Qed.

Lemma createTask_never_overwrites_witness :
  exists r w1,
    createTask (Examples.request [] TaskDefs.retask) TaskDefs.one_task = (Ok r, w1)
    /\ statusCode r = 500%Z /\ tasks w1 = tasks TaskDefs.one_task.
Proof.
  apply (proj2 (createTask_never_overwrites
                  (Examples.request [] TaskDefs.retask) TaskDefs.one_task TaskDefs.retask
                  (VObj [("id", VNum 1); ("title", VStr "again")]) 1
                  (fun n => eq_refl) eq_refl eq_refl eq_refl
                  (conj eq_refl eq_refl)) TaskDefs.task1).
  reflexivity.
Defined.

(** X18: updateTask changes a task only if it exists.  With a path id
    that reads as an integer a double holds exactly and a body whose
    title and description are strings: a stored task gets these two
    attributes and keeps the others, and the answer is 200; for an id
    that names no task the answer is 500 (not 404) and nothing is
    stored. *)
Theorem updateTask_requires_the_task (ev : event) (w : World) (text : string)
    (data : value) (t d : string) (n : Z) :
  reliable w ->
  task_id ev = Some n -> safe n ->
  body ev = Some text -> JSON.parse text = Some data ->
  Js.prop data "title" = Some (VStr t) -> Text.well_formed t ->
  Js.prop data "description" = Some (VStr d) -> Text.well_formed d ->
  (forall old, tasks w !! KN n = Some old ->
   exists r w1,
     updateTask ev w = (Ok r, w1) /\ statusCode r = 200%Z
     /\ tasks w1
        = <[KN n := Js.obj_set "description" (VStr d) (Js.obj_set "title" (VStr t) old)]>
            (tasks w))
  /\
  (tasks w !! KN n = None ->
   exists r w1, updateTask ev w = (Ok r, w1) /\ statusCode r = 500%Z /\ tasks w1 = tasks w).
Proof.
  intros Hr Hid _ Hb Hdata Ht _ Hd _.
  assert (Hnn : data <> VNull) by (intros ->; discriminate Ht).
  split.
  - intros old Hold. do 2 eexists. split; [|split].
    + unfold updateTask. cbv zeta.
      erewrite bind_run by (eapply parse_body_raw; eassumption).
      apply try_catch_ok.
      erewrite bind_run by (apply member_run; exact Hnn).
      rewrite Ht, Hd, Hid. cbn [fmap option_fmap option_map].
      erewrite bind_run by (rewrite update_task_run by exact Hr; rewrite Hold; reflexivity).
      reflexivity.
    + reflexivity.
    + reflexivity.
  - intros Hnone. do 2 eexists. split; [|split].
    + unfold updateTask. cbv zeta.
      erewrite bind_run by (eapply parse_body_raw; eassumption).
      erewrite try_catch_throw.
      2:{ erewrite bind_run by (apply member_run; exact Hnn).
          rewrite Ht, Hd, Hid. cbn [fmap option_fmap option_map].
          eapply bind_throw. rewrite update_task_run by exact Hr.
          rewrite Hnone. reflexivity. }
      reflexivity.
    + reflexivity.
    + reflexivity.
Qed.

Lemma updateTask_requires_the_task_witness :
  exists r w1,
    updateTask (Examples.request [("id", "1")] TaskDefs.retitle) TaskDefs.one_task
    = (Ok r, w1)
    /\ statusCode r = 200%Z
    /\ tasks w1
       = <[KN 1 := Js.obj_set "description" (VStr "d")
                     (Js.obj_set "title" (VStr "new") TaskDefs.task1)]>
           (tasks TaskDefs.one_task).
Proof.
  apply (proj1 (updateTask_requires_the_task
                  (Examples.request [("id", "1")] TaskDefs.retitle) TaskDefs.one_task
                  TaskDefs.retitle
                  (VObj [("title", VStr "new"); ("description", VStr "d")])
                  "new" "d" 1
                  (fun n => eq_refl) eq_refl (conj eq_refl eq_refl) eq_refl eq_refl
                  eq_refl eq_refl eq_refl eq_refl) TaskDefs.task1).
  reflexivity.
Defined.
End TaskExtras.

Module JobFacts.
Import Runtime Http Casting RuntimeFacts DynamoFacts JsFacts HttpFacts UpdateFacts
  CreateClaims UserRuns.
Local Open Scope list_scope.

Lemma getJobById_run (ev : event) (w : World) (ps : gmap string string) (k : string) :
  reliable w -> pathParameters ev = Some ps -> ps !! "jobId" = Some k -> k <> "" ->
  getJobById ev w
  = (Ok match casting w !! KS k with
        | Some job => successResponse 200 [("success", VBool true); ("job", VObj job)]
        | None => errorResponse 404 "Job not found" None
        end, advance w).
Proof.
  intros Hr Hps Hk Hne. unfold getJobById. apply try_catch_ok.
  erewrite bind_run by (apply path_parameter_run; exact Hps).
  rewrite Hk, present_some by exact Hne. cbn [negb str fmap option_fmap option_map].
  erewrite bind_run by (apply (get_run CASTING_TABLE); [exact Hr | reflexivity | exact Hne]).
  cbn [rows]. now destruct (casting w !! KS k).
Qed.

Lemma deleteJob_run (ev : event) (w : World) (ps : gmap string string) (k : string)
    (item : obj) :
  reliable w -> pathParameters ev = Some ps -> ps !! "jobId" = Some k -> k <> "" ->
  casting w !! KS k = Some item ->
  deleteJob ev w
  = (Ok (successResponse 200
           [("success", VBool true);
            ("message", VStr "Job deleted successfully");
            ("deletedJobId", VStr k)]),
     set_rows CASTING_TABLE (base.delete (KS k) (casting w)) (advance (advance w))).
Proof.
  intros Hr Hps Hk Hne Hit. unfold deleteJob. apply try_catch_ok.
  erewrite bind_run by (apply path_parameter_run; exact Hps).
  rewrite Hk, present_some by exact Hne. cbn [negb str fmap option_fmap option_map].
  erewrite bind_run by (apply (get_run CASTING_TABLE); [exact Hr | reflexivity | exact Hne]).
  cbn [rows]. rewrite Hit.
  erewrite bind_run
    by (apply (delete_run CASTING_TABLE);
        [now apply reliable_advance | reflexivity | exact Hne]).
  reflexivity.
Qed.

Lemma truthy_str (s : string) : s <> "" -> Js.truthy (VStr s) = true.
Proof. intros H. cbn. now rewrite bool_decide_eq_false_2. Qed.

Lemma validate_job (b uid title descr : value) (cat ty : string) :
  Js.prop b "userId" = Some uid -> Js.truthy uid = true ->
  Js.prop b "jobTitle" = Some title -> Js.truthy title = true ->
  Js.prop b "jobDescription" = Some descr -> Js.truthy descr = true ->
  Js.prop b "jobCategory" = Some (VStr cat) -> cat ∈ validCategories ->
  Js.prop b "jobType" = Some (VStr ty) -> ty ∈ validJobTypes ->
  validateRequiredFields b
    ["userId"; "jobTitle"; "jobDescription"; "jobCategory"; "jobType"] = None.
Proof.
  intros H1 T1 H2 T2 H3 T3 H4 C H5 Ty.
  unfold validateRequiredFields. cbn [List.filter].
  rewrite H1, H2, H3, H4, H5. cbn [Js.truthy_opt]. rewrite T1, T2, T3.
  rewrite !truthy_str; [reflexivity| |].
  - intros ->. revert Ty. apply (bool_decide_unpack _). vm_compute. exact I.
  - intros ->. revert C. apply (bool_decide_unpack _). vm_compute. exact I.
Qed.

Lemma createJob_run (ev : event) (w : World) (b uid title descr : value) (cat ty : string) :
  reliable w ->
  JSON.parse (body_text ev) = Some b ->
  Js.prop b "userId" = Some uid -> Js.truthy uid = true ->
  Js.prop b "jobTitle" = Some title -> Js.truthy title = true ->
  Js.prop b "jobDescription" = Some descr -> Js.truthy descr = true ->
  Js.prop b "jobCategory" = Some (VStr cat) -> cat ∈ validCategories ->
  Js.prop b "jobType" = Some (VStr ty) -> ty ∈ validJobTypes ->
  uuid_at w (ticks w) <> "" -> casting w !! KS (uuid_at w (ticks w)) = None ->
  exists job,
    createJob ev w
    = (Ok (successResponse 201
             [("success", VBool true);
              ("message", VStr "Casting job created successfully");
              ("job", VObj job)]),
       set_rows CASTING_TABLE (<[KS (uuid_at w (ticks w)) := job]> (casting w))
         (advance (advance (advance w))))
    /\ Js.obj_get "jobId" job = Some (VStr (uuid_at w (ticks w)))
    /\ Js.obj_get "userId" job = Some uid
    /\ Js.obj_get "jobCategory" job = Some (VStr cat)
    /\ Js.obj_get "view" job = Some (VNum 0)
    /\ Js.obj_get "appliedBy" job = Some (VArr [])
    /\ Js.obj_get "verified" job = Some (VBool false).
Proof.
  intros Hr Hb H1 T1 H2 T2 H3 T3 H4 C H5 Ty Hid Hnew.
  assert (Hnn : b <> VNull) by (intros ->; discriminate H1).
  pose proof (validate_job b uid title descr cat ty H1 T1 H2 T2 H3 T3 H4 C H5 Ty) as Hval.
  eexists. split.
  - unfold createJob. apply try_catch_ok.
    erewrite bind_run by (apply parse_body_run; exact Hb).
    erewrite bind_run by (destruct b; [contradiction | reflexivity ..]).
    cbv zeta. rewrite Hval. rewrite H4, H5. cbn [includes].
    rewrite (bool_decide_eq_true_2 _ C), (bool_decide_eq_true_2 _ Ty). cbn [negb].
    erewrite bind_run by reflexivity.
    erewrite bind_run by reflexivity.
    rewrite H1, H2, H3. cbn [literal].
    erewrite bind_run.
    2:{ apply (put_new_run CASTING_TABLE _ (uuid_at w (ticks w))).
        - now repeat apply reliable_advance.
        - reflexivity.
        - exact Hid.
        - reflexivity.
        - reflexivity.
        - exact Hnew. }
    reflexivity.
  - repeat split; reflexivity.
Qed.
End JobFacts.

Module JobExtras.
Import Runtime Http Casting RuntimeFacts DynamoFacts JsFacts HttpFacts UpdateFacts
  CreateClaims UserRuns JobFacts JobDefs Examples.
Local Open Scope list_scope.

(** X19: a job posted through [createJob] starts with the generated id, zero views, no
    applicants and unverified, whatever counters the body carries; [getJobById] then
    returns exactly the stored job, [deleteJob] removes it, and a later [getJobById]
    answers 404. *)
Theorem posted_job_lifecycle (ev read : event) (w : World) (b uid title descr : value)
    (cat ty : string) (ps : gmap string string) :
  reliable w ->
  JSON.parse (body_text ev) = Some b ->
  Js.prop b "userId" = Some uid -> Js.truthy uid = true ->
  Js.prop b "jobTitle" = Some title -> Js.truthy title = true ->
  Js.prop b "jobDescription" = Some descr -> Js.truthy descr = true ->
  Js.prop b "jobCategory" = Some (VStr cat) -> cat ∈ validCategories ->
  Js.prop b "jobType" = Some (VStr ty) -> ty ∈ validJobTypes ->
  uuid_at w (ticks w) <> "" -> casting w !! KS (uuid_at w (ticks w)) = None ->
  pathParameters read = Some ps -> ps !! "jobId" = Some (uuid_at w (ticks w)) ->
  exists job w1 w2 w3,
    createJob ev w
    = (Ok (successResponse 201
             [("success", VBool true);
              ("message", VStr "Casting job created successfully");
              ("job", VObj job)]), w1)
    /\ Js.obj_get "jobId" job = Some (VStr (uuid_at w (ticks w)))
    /\ Js.obj_get "view" job = Some (VNum 0)
    /\ Js.obj_get "appliedBy" job = Some (VArr [])
    /\ Js.obj_get "verified" job = Some (VBool false)
    /\ getJobById read w1
       = (Ok (successResponse 200 [("success", VBool true); ("job", VObj job)]), w2)
    /\ casting w2 = casting w1
    /\ deleteJob read w2
       = (Ok (successResponse 200
                [("success", VBool true);
                 ("message", VStr "Job deleted successfully");
                 ("deletedJobId", VStr (uuid_at w (ticks w)))]), w3)
    /\ casting w3 = casting w
    /\ fst (getJobById read w3) = Ok (errorResponse 404 "Job not found" None).
Proof.
  intros Hr Hb H1 T1 H2 T2 H3 T3 H4 C H5 Ty Hid Hnew Hps Hk.
  destruct (createJob_run ev w b uid title descr cat ty
              Hr Hb H1 T1 H2 T2 H3 T3 H4 C H5 Ty Hid Hnew)
    as (job & Hrun & Jid & _ & _ & Jv & Ja & Jver).
  set (k := uuid_at w (ticks w)) in *.
  set (w1 := set_rows CASTING_TABLE (<[KS k := job]> (casting w))
               (advance (advance (advance w)))) in *.
  assert (Hr1 : reliable w1)
    by (apply reliable_set_rows; now repeat apply reliable_advance).
  assert (Hc1 : casting w1 !! KS k = Some job) by (cbn; apply lookup_insert_eq).
  pose proof (getJobById_run read w1 ps k Hr1 Hps Hk Hid) as Hget.
  rewrite Hc1 in Hget.
  assert (Hr2 : reliable (advance w1)) by now apply reliable_advance.
  pose proof (deleteJob_run read (advance w1) ps k job Hr2 Hps Hk Hid Hc1) as Hdel.
  set (w3 := set_rows CASTING_TABLE (base.delete (KS k) (casting (advance w1)))
               (advance (advance (advance w1)))) in *.
  assert (Hr3 : reliable w3)
    by (apply reliable_set_rows; now repeat apply reliable_advance).
  assert (Hc3 : casting w3 = casting w).
  { cbn. rewrite delete_insert_eq. now apply delete_id. }
  exists job, w1, (advance w1), w3.
  repeat split; try assumption.
  rewrite (getJobById_run read w3 ps k Hr3 Hps Hk Hid).
  cbn [fst]. rewrite Hc3. fold k in Hnew. now rewrite Hnew.
Qed.

Lemma posted_job_lifecycle_witness :
  exists job w1 w2 w3,
    createJob (request [] new_job) quiet
    = (Ok (successResponse 201
             [("success", VBool true);
              ("message", VStr "Casting job created successfully");
              ("job", VObj job)]), w1)
    /\ Js.obj_get "jobId" job = Some (VStr (uuid_at quiet (ticks quiet)))
    /\ Js.obj_get "view" job = Some (VNum 0)
    /\ Js.obj_get "appliedBy" job = Some (VArr [])
    /\ Js.obj_get "verified" job = Some (VBool false)
    /\ getJobById (request [("jobId", uuid_at quiet (ticks quiet))] "") w1
       = (Ok (successResponse 200 [("success", VBool true); ("job", VObj job)]), w2)
    /\ casting w2 = casting w1
    /\ deleteJob (request [("jobId", uuid_at quiet (ticks quiet))] "") w2
       = (Ok (successResponse 200
                [("success", VBool true);
                 ("message", VStr "Job deleted successfully");
                 ("deletedJobId", VStr (uuid_at quiet (ticks quiet)))]), w3)
    /\ casting w3 = casting quiet
    /\ fst (getJobById (request [("jobId", uuid_at quiet (ticks quiet))] "") w3)
       = Ok (errorResponse 404 "Job not found" None).
Proof.
  apply (posted_job_lifecycle (request [] new_job) _ quiet new_job_body
           (VStr "u1") (VStr "Lead") (VStr "A lead role") "Acting" "Online"
           (list_to_map [("jobId", uuid_at quiet (ticks quiet))])).
  - intros n. reflexivity.
  - vm_compute. reflexivity.
  - reflexivity.
  - reflexivity.
  - reflexivity.
  - reflexivity.
  - reflexivity.
  - reflexivity.
  - reflexivity.
  - apply (bool_decide_unpack _). vm_compute. exact I.
  - reflexivity.
  - apply (bool_decide_unpack _). vm_compute. exact I.
  - vm_compute. discriminate.
  - reflexivity.
  - reflexivity.
  - reflexivity.
Defined.
End JobExtras.

Module AuthFacts.
Import Runtime Http Auth RuntimeFacts HttpFacts AuthDefs.
Local Open Scope list_scope.

Lemma password_problem_string (below : string -> Z -> bool) (p : string) (w : World) :
  password_problem below (VStr p) w
  = (Ok (if (Casting.utf16_length p <? 8)%Z
         then Some "Password must be at least 8 characters"
         else if negb (has_upper p)
         then Some "Password must contain at least one uppercase letter"
         else if negb (has_lower p)
         then Some "Password must contain at least one lowercase letter"
         else if negb (has_digit p)
         then Some "Password must contain at least one number"
         else None), w).
Proof.
  unfold password_problem. cbn [Casting.length_of Auth.below].
  erewrite bind_run by reflexivity.
  destruct (Casting.utf16_length p <? 8)%Z; [reflexivity|].
  erewrite bind_run by reflexivity.
  destruct (has_upper p); [|reflexivity].
  destruct (has_lower p); [|reflexivity].
  destruct (has_digit p); reflexivity.
Qed.

Lemma password_problem_strong (below : string -> Z -> bool) (p : string) (w : World) :
  strong p = true -> password_problem below (VStr p) w = (Ok None, w).
Proof.
  unfold strong. rewrite !andb_true_iff, Z.leb_le. intros [[[Hl Hu] Hlo] Hd].
  rewrite password_problem_string, Hu, Hlo, Hd.
  now replace (Casting.utf16_length p <? 8)%Z with false by (symmetry; apply Z.ltb_ge; lia).
Qed.

Lemma password_problem_weak (below : string -> Z -> bool) (p : string) (w : World) :
  strong p = false -> exists msg, password_problem below (VStr p) w = (Ok (Some msg), w).
Proof.
  unfold strong. intros H. rewrite password_problem_string.
  destruct (Z.ltb_spec (Casting.utf16_length p) 8) as [Hs|Hs]; [eauto|].
  replace (8 <=? Casting.utf16_length p)%Z with true in H by (symmetry; apply Z.leb_le; lia).
  destruct (has_upper p); [|eauto].
  destruct (has_lower p); [|eauto].
  destruct (has_digit p); [discriminate H | eauto].
Qed.

Lemma truthy_text (s : string) : s <> "" -> Js.truthy (VStr s) = true.
Proof. intros H. cbn. now rewrite bool_decide_eq_false_2. Qed.

(** Runs an email sign-up through the checks that precede the password rules. *)
Ltac through_checks Hb Hnn Hname He Hp Hn Hph Hen Hpn Hnt :=
  erewrite bind_run by (apply parse_body_run; exact Hb);
  erewrite bind_run by (match goal with |- destructure ?b _ = _ =>
                          destruct b; [contradiction | reflexivity ..] end);
  cbv zeta; rewrite ?Hname, He, Hp, Hn;
  match goal with
  | |- context [Js.prop ?b "phone_number"] =>
      destruct (Js.prop b "phone_number") as [?ph|]
  end;
  cbn [Js.truthy_opt] in Hph |- *;
  rewrite (truthy_text _ Hen), (truthy_text _ Hpn), Hnt, ?Hph;
  cbn [negb andb orb];
  (erewrite bind_run
     by (cbn [to_string_opt to_string]; erewrite bind_run by reflexivity; reflexivity)).

Lemma login_name_email (b : value) (e : string) :
  Js.prop b "email" = Some (VStr e) -> e <> "" -> login_name b = Some (VStr e).
Proof.
  intros He Hen. unfold login_name, truthy_field. rewrite He. cbn [Js.truthy_opt].
  now rewrite (truthy_text e Hen).
Qed.

Lemma signUp_weak (below : string -> Z -> bool) (ev : event) (w : World) (b name : value)
    (e p : string) :
  JSON.parse (body_text ev) = Some b ->
  Js.prop b "email" = Some (VStr e) -> e <> "" ->
  Js.truthy_opt (Js.prop b "phone_number") = false ->
  Js.prop b "password" = Some (VStr p) -> p <> "" ->
  Js.prop b "name" = Some name -> Js.truthy name = true ->
  emailRegex e && strong p = false ->
  exists msg, signUp below ev w = (Ok (errorResponse 400 msg None), w).
Proof.
  intros Hb He Hen Hph Hp Hpn Hn Hnt Hweak.
  assert (Hnn : b <> VNull) by (intros ->; discriminate He).
  pose proof (login_name_email b e He Hen) as Hname.
  destruct (emailRegex e) eqn:Hre.
  - cbn [andb] in Hweak.
    destruct (password_problem_weak below p w Hweak) as [msg Hmsg].
    exists msg. unfold signUp. apply try_catch_ok.
    through_checks Hb Hnn Hname He Hp Hn Hph Hen Hpn Hnt.
    all: rewrite Hre; cbn [negb].
    all: erewrite bind_run by reflexivity; cbn [negb default from_option id].
    all: erewrite bind_run by exact Hmsg.
    all: reflexivity.
  - exists "Invalid email format". unfold signUp. apply try_catch_ok.
    through_checks Hb Hnn Hname He Hp Hn Hph Hen Hpn Hnt.
    all: rewrite Hre; reflexivity.
Qed.

Lemma signUp_strong (below : string -> Z -> bool) (ev : event) (w : World) (b name : value)
    (e p : string) :
  JSON.parse (body_text ev) = Some b ->
  Js.prop b "email" = Some (VStr e) -> e <> "" ->
  Js.truthy_opt (Js.prop b "phone_number") = false ->
  Js.prop b "password" = Some (VStr p) -> p <> "" ->
  Js.prop b "name" = Some name -> Js.truthy name = true ->
  emailRegex e && strong p = true ->
  (forall result,
     cognito_at w (ticks w) "signUp" (registration w name e p) = Ok (VObj result) ->
     signUp below ev w
     = (Ok (successResponse 201
              (literal
                 [("success", Some (VBool true));
                  ("message",
                   Some (VStr "User registered successfully. Check your email/SMS for confirmation code."));
                  ("userId", Js.obj_get "UserSub" result);
                  ("userConfirmed", Some (VBool false))])),
        advance w))
  /\ (forall err,
        cognito_at w (ticks w) "signUp" (registration w name e p) = Throw err ->
        code err = Some "UsernameExistsException" ->
        signUp below ev w
        = (Ok (errorResponse 409 "Email or phone number already registered" None),
           advance w)).
Proof.
  intros Hb He Hen Hph Hp Hpn Hn Hnt Hok.
  assert (Hnn : b <> VNull) by (intros ->; discriminate He).
  apply andb_true_iff in Hok as [Hre Hstrong].
  pose proof (login_name_email b e He Hen) as Hname.
  split.
  - intros result Hres. unfold signUp. apply try_catch_ok.
    through_checks Hb Hnn Hname He Hp Hn Hph Hen Hpn Hnt.
    all: rewrite Hre; cbn [negb].
    all: erewrite bind_run by reflexivity; cbn [negb default from_option id].
    all: erewrite bind_run by (apply password_problem_strong; exact Hstrong).
    all: cbv beta iota.
    all: erewrite bind_run by reflexivity.
    all: erewrite bind_run
           by (unfold cognito; unfold registration in Hres;
               cbn [List.app literal] in Hres |- *; rewrite Hres; reflexivity).
    all: erewrite bind_run by reflexivity.
    all: reflexivity.
  - intros err Hres Hcode. unfold signUp.
    erewrite try_catch_throw.
    2:{ through_checks Hb Hnn Hname He Hp Hn Hph Hen Hpn Hnt.
        all: rewrite Hre; cbn [negb].
        all: erewrite bind_run by reflexivity; cbn [negb default from_option id].
        all: erewrite bind_run by (apply password_problem_strong; exact Hstrong).
        all: cbv beta iota.
        all: erewrite bind_run by reflexivity.
        all: erewrite bind_throw
               by (unfold cognito; unfold registration in Hres;
                   cbn [List.app literal] in Hres |- *; rewrite Hres; reflexivity).
        all: reflexivity. }
    cbv beta. rewrite Hcode. reflexivity.
Qed.
End AuthFacts.

Module AuthExtras.
Import Runtime Http Auth RuntimeFacts HttpFacts AuthDefs AuthFacts Examples.
Local Open Scope list_scope.

(** X20: with the client id configured, an email sign-up whose name
    and password are strings reaches the identity provider only when
    the address has the accepted form and the password has eight
    UTF-16 units, an upper-case letter, a lower-case letter and a
    digit; otherwise signUp answers 400 without calling the provider.
    When the provider is called, it is sent the client id, the address
    as user name, the password, and the name and email attributes; its
    answer gives the userId of the 201 answer, and its
    UsernameExistsException becomes a 409. *)
Theorem signUp_checks_before_registering (below : string -> Z -> bool) (ev : event)
    (w : World) (b : value) (e p nm cid : string) :
  process_env w !! "USER_POOL_CLIENT_ID" = Some cid -> cid <> "" ->
  JSON.parse (body_text ev) = Some b ->
  Js.prop b "email" = Some (VStr e) -> e <> "" ->
  Js.truthy_opt (Js.prop b "phone_number") = false ->
  Js.prop b "password" = Some (VStr p) -> p <> "" ->
  Js.prop b "name" = Some (VStr nm) -> nm <> "" ->
  registration w (VStr nm) e p
  = [("ClientId", VStr cid); ("Username", VStr e); ("Password", VStr p);
     ("UserAttributes",
      VArr [VObj [("Name", VStr "name"); ("Value", VStr nm)];
            VObj [("Name", VStr "email"); ("Value", VStr e)]])]
  /\ (emailRegex e && strong p = false ->
      exists msg, signUp below ev w = (Ok (errorResponse 400 msg None), w))
  /\ (emailRegex e && strong p = true ->
      (forall result,
         cognito_at w (ticks w) "signUp" (registration w (VStr nm) e p)
         = Ok (VObj result) ->
         signUp below ev w
         = (Ok (successResponse 201
                  (literal
                     [("success", Some (VBool true));
                      ("message",
                       Some (VStr "User registered successfully. Check your email/SMS for confirmation code."));
                      ("userId", Js.obj_get "UserSub" result);
                      ("userConfirmed", Some (VBool false))])),
            advance w))
      /\ (forall err,
            cognito_at w (ticks w) "signUp" (registration w (VStr nm) e p) = Throw err ->
            code err = Some "UsernameExistsException" ->
            signUp below ev w
            = (Ok (errorResponse 409 "Email or phone number already registered" None),
               advance w))).
Proof.
  intros Hcid _ Hb He Hen Hph Hp Hpn Hn Hnm.
  pose proof (truthy_text nm Hnm) as Hnt.
  split; [|split].
  - unfold registration. rewrite Hcid. reflexivity.
  - now apply (signUp_weak below ev w b (VStr nm) e p).
  - now apply (signUp_strong below ev w b (VStr nm) e p).
Qed.

Lemma signUp_checks_before_registering_witness :
  signUp never_below (request [] sign_up_ann) crowded
  = (Ok (errorResponse 409 "Email or phone number already registered" None),
     advance crowded).
Proof.
  refine (proj2 (proj2 (proj2 (signUp_checks_before_registering never_below
                                 (request [] sign_up_ann) crowded
                                 (VObj [("email", VStr "a@b.co");
                                        ("password", VStr "Secret12");
                                        ("name", VStr "Ann")])
                                 "a@b.co" "Secret12" "Ann" "client-1"
                                 _ _ _ _ _ _ _ _ _ _)) _)
                taken _ _).
  - reflexivity.
  - discriminate.
  - vm_compute. reflexivity.
  - reflexivity.
  - discriminate.
  - reflexivity.
  - reflexivity.
  - discriminate.
  - reflexivity.
  - discriminate.
  - vm_compute. reflexivity.
  - reflexivity.
  - reflexivity.
Defined.
End AuthExtras.

Module EmailFacts.
Import Auth.
Local Open Scope list_scope.

Lemma split_at_sign_spec (l a b : list N) :
  split_at_sign l = Some (a, b) ->
  l = a ++ at_sign :: b /\ Forall (fun c => (c =? at_sign)%N = false) a.
Proof.
  revert a b. induction l as [|c l IH]; intros a b; cbn [split_at_sign]; [discriminate|].
  destruct (c =? at_sign)%N eqn:E.
  - intros [= <- <-]. apply N.eqb_eq in E as ->. split; [reflexivity | constructor].
  - destruct (split_at_sign l) as [[a' b']|]; [|discriminate].
    intros [= <- <-]. destruct (IH a' b' eq_refl) as [-> Ha].
    split; [reflexivity | now constructor].
Qed.

Lemma split_at_sign_first (a b : list N) :
  forallb plain a = true -> split_at_sign (a ++ at_sign :: b) = Some (a, b).
Proof.
  induction a as [|c a IH]; cbn [forallb List.app split_at_sign].
  - now rewrite N.eqb_refl.
  - intros [Hc Ha]%andb_true_iff. unfold plain in Hc.
    apply andb_true_iff in Hc as [_ Hc]. apply negb_true_iff in Hc.
    now rewrite Hc, (IH Ha).
Qed.

Lemma removelast_snoc {A} (l : list A) (x : A) : removelast (l ++ [x]) = l.
Proof. now rewrite removelast_app, app_nil_r by discriminate. Qed.

Lemma nonempty_snoc {A} (l : list A) : l <> [] -> exists l' x, l = l' ++ [x].
Proof.
  intros H. destruct (exists_last H) as (l' & x & ->). eauto.
Qed.

Lemma plain_dot : plain dot = true.
Proof. apply (bool_decide_unpack _). vm_compute. exact I. Qed.

Lemma dotted_spec (d : list N) :
  dotted d = true <->
  exists host tld, d = host ++ dot :: tld /\ host <> [] /\ tld <> []
                   /\ forallb plain (host ++ tld) = true.
Proof.
  unfold dotted. split.
  - intros [Hp Hd]%andb_true_iff. destruct d as [|c rest]; [discriminate|].
    apply existsb_exists in Hd as (x & Hin & Hx). apply N.eqb_eq in Hx as ->.
    apply in_split in Hin as (u & v & Huv).
    assert (Hrest : rest <> []) by (intros ->; now destruct u).
    destruct (nonempty_snoc rest Hrest) as (r' & z & ->).
    rewrite removelast_snoc in Huv. subst r'.
    exists (c :: u), (v ++ [z]). repeat split.
    + cbn [List.app]. now rewrite <- app_assoc.
    + discriminate.
    + now destruct v.
    + cbn [List.app forallb] in Hp |- *.
      rewrite !forallb_app in Hp. cbn [forallb] in Hp.
      rewrite !forallb_app. cbn [forallb]. rewrite !andb_true_r in Hp |- *.
      rewrite !andb_true_iff in Hp |- *. intuition.
  - intros (host & tld & -> & Hh & Ht & Hp).
    rewrite forallb_app in Hp |- *. cbn [forallb]. rewrite plain_dot.
    apply andb_true_iff in Hp as [Hp1 Hp2]. rewrite Hp1, Hp2. cbn [andb].
    destruct host as [|c u]; [contradiction|]. cbn [List.app].
    destruct (nonempty_snoc tld Ht) as (t' & z & ->).
    replace (u ++ dot :: t' ++ [z]) with ((u ++ dot :: t') ++ [z])
      by now rewrite <- app_assoc.
    rewrite removelast_snoc. apply existsb_exists. exists dot.
    split; [apply in_elt | apply N.eqb_refl].
Qed.
End EmailFacts.

Module EmailExtras.
Import Auth EmailFacts.
Local Open Scope list_scope.

(** X21: the email check of signUp accepts exactly the strings made of a non-empty
    local part, one at sign, and a domain with a dot that is neither its first nor
    its last character, none of these parts holding white space or a further at
    sign. *)
Theorem emailRegex_language (s : string) :
  emailRegex s = true <->
  exists name host tld,
    code_points s = name ++ at_sign :: host ++ dot :: tld
    /\ name <> [] /\ host <> [] /\ tld <> []
    /\ forallb plain (name ++ host ++ tld) = true.
Proof.
  unfold emailRegex. split.
  - destruct (split_at_sign (code_points s)) as [[name domain]|] eqn:E; [|discriminate].
    rewrite !andb_true_iff. intros [[Hn Hp] Hd].
    apply split_at_sign_spec in E as [E _].
    apply dotted_spec in Hd as (host & tld & -> & Hh & Ht & Hpd).
    exists name, host, tld. repeat split; try assumption.
    + apply negb_true_iff, bool_decide_eq_false in Hn. exact Hn.
    + rewrite forallb_app. now rewrite Hp, Hpd.
  - intros (name & host & tld & -> & Hn & Hh & Ht & Hp).
    rewrite forallb_app in Hp. apply andb_true_iff in Hp as [Hp1 Hp2].
    rewrite (split_at_sign_first name _ Hp1), Hp1.
    rewrite bool_decide_eq_false_2 by exact Hn. cbn [negb andb].
    apply dotted_spec. exists host, tld. repeat split; assumption.
Qed.
End EmailExtras.
